(** * Binary Ninja MCP bridge: transport client, identifier handling and
      operation handlers

    A shallow embedding of [bridge/src/client.ts] and [bridge/src/index.ts].
    A JavaScript string is modelled by the Rocq string of its UTF-8 bytes, the
    values a response carries as an untyped [jsval], exceptions as an explicit
    outcome, and the network as an oracle together with the log of requests
    that were issued.  The HTTP library stands between the two: it decides
    by the status of a response whether the promise of a request resolves. *)

From Stdlib Require Import String Ascii List ZArith Lia Bool.
From Stdlib Require Import DecimalString.
Import ListNotations.
Local Open Scope string_scope.
Local Open Scope Z_scope.

(** ** JavaScript string primitives *)

Module JsString.

Definition newline : ascii := "010"%char.

(** White space, as [String.prototype.trim] removes it and [parseInt]
    skips it, is the characters WhiteSpace and LineTerminator of ECMAScript.
    Those of one byte: TAB, LF, VT, FF, CR and SPACE. *)
Definition is_white (c : ascii) : bool :=
  let n := nat_of_ascii c in
  ((9 <=? n) && (n <=? 13))%nat || (n =? 32)%nat.

(** Of two bytes: the no-break space U+00A0, encoded C2 A0. *)
Definition is_white2 (c d : ascii) : bool :=
  ((nat_of_ascii c =? 194) && (nat_of_ascii d =? 160))%nat.

(** Of three bytes: U+1680 (E1 9A 80), U+2000 to U+200A (E2 80 80 to
    E2 80 8A), the line and paragraph separators U+2028 and U+2029
    (E2 80 A8, E2 80 A9), U+202F (E2 80 AF), U+205F (E2 81 9F), U+3000
    (E3 80 80) and the byte order mark U+FEFF (EF BB BF). *)
Definition is_white3 (c d e : ascii) : bool :=
  let a := nat_of_ascii c in
  let b := nat_of_ascii d in
  let n := nat_of_ascii e in
  ((a =? 225) && (b =? 154) && (n =? 128)
   || (a =? 226) && (b =? 128)
        && (((128 <=? n) && (n <=? 138)) || (n =? 168) || (n =? 169) || (n =? 175))
   || (a =? 226) && (b =? 129) && (n =? 159)
   || (a =? 227) && (b =? 128) && (n =? 128)
   || (a =? 239) && (b =? 187) && (n =? 191))%nat.

Definition is_digit (c : ascii) : bool :=
  let n := nat_of_ascii c in ((48 <=? n) && (n <=? 57))%nat.

(** The text that follows the white-space character [s] begins with, when
    it begins with one. *)
Definition skip_white (s : string) : option string :=
  match s with
  | String c r =>
      if is_white c then Some r
      else match r with
           | String d r2 =>
               if is_white2 c d then Some r2
               else match r2 with
                    | String e r3 => if is_white3 c d e then Some r3 else None
                    | EmptyString => None
                    end
           | EmptyString => None
           end
  | EmptyString => None
  end.

Fixpoint trimStart (s : string) : string :=
  match s with
  | String c r =>
      if is_white c then trimStart r
      else match r with
           | String d r2 =>
               if is_white2 c d then trimStart r2
               else match r2 with
                    | String e r3 => if is_white3 c d e then trimStart r3 else s
                    | EmptyString => s
                    end
           | EmptyString => s
           end
  | EmptyString => EmptyString
  end.

(** The string consists of white space only. *)
Definition all_white (s : string) : bool :=
  match trimStart s with
  | EmptyString => true
  | String _ _ => false
  end.

(** [trimEnd] cuts the string where what remains is white space only.  A
    byte that begins a white-space character begins a character, so the cut
    never falls inside one. *)
Fixpoint trimEnd (s : string) : string :=
  match s with
  | EmptyString => EmptyString
  | String c s' => if all_white s then EmptyString else String c (trimEnd s')
  end.

Definition trim (s : string) : string := trimEnd (trimStart s).

(** [toLowerCase], as far as a test for the prefix [0x] can tell: the ASCII
    letters are converted and every other byte stays.  No character other
    than [X] has [x] as its lower case, and none other than [0] has [0]. *)
Definition lower_char (c : ascii) : ascii :=
  let n := nat_of_ascii c in
  if ((65 <=? n) && (n <=? 90))%nat then ascii_of_nat (n + 32) else c.

Fixpoint toLowerCase (s : string) : string :=
  match s with
  | EmptyString => EmptyString
  | String c s' => String (lower_char c) (toLowerCase s')
  end.

Definition startsWith (s p : string) : bool := String.prefix p s.

Fixpoint all_digits (s : string) : bool :=
  match s with
  | EmptyString => true
  | String c s' => is_digit c && all_digits s'
  end.

(** [/^\d+$/.test(s)] *)
Definition test_digits (s : string) : bool :=
  match s with
  | EmptyString => false
  | _ => all_digits s
  end.

(** [s.split("\n")]: never empty; the empty string splits to [[""]]. *)
Fixpoint split_newline (s : string) : list string :=
  match s with
  | EmptyString => [EmptyString]
  | String c s' =>
      if Ascii.eqb c newline then EmptyString :: split_newline s'
      else match split_newline s' with
           | l :: ls => String c l :: ls
           | [] => [String c EmptyString]
           end
  end.

(** [xs.join(sep)] for an array of strings. *)
Fixpoint join (sep : string) (xs : list string) : string :=
  match xs with
  | [] => EmptyString
  | [x] => x
  | x :: rest => x ++ sep ++ join sep rest
  end.

(** [hay.includes(needle)] as a proposition. *)
Definition includes (hay needle : string) : Prop :=
  exists pre post, hay = pre ++ needle ++ post.

Fixpoint has_char (c : ascii) (s : string) : bool :=
  match s with
  | EmptyString => false
  | String d s' => Ascii.eqb c d || has_char c s'
  end.

(** The part of [s] before its first newline (all of [s] when it has
    none). *)
Fixpoint before_newline (s : string) : string :=
  match s with
  | EmptyString => EmptyString
  | String c s' =>
      if Ascii.eqb c newline then EmptyString else String c (before_newline s')
  end.

(** A byte that continues a character of several bytes. *)
Definition is_continuation (c : ascii) : bool :=
  let n := nat_of_ascii c in ((128 <=? n) && (n <? 192))%nat.

(** [s.length]: the number of UTF-16 code units.  A character of up to
    three bytes is one unit, a character of four bytes (first byte F0 or
    above) is two. *)
Fixpoint utf16_length (s : string) : nat :=
  match s with
  | EmptyString => 0
  | String c s' =>
      ((if is_continuation c then 0 else if 240 <=? nat_of_ascii c then 2 else 1)
       + utf16_length s')%nat
  end.

(** The characters of a string, one string each: a byte joins the
    character before it when it is a continuation byte. *)
Fixpoint characters (s : string) : list string :=
  match s with
  | EmptyString => []
  | String c s' =>
      let continued := match s' with
                       | String d _ => is_continuation d
                       | EmptyString => false
                       end in
      match characters s' with
      | p :: ps => if continued then String c p :: ps else String c EmptyString :: p :: ps
      | [] => [String c EmptyString]
      end
  end.

(** Decimal rendering of an integral Number. *)
Definition of_Z (z : Z) : string := NilZero.string_of_int (Z.to_int z).

Definition of_nat (n : nat) : string := of_Z (Z.of_nat n).

Definition LF : string := String newline EmptyString.

Definition TAB : string := String (ascii_of_nat 9) EmptyString.

End JsString.

Import JsString.

(** ** Identifier classification *)

(** The test written out at the call sites of [get_il],
    [rename_multi_variables], [get_stack_frame_vars] and
    [set_function_prototype]:
    [ident.toLowerCase().startsWith("0x") || /^\d+$/.test(ident)]. *)
Definition looks_like_address (ident : string) : bool :=
  startsWith (toLowerCase ident) "0x" || test_digits ident.

(** The test written out in [hexdump_data] and [get_data_decl]:
    [ident.startsWith("0x")]. *)
Definition starts_with_0x (ident : string) : bool :=
  startsWith ident "0x".

Inductive ident_kind := AddressKind | NameKind.

(** The rule of the specification, applied to the raw argument. *)
Definition classify (s : string) : ident_kind :=
  let ident := trim s in
  if looks_like_address ident then AddressKind else NameKind.

(** ** Untyped values

    What a parsed response body, or a property read from it, may be.  An
    object keeps its properties in insertion order.  Numbers are the
    integral ones. *)

#[warnings="-register-all"]
Inductive jsval :=
| JUndefined
| JNull
| JBool (b : bool)
| JNum (z : Z)
| JStr (s : string)
| JArr (elems : list jsval)
| JObj (props : list (string * jsval)).

Module Js.

(** ToBoolean *)
Definition truthy (v : jsval) : bool :=
  match v with
  | JUndefined | JNull => false
  | JBool b => b
  | JNum z => negb (z =? 0)
  | JStr s => negb (String.eqb s "")
  | JArr _ | JObj _ => true
  end.

(** [a || b] *)
Definition or (a b : jsval) : jsval := if truthy a then a else b.

Definition is_nullish (v : jsval) : bool :=
  match v with JUndefined | JNull => true | _ => false end.

(** [typeof v === "object"] *)
Definition typeof_object (v : jsval) : bool :=
  match v with JNull | JArr _ | JObj _ => true | _ => false end.

Definition isArray (v : jsval) : bool :=
  match v with JArr _ => true | _ => false end.

Fixpoint lookup (k : string) (props : list (string * jsval)) : option jsval :=
  match props with
  | [] => None
  | (k', v) :: rest => if String.eqb k' k then Some v else lookup k rest
  end.

Definition is_index (k : string) (len : nat) : bool :=
  existsb (fun i => String.eqb (of_nat i) k) (seq 0 len).

(** Own properties of an object or an array.  The keys the handlers ask
    for are never inherited ones. *)
Definition has_own (k : string) (v : jsval) : bool :=
  match v with
  | JObj props => match lookup k props with Some _ => true | None => false end
  | JArr elems => String.eqb k "length" || is_index k (List.length elems)
  | _ => false
  end.

(** [v.k] for a value that is neither [undefined] nor [null]. *)
Definition prop (v : jsval) (k : string) : jsval :=
  match v with
  | JObj props => match lookup k props with Some x => x | None => JUndefined end
  | JArr elems =>
      if String.eqb k "length" then JNum (Z.of_nat (List.length elems))
      else match find (fun ix => String.eqb (of_nat (fst ix)) k)
                   (combine (seq 0 (List.length elems)) elems) with
           | Some (_, x) => x
           | None => JUndefined
           end
  | JStr s => if String.eqb k "length" then JNum (Z.of_nat (utf16_length s))
              else JUndefined
  | _ => JUndefined
  end.

(** [String(v)], which is also what a template literal inserts. *)
Fixpoint to_string (v : jsval) : string :=
  match v with
  | JUndefined => "undefined"
  | JNull => "null"
  | JBool true => "true"
  | JBool false => "false"
  | JNum z => of_Z z
  | JStr s => s
  | JArr elems =>
      join "," (map (fun x => if is_nullish x then "" else to_string x) elems)
  | JObj _ => "[object Object]"
  end.

Definition hex_digit (n : nat) : ascii :=
  if (n <? 10)%nat then ascii_of_nat (48 + n) else ascii_of_nat (87 + n).

Definition dquote : string := String (ascii_of_nat 34) EmptyString.

Definition quote_char (c : ascii) : string :=
  let n := nat_of_ascii c in
  if (n =? 34)%nat then String "\" dquote
  else if (n =? 92)%nat then "\\"
  else if (n =? 8)%nat then "\b"
  else if (n =? 12)%nat then "\f"
  else if (n =? 10)%nat then "\n"
  else if (n =? 13)%nat then "\r"
  else if (n =? 9)%nat then "\t"
  else if (n <? 32)%nat then
    "\u00" ++ String (hex_digit (n / 16)) (String (hex_digit (n mod 16)) "")
  else String c "".

Fixpoint quote_body (s : string) : string :=
  match s with
  | EmptyString => EmptyString
  | String c s' => quote_char c ++ quote_body s'
  end.

(** [JSON.stringify] of a string. *)
Definition quote (s : string) : string := dquote ++ quote_body s ++ dquote.

End Js.

(** [JSON.stringify(v)] without indentation.  Inside an array [undefined]
    prints as [null]; a property whose value is [undefined] is left out.
    At top level [JSON.stringify(undefined)] is [undefined], which a text
    position renders as the word. *)
Fixpoint JSON_stringify (v : jsval) : string :=
  match v with
  | JUndefined => "undefined"
  | JNull => "null"
  | JBool true => "true"
  | JBool false => "false"
  | JNum z => of_Z z
  | JStr s => Js.quote s
  | JArr elems =>
      "[" ++ join "," (map (fun x => match x with
                                     | JUndefined => "null"
                                     | _ => JSON_stringify x
                                     end) elems) ++ "]"
  | JObj props =>
      "{" ++ join ","
        ((fix members (ps : list (string * jsval)) : list string :=
            match ps with
            | [] => []
            | (k, JUndefined) :: rest => members rest
            | (k, x) :: rest => (Js.quote k ++ ":" ++ JSON_stringify x) :: members rest
            end) props) ++ "}"
  end.

(** [JSON.stringify(v, null, 2)]: as above, with every element or member
    on a line of its own, two spaces deeper than [ind], and [": "] after a
    key.  An array without elements and an object without printed members
    stay [[]] and [{}]. *)
Fixpoint JSON_stringify_indented (ind : string) (v : jsval) : string :=
  match v with
  | JUndefined => "undefined"
  | JNull => "null"
  | JBool true => "true"
  | JBool false => "false"
  | JNum z => of_Z z
  | JStr s => Js.quote s
  | JArr elems =>
      match elems with
      | [] => "[]"
      | _ =>
          let inner := ind ++ "  " in
          "[" ++ LF ++ inner
            ++ join ("," ++ LF ++ inner)
                 (map (fun x => match x with
                                | JUndefined => "null"
                                | _ => JSON_stringify_indented inner x
                                end) elems)
            ++ LF ++ ind ++ "]"
      end
  | JObj props =>
      let inner := ind ++ "  " in
      match (fix members (ps : list (string * jsval)) : list string :=
               match ps with
               | [] => []
               | (k, JUndefined) :: rest => members rest
               | (k, x) :: rest =>
                   (Js.quote k ++ ": " ++ JSON_stringify_indented inner x) :: members rest
               end) props with
      | [] => "{}"
      | ms => "{" ++ LF ++ inner ++ join ("," ++ LF ++ inner) ms ++ LF ++ ind ++ "}"
      end
  end.

(** [Object.keys(v)] for a value that is neither [undefined] nor [null]; the
    properties of an object are kept in the order JavaScript lists them. *)
Definition Object_keys (v : jsval) : list string :=
  match v with
  | JObj props => map fst props
  | JArr elems => map of_nat (seq 0 (List.length elems))
  | JStr s => map of_nat (seq 0 (utf16_length s))
  | _ => []
  end.

(** ** Requests, replies and the network *)

(** A query parameter value: [Record<string, string | number>]. *)
Inductive param := PStr (s : string) | PNum (n : Z).

Definition params := list (string * param).

(** [ps[k] = v] on a plain object: an existing key keeps its place. *)
Fixpoint set_param (ps : params) (k : string) (v : param) : params :=
  match ps with
  | [] => [(k, v)]
  | (k', v') :: rest =>
      if String.eqb k' k then (k, v) :: rest else (k', v') :: set_param rest k v
  end.

Definition param_eqb (a b : param) : bool :=
  match a, b with
  | PStr s, PStr t => String.eqb s t
  | PNum n, PNum m => n =? m
  | _, _ => false
  end.

(** The query string carries [k=v]. *)
Definition carries (ps : params) (k : string) (v : param) : bool :=
  existsb (fun kv => String.eqb (fst kv) k && param_eqb (snd kv) v) ps.

(** One call of [this.client.get(endpoint, { params, timeout, responseType })]. *)
Record request := {
  endpoint : string;
  query : params;
  timeout : option Z;
  responseType : option string
}.

Record response (D : Type) := {
  status : Z;
  statusText : string;
  data : D
}.
Arguments status {D}.
Arguments statusText {D}.
Arguments data {D}.

(** A thrown value, as far as [getErrorMessage] looks into it: an axios
    error with its optional [response] (status and status text), whether
    [request] is set, and its [message]; or anything else, given by what
    [String(error)] returns. *)
Inductive thrown :=
| AxiosError (resp : option (Z * string)) (has_request : bool) (message : string)
| OtherError (rendering : string).

(** How an exchange ends: with a response, of whatever status, or with an
    error when there is none (no connection, a time-out, ...).  This is
    what the remote side does; what the promise of [client.get] does with
    it is [settle] below. *)
Inductive settled (D : Type) :=
| Resolves (r : response D)
| Rejects (e : thrown).
Arguments Resolves {D}.
Arguments Rejects {D}.

(** The remote side: what the [n]-th request of a run is answered with, for
    a text request and for a parsed one. *)
Record remote := {
  answer_text : nat -> request -> settled string;
  answer_json : nat -> request -> settled jsval
}.

(** ** Handlers as computations

    A computation reads the remote, appends to the log of requests and either
    returns or throws. *)

Inductive outcome (A : Type) :=
| Returned (a : A)
| Threw (e : thrown).
Arguments Returned {A}.
Arguments Threw {A}.

Definition io (A : Type) : Type := remote -> list request -> outcome A * list request.

Definition ret {A} (a : A) : io A := fun _ log => (Returned a, log).

Definition bind {A B} (m : io A) (k : A -> io B) : io B :=
  fun net log =>
    match m net log with
    | (Returned a, log') => k a net log'
    | (Threw e, log') => (Threw e, log')
    end.

Definition throw {A} (e : thrown) : io A := fun _ log => (Threw e, log).

(** [try { body } catch (error) { handler }] *)
Definition try_catch {A} (body : io A) (handler : thrown -> io A) : io A :=
  fun net log =>
    match body net log with
    | (Returned a, log') => (Returned a, log')
    | (Threw e, log') => handler e net log'
    end.

Declare Scope io_scope.
Delimit Scope io_scope with io.
Notation "x <- m ;; k" := (bind m (fun x => k))
  (at level 61, m at next level, right associativity) : io_scope.
Local Open Scope io_scope.

(** *** The HTTP library

    The client is made by [axios.create({ baseURL, timeout })]: no
    [validateStatus] is given, so the library's default decides which
    statuses are accepted. *)
Definition validateStatus (st : Z) : bool := (200 <=? st) && (st <? 300).

(** axios' [settle].  A response whose status [validateStatus] refuses
    makes the promise reject with an error that carries the response and
    the request; a response without a status (status 0, which a response
    received over HTTP never has) is let through. *)
Definition settle {D} (answer : settled D) : settled D :=
  match answer with
  | Resolves r =>
      if (status r =? 0) || validateStatus (status r) then Resolves r
      else Rejects (AxiosError (Some (status r, statusText r)) true
                      ("Request failed with status code " ++ of_Z (status r)))
  | Rejects e => Rejects e
  end.

(** [await this.client.get(...)] with [responseType: "text"]. *)
Definition axios_get_text (rq : request) : io (response string) :=
  fun net log =>
    match settle (answer_text net (List.length log) rq) with
    | Resolves r => (Returned r, (log ++ [rq])%list)
    | Rejects e => (Threw e, (log ++ [rq])%list)
    end.

(** [await this.client.get(...)] with the default response type. *)
Definition axios_get_json (rq : request) : io (response jsval) :=
  fun net log =>
    match settle (answer_json net (List.length log) rq) with
    | Resolves r => (Returned r, (log ++ [rq])%list)
    | Rejects e => (Threw e, (log ++ [rq])%list)
    end.

(** Running a computation from an empty log. *)
Definition run {A} (m : io A) (net : remote) : outcome A * list request := m net [].
Definition result_of {A} (m : io A) (net : remote) : outcome A := fst (run m net).
Definition requests_of {A} (m : io A) (net : remote) : list request := snd (run m net).

(** [k in v]: a TypeError unless [v] is an object. *)
Definition has_property (k : string) (v : jsval) : io bool :=
  match v with
  | JObj _ | JArr _ => ret (Js.has_own k v)
  | _ => throw (OtherError ("TypeError: Cannot use 'in' operator to search for '"
                            ++ k ++ "' in " ++ Js.to_string v))
  end.

(** [v.k]: a TypeError when [v] is [undefined] or [null]. *)
Definition member (v : jsval) (k : string) : io jsval :=
  if Js.is_nullish v
  then throw (OtherError ("TypeError: Cannot read properties of "
                          ++ Js.to_string v ++ " (reading '" ++ k ++ "')"))
  else ret (Js.prop v k).

(** ** POST calls

    [client.post(endpoint, data, config)] has a body and headers that a GET
    has not, so POST calls get a record, an oracle and a log of their own. *)

(** The body of a POST: a plain string or a structured object. *)
Inductive post_data :=
| PostText (s : string)
| PostObject (fields : list (string * jsval)).

(** One call of [this.client.post(endpoint, data, { headers, responseType })]. *)
Record post_call := {
  post_endpoint : string;
  post_body : post_data;
  post_headers : list (string * string);
  post_responseType : option string
}.

(** What the [n]-th POST of a run is answered with, before [settle]. *)
Definition post_remote := nat -> post_call -> settled string.

Definition pio (A : Type) : Type :=
  post_remote -> list post_call -> outcome A * list post_call.

Definition pret {A} (a : A) : pio A := fun _ log => (Returned a, log).

Definition pbind {A B} (m : pio A) (k : A -> pio B) : pio B :=
  fun net log =>
    match m net log with
    | (Returned a, log') => k a net log'
    | (Threw e, log') => (Threw e, log')
    end.

(** [try { body } catch (error) { handler }] around POST calls. *)
Definition ptry_catch {A} (body : pio A) (handler : thrown -> pio A) : pio A :=
  fun net log =>
    match body net log with
    | (Returned a, log') => (Returned a, log')
    | (Threw e, log') => handler e net log'
    end.

(** [await this.client.post(...)] *)
Definition axios_post (call : post_call) : pio (response string) :=
  fun net log =>
    match settle (net (List.length log) call) with
    | Resolves r => (Returned r, (log ++ [call])%list)
    | Rejects e => (Threw e, (log ++ [call])%list)
    end.

(** ** The transport client ([client.ts]) *)

Module BinjaHttpClient.

Definition getErrorMessage (error : thrown) : string :=
  match error with
  | AxiosError (Some (st, stText)) _ _ =>
      "Server returned " ++ of_Z st ++ ": " ++ stText
  | AxiosError None true _ =>
      "No response from server - is Binary Ninja running with the MCP plugin?"
  | AxiosError None false message => message
  | OtherError rendering => rendering
  end.

Definition handleError (error : thrown) (method endpoint : string) : string :=
  let msg := getErrorMessage error in
  "Error: " ++ method ++ " " ++ endpoint ++ " failed: " ++ msg.

(** [response.status >= 200 && response.status < 300] *)
Definition ok_status (st : Z) : bool := (200 <=? st) && (st <? 300).

(** [data && typeof data === "object" && "error" in data] *)
Definition carries_error_field (v : jsval) : bool :=
  Js.truthy v && Js.typeof_object v && Js.has_own "error" v.

(** The requests [getText] and [getJson] hand to [client.get]. *)
Definition text_request (ep : string) (ps : params) (tmo : option Z) : request :=
  {| endpoint := ep; query := ps; timeout := tmo; responseType := Some "text" |}.

Definition json_request (ep : string) (ps : params) (tmo : option Z) : request :=
  {| endpoint := ep; query := ps; timeout := tmo; responseType := None |}.

Definition getText (ep : string) (ps : params) (tmo : option Z) : io string :=
  try_catch
    (response <- axios_get_text (text_request ep ps tmo) ;;
     if ok_status (status response) then ret (data response)
     else ret ("Error " ++ of_Z (status response) ++ ": " ++ data response))
    (fun error => ret (handleError error "GET" ep)).

Definition getJson (ep : string) (ps : params) (tmo : option Z) : io jsval :=
  try_catch
    (response <- axios_get_json (json_request ep ps tmo) ;;
     if ok_status (status response) then ret (data response)
     else if carries_error_field (data response)
     then ret (data response)
     else ret (JObj [("error", JStr ("Error " ++ of_Z (status response) ++ ": "
                                      ++ statusText response))]))
    (fun error =>
       let errorMsg := getErrorMessage error in
       ret (JObj [("error", JStr ("Request failed: " ++ errorMsg))])).

Definition getLines (ep : string) (ps : params) (tmo : option Z) : io (list string) :=
  text <- getText ep ps tmo ;;
  ret (split_newline text).

(** The call [post] makes: a string body is sent as [text/plain]. *)
Definition post_request (ep : string) (body : post_data) : post_call :=
  match body with
  | PostText _ =>
      {| post_endpoint := ep; post_body := body;
         post_headers := [("Content-Type", "text/plain")];
         post_responseType := Some "text" |}
  | PostObject _ =>
      {| post_endpoint := ep; post_body := body; post_headers := [];
         post_responseType := Some "text" |}
  end.

Definition post (ep : string) (body : post_data) : pio string :=
  ptry_catch
    (pbind (axios_post (post_request ep body)) (fun response =>
       if ok_status (status response) then pret (trim (data response))
       else pret ("Error " ++ of_Z (status response) ++ ": " ++ data response)))
    (fun error => pret (handleError error "POST" ep)).

End BinjaHttpClient.

(** ** Start-up configuration ([parseArgs]) *)

(** A Number that may be NaN. *)
Inductive number := NaN | Num (z : Z).

Fixpoint digits_value (acc : Z) (s : string) : Z :=
  match s with
  | String c s' =>
      if is_digit c
      then digits_value (10 * acc + Z.of_nat (nat_of_ascii c - 48)) s'
      else acc
  | EmptyString => acc
  end.

(** [parseInt(s, 10)]: leading white space, an optional sign, then the
    longest run of decimal digits; NaN when that run is empty. *)
Definition parseInt (s : string) : number :=
  let t := trimStart s in
  let '(negative, body) :=
    match t with
    | String c r =>
        if Ascii.eqb c "-" then (true, r)
        else if Ascii.eqb c "+" then (false, r)
        else (false, t)
    | EmptyString => (false, t)
    end in
  match body with
  | String c _ =>
      if is_digit c
      then Num (if negative then - digits_value 0 body else digits_value 0 body)
      else NaN
  | EmptyString => NaN
  end.

(** [n || d] on Numbers: NaN and 0 are falsy. *)
Definition number_or (n d : number) : number :=
  match n with
  | NaN => d
  | Num z => if z =? 0 then d else n
  end.

Record environment := {
  BINJA_MCP_HOST : option string;
  BINJA_MCP_PORT : option string
}.

Record server_config := { host : string; port : number }.

(** [parseArgs] either leaves through [process.exit(0)] after printing
    the help text, or returns the configuration. *)
Inductive parse_result :=
| Exited (code : Z)
| Parsed (c : server_config).

(** The [for] loop over [args]; an option that takes a value consumes the
    next argument when there is one. *)
Fixpoint scan_args (args : list string) (h : string) (p : number) : parse_result :=
  match args with
  | [] => Parsed {| host := h; port := p |}
  | arg :: rest =>
      if String.eqb arg "--host" then
        match rest with
        | v :: rest' => scan_args rest' v p
        | [] => Parsed {| host := h; port := p |}
        end
      else if String.eqb arg "--port" then
        match rest with
        | v :: rest' => scan_args rest' h (parseInt v)
        | [] => Parsed {| host := h; port := p |}
        end
      else if String.eqb arg "--help" || String.eqb arg "-h" then Exited 0
      else scan_args rest h p
  end.

Definition env_set (v : option string) : option string :=
  match v with
  | Some s => if String.eqb s "" then None else Some s
  | None => None
  end.

(** [argv] is [process.argv]; the first two entries are the interpreter and
    the script. *)
Definition parseArgs (argv : list string) (env : environment) : parse_result :=
  let args := skipn 2 argv in
  match scan_args args "localhost" (Num 9009) with
  | Exited code => Exited code
  | Parsed c =>
      let h := match env_set (BINJA_MCP_HOST env) with
               | Some e => e
               | None => host c
               end in
      let p := match env_set (BINJA_MCP_PORT env) with
               | Some e => number_or (parseInt e) (port c)
               | None => port c
               end in
      Parsed {| host := h; port := p |}
  end.

(** ** Syntactic validity of JSON text

    What decides whether [JSON.parse(s)] throws: the grammar of ECMA-404.
    The scanners return the text that follows what they accept. *)

Module JSON.

Definition is_ws (c : ascii) : bool :=
  let n := nat_of_ascii c in
  ((n =? 32) || (n =? 9) || (n =? 10) || (n =? 13))%nat.

Fixpoint skip_ws (s : string) : string :=
  match s with
  | String c s' => if is_ws c then skip_ws s' else s
  | EmptyString => EmptyString
  end.

Definition is_hex (c : ascii) : bool :=
  let n := nat_of_ascii c in
  (is_digit c || ((65 <=? n) && (n <=? 70)) || ((97 <=? n) && (n <=? 102)))%nat.

Definition is_simple_escape (c : ascii) : bool :=
  existsb (Ascii.eqb c)
    [ascii_of_nat 34; "\"%char; "/"%char; "b"%char; "f"%char; "n"%char;
     "r"%char; "t"%char].

(** After the opening quote, up to and including the closing one. *)
Fixpoint scan_string (s : string) : option string :=
  match s with
  | EmptyString => None
  | String c r =>
      if Ascii.eqb c (ascii_of_nat 34) then Some r
      else if Ascii.eqb c "\" then
        match r with
        | String e r1 =>
            if is_simple_escape e then scan_string r1
            else if Ascii.eqb e "u" then
              match r1 with
              | String h1 (String h2 (String h3 (String h4 r2))) =>
                  if is_hex h1 && is_hex h2 && is_hex h3 && is_hex h4
                  then scan_string r2 else None
              | _ => None
              end
            else None
        | EmptyString => None
        end
      else if (nat_of_ascii c <? 32)%nat then None
      else scan_string r
  end.

Fixpoint skip_digits (s : string) : string :=
  match s with
  | String c s' => if is_digit c then skip_digits s' else s
  | EmptyString => EmptyString
  end.

Definition scan_digits1 (s : string) : option string :=
  match s with
  | String c r => if is_digit c then Some (skip_digits r) else None
  | EmptyString => None
  end.

Definition scan_fraction (s : string) : option string :=
  match s with
  | String c r => if Ascii.eqb c "." then scan_digits1 r else Some s
  | EmptyString => Some s
  end.

Definition scan_exponent (s : string) : option string :=
  match s with
  | String c r =>
      if Ascii.eqb c "e" || Ascii.eqb c "E" then
        match r with
        | String sg r1 =>
            if Ascii.eqb sg "+" || Ascii.eqb sg "-" then scan_digits1 r1
            else scan_digits1 r
        | EmptyString => None
        end
      else Some s
  | EmptyString => Some s
  end.

Definition scan_number (s : string) : option string :=
  let body := match s with
              | String c r => if Ascii.eqb c "-" then r else s
              | EmptyString => s
              end in
  match body with
  | String c r =>
      let int_rest :=
        if Ascii.eqb c "0" then Some r
        else if is_digit c then Some (skip_digits r) else None in
      match int_rest with
      | Some r1 => match scan_fraction r1 with
                   | Some r2 => scan_exponent r2
                   | None => None
                   end
      | None => None
      end
  | EmptyString => None
  end.

Definition scan_literal (lit s : string) : option string :=
  if String.prefix lit s
  then Some (String.substring (String.length lit)
                              (String.length s - String.length lit) s)
  else None.

(** A value, the elements of an array after its bracket, and the members
    of an object after its brace.  The text handed over has no leading
    white space. *)
Fixpoint scan_value (fuel : nat) (s : string) : option string :=
  match fuel with
  | O => None
  | S f =>
      match s with
      | EmptyString => None
      | String c r =>
          if Ascii.eqb c "[" then
            match skip_ws r with
            | String d r1 => if Ascii.eqb d "]" then Some r1
                             else scan_elements f (String d r1)
            | EmptyString => None
            end
          else if Ascii.eqb c "{" then
            match skip_ws r with
            | String d r1 => if Ascii.eqb d "}" then Some r1
                             else scan_members f (String d r1)
            | EmptyString => None
            end
          else if Ascii.eqb c (ascii_of_nat 34) then scan_string r
          else if Ascii.eqb c "t" then scan_literal "true" s
          else if Ascii.eqb c "f" then scan_literal "false" s
          else if Ascii.eqb c "n" then scan_literal "null" s
          else scan_number s
      end
  end
with scan_elements (fuel : nat) (s : string) : option string :=
  match fuel with
  | O => None
  | S f =>
      match scan_value f s with
      | Some r =>
          match skip_ws r with
          | String d r1 =>
              if Ascii.eqb d "," then scan_elements f (skip_ws r1)
              else if Ascii.eqb d "]" then Some r1
              else None
          | EmptyString => None
          end
      | None => None
      end
  end
with scan_members (fuel : nat) (s : string) : option string :=
  match fuel with
  | O => None
  | S f =>
      match s with
      | String q r =>
          if Ascii.eqb q (ascii_of_nat 34) then
            match scan_string r with
            | Some r1 =>
                match skip_ws r1 with
                | String d r2 =>
                    if Ascii.eqb d ":" then
                      match scan_value f (skip_ws r2) with
                      | Some r3 =>
                          match skip_ws r3 with
                          | String e r4 =>
                              if Ascii.eqb e "," then scan_members f (skip_ws r4)
                              else if Ascii.eqb e "}" then Some r4
                              else None
                          | EmptyString => None
                          end
                      | None => None
                      end
                    else None
                | EmptyString => None
                end
            | None => None
            end
          else None
      | EmptyString => None
      end
  end.

(** [true] when [JSON.parse(s)] returns, [false] when it throws a
    SyntaxError.  Every call of a scanner consumes a character within two
    steps, so twice the length is fuel enough. *)
Definition parses (s : string) : bool :=
  match scan_value (2 * String.length s + 2) (skip_ws s) with
  | Some r => String.eqb (skip_ws r) ""
  | None => false
  end.

End JSON.

(** ** Operation handlers ([registerTools]) *)

(** [{ content: [{ type: "text", text }] }] *)
Inductive payload := Text (text : string).

Definition text_of (p : payload) : string := match p with Text t => t end.

Module Tools.

Import BinjaHttpClient.

(** [v === s] for a string literal [s]. *)
Definition is_str (v : jsval) (s : string) : bool :=
  match v with JStr t => String.eqb t s | _ => false end.

(** [v.join(sep)] on an array; a TypeError on anything else. *)
Definition array_join (v : jsval) (sep : string) : io string :=
  match v with
  | JArr elems =>
      ret (join sep (map (fun x => if Js.is_nullish x then "" else Js.to_string x) elems))
  | _ => throw (OtherError "TypeError: join is not a function")
  end.

Fixpoint mapM {A B} (f : A -> io B) (xs : list A) : io (list B) :=
  match xs with
  | [] => ret []
  | x :: rest =>
      y <- f x ;;
      ys <- mapM f rest ;;
      ret (y :: ys)
  end.

(** [length !== undefined && length !== -1] *)
Definition with_length (ps : params) (length : Z) : params :=
  if negb (length =? -1) then set_param ps "length" (PNum length) else ps.

Definition getActiveFilename : io jsval :=
  data <- getJson "status" [] None ;;
  if Js.truthy data && Js.typeof_object data && Js.has_own "filename" data
  then ret (Js.or (Js.prop data "filename") (JStr "(none)"))
  else ret (JStr "(none)").

Definition file_header (filename : jsval) : string :=
  "File: " ++ Js.to_string filename ++ LF ++ LF.

Definition get_il (name_or_address view : string) (ssa : bool) : io payload :=
  filename <- getActiveFilename ;;
  let ident := trim name_or_address in
  let ps := [("view", PStr view); ("ssa", PNum (if ssa then 1 else 0))] in
  let ps := if looks_like_address ident
            then set_param ps "address" (PStr ident)
            else set_param ps "name" (PStr ident) in
  data <- getJson "il" ps None ;;
  if negb (Js.truthy data)
  then ret (Text (file_header filename ++ "Error: no response"))
  else
    has_error <- has_property "error" data ;;
    if (has_error : bool)
    then ret (Text (file_header filename ++ "Error: "
                      ++ JSON_stringify (Js.prop data "error")))
    else
      let il := Js.prop data "il" in
      ret (Text (file_header filename ++ Js.to_string (Js.or il (JStr "")))).

Definition fetch_disassembly (name : string) : io payload :=
  filename <- getActiveFilename ;;
  data <- getJson "assembly" [("name", PStr name)] None ;;
  if negb (Js.truthy data)
  then ret (Text (file_header filename ++ "Error: no response"))
  else
    has_error <- has_property "error" data ;;
    if (has_error : bool)
    then ret (Text (file_header filename ++ "Error: "
                      ++ Js.to_string (Js.prop data "error")))
    else
      let assembly := Js.prop data "assembly" in
      ret (Text (file_header filename ++ Js.to_string (Js.or assembly (JStr "")))).

(** An optional string argument is truthy when present and not empty. *)
Definition given (arg : option string) : option string :=
  match arg with
  | Some s => if String.eqb s "" then None else Some s
  | None => None
  end.

(** The statements of [rename_multi_variables] that follow the argument
    checks: the request and the rendering of its result. *)
Definition rename_multi_variables_send (ps : params) : io payload :=
  data <- getJson "renameVariables" ps None ;;
  if negb (Js.truthy data) then ret (Text "Error: no response")
  else
    has_error <- has_property "error" data ;;
    if (has_error : bool)
    then ret (Text ("Error: " ++ Js.to_string (Js.prop data "error")))
    else
      let total := Js.prop data "total" in
      let renamed := Js.prop data "renamed" in
      ret (Text ("Batch rename: " ++ Js.to_string renamed ++ "/"
                   ++ Js.to_string total ++ " applied")).

(** The identifier parameter of [rename_multi_variables]. *)
Definition rename_ident_params (function_identifier : string) : params :=
  let ident := trim function_identifier in
  let ps : params := [] in
  if looks_like_address ident
  then set_param ps "address" (PStr ident)
  else set_param ps "functionName" (PStr ident).

Definition rename_multi_variables (function_identifier : string)
    (mapping_json pairs renames_json : option string) : io payload :=
  let ps := rename_ident_params function_identifier in
  match given renames_json with
  | Some r =>
      if JSON.parses r
      then rename_multi_variables_send (set_param ps "renames" (PStr r))
      else ret (Text "Error: renames_json is not valid JSON")
  | None =>
      match given mapping_json with
      | Some m =>
          if JSON.parses m
          then rename_multi_variables_send (set_param ps "mapping" (PStr m))
          else ret (Text "Error: mapping_json is not valid JSON")
      | None =>
          match given pairs with
          | Some p => rename_multi_variables_send (set_param ps "pairs" (PStr p))
          | None => ret (Text "Error: provide mapping_json, renames_json, or pairs")
          end
      end
  end.

(** [lines[0] ?? ""] *)
Definition get_comment (address : string) : io payload :=
  lines <- getLines "comment" [("address", PStr address)] None ;;
  ret (Text (match nth_error lines 0 with
             | Some l => l
             | None => ""
             end)).

(** [lines[0] || ""] *)
Definition get_function_comment (function_name : string) : io payload :=
  lines <- getLines "comment/function" [("name", PStr function_name)] None ;;
  ret (Text (match nth_error lines 0 with
             | Some l => if String.eqb l "" then "" else l
             | None => ""
             end)).

Definition hexdump_data (name_or_address : string) (length : Z) : io payload :=
  let ident := trim name_or_address in
  if starts_with_0x ident then
    let ps := with_length [("address", PStr ident)] length in
    text <- getText "hexdump" ps None ;;
    ret (Text text)
  else
    let ps := with_length [("name", PStr ident)] length in
    text <- getText "hexdumpByName" ps None ;;
    ret (Text text).

Definition get_data_decl (name_or_address : string) (length : Z) : io payload :=
  let ident := trim name_or_address in
  let ps : params := if starts_with_0x ident
                     then [("address", PStr ident)]
                     else [("name", PStr ident)] in
  let ps := with_length ps length in
  data <- getJson "getDataDecl" ps None ;;
  if negb (Js.truthy data) then ret (Text "Error: no response")
  else
    has_error <- has_property "error" data ;;
    if (has_error : bool)
    then ret (Text ("Error: " ++ Js.to_string (Js.prop data "error")))
    else
      let decl := Js.or (Js.prop data "decl") (JStr "(no declaration)") in
      let hexdump := Js.or (Js.prop data "hexdump") (JStr "") in
      let addr := Js.or (Js.prop data "address") (JStr "") in
      let name := Js.or (Js.prop data "name") (JStr ident) in
      ret (Text ("Declaration (" ++ Js.to_string addr ++ " " ++ Js.to_string name
                   ++ "):" ++ LF ++ Js.to_string decl ++ LF ++ LF ++ "Hexdump:" ++ LF
                   ++ Js.to_string hexdump)).

Definition get_stack_frame_vars (function_identifier : string) : io payload :=
  let ident := trim function_identifier in
  let ps : params := if looks_like_address ident
                     then [("address", PStr ident)]
                     else [("name", PStr ident)] in
  data <- getJson "getStackFrameVars" ps None ;;
  if negb (Js.truthy data) then ret (Text "")
  else
    has_error <- has_property "error" data ;;
    if (has_error : bool) then ret (Text "")
    else
      let vars := Js.prop data "stack_frame_vars" in
      t <- array_join (Js.or vars (JArr [])) LF ;;
      ret (Text t).

Definition set_function_prototype (name_or_address prototype : string) : io payload :=
  let ident := trim name_or_address in
  let ps := [("prototype", PStr prototype)] in
  let ps := if looks_like_address ident
            then set_param ps "address" (PStr ident)
            else set_param ps "name" (PStr ident) in
  data <- getJson "setFunctionPrototype" ps None ;;
  if negb (Js.truthy data) then ret (Text "Error: no response")
  else
    has_status <- has_property "status" data ;;
    if (has_status : bool)
    then ret (Text ("Applied prototype at " ++ Js.to_string (Js.prop data "address")
                      ++ ": " ++ Js.to_string (Js.prop data "applied_type")))
    else
      has_error <- has_property "error" data ;;
      if (has_error : bool)
      then ret (Text ("Error: " ++ Js.to_string (Js.prop data "error")))
      else ret (Text (JSON_stringify data)).

(** One record of the aggregated listing. *)
Definition format_string_item (s : jsval) : io string :=
  address <- member s "address" ;;
  let addr := Js.or address (JStr "") in
  let length := Js.prop s "length" in
  let stype := Js.or (Js.prop s "type") (JStr "") in
  let value := Js.or (Js.prop s "value") (JStr "") in
  ret (Js.to_string addr ++ TAB ++ Js.to_string length ++ TAB
         ++ Js.to_string stype ++ TAB ++ Js.to_string value).

(** The [while (true)] loop of [list_all_strings], run for at most [fuel]
    iterations; [None] when the loop has not left by then. *)
Fixpoint list_all_strings_loop (fuel : nat) (batch_size offset : Z)
    (results : list string) : io (option (list string)) :=
  match fuel with
  | O => ret None
  | S fuel' =>
      data <- getJson "strings" [("offset", PNum offset); ("limit", PNum batch_size)]
                      None ;;
      if negb (Js.truthy data) then ret (Some results)
      else
        has_strings <- has_property "strings" data ;;
        if negb has_strings then ret (Some results)
        else
          let stringsData := Js.prop data "strings" in
          let items := match stringsData with JArr l => l | _ => [] end in
          if (List.length items =? 0)%nat then ret (Some results)
          else
            formatted <- mapM format_string_item items ;;
            let results := (results ++ formatted)%list in
            if Z.of_nat (List.length items) <? batch_size then ret (Some results)
            else list_all_strings_loop fuel' batch_size (offset + batch_size) results
  end.

Definition list_all_strings (fuel : nat) (batch_size : Z) : io (option payload) :=
  r <- list_all_strings_loop fuel batch_size 0 [] ;;
  ret (option_map (fun results => Text (join LF results)) r).

Definition format_binary (it : jsval) : io string :=
  vid <- member it "id" ;;
  let view_id := Js.prop it "view_id" in
  let fn := Js.prop it "filename" in
  let basename := Js.or (Js.prop it "basename") (JStr "") in
  let selectors := Js.or (Js.prop it "selectors") (JArr []) in
  let active := Js.prop it "active" in
  let label := Js.or (Js.or basename fn) (JStr "(unknown)") in
  let full := Js.or fn (JStr "(no filename)") in
  selectorText <- match selectors with
                  | JArr elems => ret (join ", " (map Js.to_string elems))
                  | _ => throw (OtherError "TypeError: selectors.map is not a function")
                  end ;;
  let mark := if Js.truthy active then " *active*" else "" in
  let viewPart := if Js.truthy view_id then " view=" ++ Js.to_string view_id else "" in
  ret (Js.to_string vid ++ ". " ++ Js.to_string label ++ viewPart ++ mark ++ LF
         ++ "    path: " ++ Js.to_string full ++ LF
         ++ "    selectors: " ++ selectorText).

Definition list_binaries : io payload :=
  data <- getJson "binaries" [] None ;;
  if negb (Js.truthy data) then ret (Text "Error: no response")
  else
    has_error <- has_property "error" data ;;
    if (has_error : bool) then ret (Text (Js.to_string (Js.prop data "error")))
    else
      let binaries := Js.or (Js.prop data "binaries") (JArr []) in
      match binaries with
      | JArr elems =>
          lines <- mapM format_binary elems ;;
          ret (Text (join LF lines))
      | _ => throw (OtherError "TypeError: binaries.map is not a function")
      end.

Definition patch_bytes (address data : string) (save_to_file : bool) : io payload :=
  result <- getJson "patch" [("address", PStr address); ("data", PStr data);
                             ("save_to_file", PNum (if save_to_file then 1 else 0))]
                    None ;;
  if negb (Js.truthy result) then ret (Text "Error: no response")
  else
    has_error <- has_property "error" result ;;
    if (has_error : bool)
    then ret (Text ("Error: " ++ Js.to_string (Js.prop result "error")))
    else
      let status := Js.prop result "status" in
      if is_str status "ok" || is_str status "partial" then
        let orig := Js.or (Js.prop result "original_bytes") (JStr "") in
        let patched := Js.or (Js.prop result "patched_bytes") (JStr "") in
        let written := Js.or (Js.prop result "bytes_written") (JNum 0) in
        let requested := Js.or (Js.prop result "bytes_requested") (JNum 0) in
        let saved := Js.or (Js.prop result "saved_to_file") (JBool false) in
        let savedPath := Js.or (Js.prop result "saved_path") (JStr "") in
        let warning := Js.or (Js.prop result "warning") (JStr "") in
        let msg := "Patched " ++ Js.to_string written ++ "/" ++ Js.to_string requested
                     ++ " bytes at " ++ address in
        let msg := if is_str status "partial" then msg ++ " (PARTIAL WRITE)" else msg in
        let msg := if Js.truthy warning
                   then msg ++ LF ++ "Warning: " ++ Js.to_string warning else msg in
        let msg := if Js.truthy orig
                   then msg ++ LF ++ "Original: " ++ Js.to_string orig else msg in
        let msg := if Js.truthy patched
                   then msg ++ LF ++ "Patched:  " ++ Js.to_string patched else msg in
        let msg := if Js.truthy saved
                   then msg ++ LF ++ "Saved to file: " ++ Js.to_string savedPath else msg in
        ret (Text msg)
      else ret (Text (JSON_stringify result)).

(** *** The remaining handlers *)

(** [for (const x of v)]: the elements of an array, the characters of a
    string; a TypeError on anything else. *)
Definition iterate (v : jsval) : io (list jsval) :=
  match v with
  | JArr elems => ret elems
  | JStr s => ret (map JStr (characters s))
  | _ => throw (OtherError ("TypeError: " ++ Js.to_string v ++ " is not iterable"))
  end.

(** [v.map(String).join(", ")] on an array; a TypeError on anything else. *)
Definition selector_text (v : jsval) : io string :=
  match v with
  | JArr elems => ret (join ", " (map Js.to_string elems))
  | _ => throw (OtherError "TypeError: selectors.map is not a function")
  end.

Definition paging (offset limit : Z) : params :=
  [("offset", PNum offset); ("limit", PNum limit)].

Definition list_methods (offset limit : Z) : io payload :=
  filename <- getActiveFilename ;;
  lines <- getLines "methods" (paging offset limit) None ;;
  ret (Text ("File: " ++ Js.to_string filename ++ LF ++ join LF lines)).

Definition format_entry_point (ep : jsval) : io string :=
  addr <- member ep "address" ;;
  let name := Js.or (Js.prop ep "name") (JStr "(unknown)") in
  ret (Js.to_string addr ++ TAB ++ Js.to_string name).

Definition get_entry_points : io payload :=
  data <- getJson "entryPoints" [] None ;;
  if negb (Js.truthy data) then ret (Text "Error: no response")
  else
    has_error <- has_property "error" data ;;
    if (has_error : bool) then ret (Text "Error: no response")
    else
      let entryPoints := Js.or (Js.prop data "entry_points") (JArr []) in
      match entryPoints with
      | JArr eps =>
          lines <- mapM format_entry_point eps ;;
          ret (Text (join LF lines))
      | _ => throw (OtherError "TypeError: entryPoints.map is not a function")
      end.

Definition search_functions_by_name (query : string) (offset limit : Z) : io payload :=
  if String.eqb query "" then ret (Text "Error: query string is required")
  else
    lines <- getLines "searchFunctions"
               [("query", PStr query); ("offset", PNum offset); ("limit", PNum limit)]
               None ;;
    ret (Text (join LF lines)).

Definition decompile_function (name : string) : io payload :=
  filename <- getActiveFilename ;;
  data <- getJson "decompile" [("name", PStr name)] None ;;
  if negb (Js.truthy data)
  then ret (Text (file_header filename ++ "Error: no response"))
  else
    has_error <- has_property "error" data ;;
    if (has_error : bool)
    then ret (Text (file_header filename ++ "Error: "
                      ++ Js.to_string (Js.prop data "error")))
    else
      let decompiled := Js.prop data "decompiled" in
      ret (Text (file_header filename ++ Js.to_string (Js.or decompiled (JStr "")))).

(** The tail shared, statement for statement, by [rename_single_variable]
    and [retype_variable]: a [status] field is shown before an [error] field
    is looked for.  The status is declared a string; any other value is
    shown by its string rendering. *)
Definition status_then_error (data : jsval) : io payload :=
  if negb (Js.truthy data) then ret (Text "Error: no response")
  else
    has_status <- has_property "status" data ;;
    if (has_status : bool) then ret (Text (Js.to_string (Js.prop data "status")))
    else
      has_error <- has_property "error" data ;;
      if (has_error : bool)
      then ret (Text ("Error: " ++ Js.to_string (Js.prop data "error")))
      else ret (Text (JSON_stringify data)).

Definition rename_single_variable (function_name variable_name new_name : string)
  : io payload :=
  data <- getJson "renameVariable"
            [("functionName", PStr function_name); ("variableName", PStr variable_name);
             ("newName", PStr new_name)] None ;;
  status_then_error data.

Definition retype_variable (function_name variable_name type_str : string) : io payload :=
  data <- getJson "retypeVariable"
            [("functionName", PStr function_name); ("variableName", PStr variable_name);
             ("type", PStr type_str)] None ;;
  status_then_error data.

Definition define_types (c_code : string) : io payload :=
  data <- getJson "defineTypes" [("cCode", PStr c_code)] None ;;
  if negb (Js.truthy data) then ret (Text "Error: no response")
  else if Js.isArray data then
    t <- array_join data ", " ;;
    ret (Text ("Defined types: " ++ t))
  else
    has_error <- has_property "error" data ;;
    if (has_error : bool)
    then ret (Text ("Error: " ++ Js.to_string (Js.prop data "error")))
    else ret (Text (JSON_stringify data)).

Definition include_flag (include_libraries : bool) : param :=
  PNum (if include_libraries then 1 else 0).

Definition list_local_types (offset count : Z) (include_libraries : bool) : io payload :=
  lines <- getLines "localTypes"
             [("offset", PNum offset); ("limit", PNum count);
              ("includeLibraries", include_flag include_libraries)] None ;;
  ret (Text (join LF lines)).

Definition search_types (query : string) (offset count : Z) (include_libraries : bool)
  : io payload :=
  lines <- getLines "searchTypes"
             [("query", PStr query); ("offset", PNum offset); ("limit", PNum count);
              ("includeLibraries", include_flag include_libraries)] None ;;
  ret (Text (join LF lines)).

Definition get_user_defined_type (type_name : string) : io payload :=
  lines <- getLines "getUserDefinedType" [("name", PStr type_name)] None ;;
  ret (Text (join LF lines)).

Definition get_type_info (type_name : string) : io payload :=
  data <- getJson "getTypeInfo" [("name", PStr type_name)] None ;;
  if negb (Js.truthy data) then ret (Text "Error: no response")
  else
    has_error <- has_property "error" data ;;
    if (has_error : bool)
    then ret (Text ("Error: " ++ Js.to_string (Js.prop data "error")))
    else ret (Text (JSON_stringify_indented "" data)).

Definition declare_c_type (c_declaration : string) : io payload :=
  data <- getJson "declareCType" [("declaration", PStr c_declaration)] None ;;
  if negb (Js.truthy data) then ret (Text "Error: no response")
  else
    has_error <- has_property "error" data ;;
    if (has_error : bool)
    then ret (Text ("Error: " ++ Js.to_string (Js.prop data "error")))
    else
      let defined_types := Js.prop data "defined_types" in
      if Js.truthy defined_types then
        let names := join ", " (Object_keys defined_types) in
        let count := Js.or (Js.prop data "count") (JNum 0) in
        ret (Text ("Declared types (" ++ Js.to_string count ++ "): " ++ names))
      else ret (Text (JSON_stringify data)).

Definition set_local_variable_type (function_address variable_name new_type : string)
  : io payload :=
  data <- getJson "setLocalVariableType"
            [("functionAddress", PStr function_address);
             ("variableName", PStr variable_name); ("newType", PStr new_type)] None ;;
  if negb (Js.truthy data) then ret (Text "Error: no response")
  else if is_str (Js.prop data "status") "ok" then
    ret (Text ("Retyped " ++ Js.to_string (Js.prop data "variable") ++ " in "
                 ++ Js.to_string (Js.prop data "function") ++ " to "
                 ++ Js.to_string (Js.prop data "applied_type")))
  else
    has_error <- has_property "error" data ;;
    if (has_error : bool)
    then ret (Text ("Error: " ++ Js.to_string (Js.prop data "error")))
    else ret (Text (JSON_stringify data)).

Definition list_data_items (offset limit : Z) : io payload :=
  lines <- getLines "data" (paging offset limit) None ;;
  ret (Text (join LF lines)).

Definition hexdump_address (address : string) (length : Z) : io payload :=
  let ps := with_length [("address", PStr address)] length in
  text <- getText "hexdump" ps None ;;
  ret (Text text).

Definition get_xrefs_to (address : string) : io payload :=
  lines <- getLines "getXrefsTo" [("address", PStr address)] None ;;
  ret (Text (join LF lines)).

Definition get_xrefs_to_field (struct_name field_name : string) : io payload :=
  lines <- getLines "getXrefsToField"
             [("struct", PStr struct_name); ("field", PStr field_name)] None ;;
  ret (Text (join LF lines)).

Definition get_xrefs_to_struct (struct_name : string) : io payload :=
  lines <- getLines "getXrefsToStruct" [("name", PStr struct_name)] None ;;
  ret (Text (join LF lines)).

Definition get_xrefs_to_type (type_name : string) : io payload :=
  lines <- getLines "getXrefsToType" [("name", PStr type_name)] None ;;
  ret (Text (join LF lines)).

Definition get_xrefs_to_enum (enum_name : string) : io payload :=
  lines <- getLines "getXrefsToEnum" [("name", PStr enum_name)] None ;;
  ret (Text (join LF lines)).

Definition get_xrefs_to_union (union_name : string) : io payload :=
  lines <- getLines "getXrefsToUnion" [("name", PStr union_name)] None ;;
  ret (Text (join LF lines)).

Definition function_at (address : string) : io payload :=
  lines <- getLines "functionAt" [("address", PStr address)] None ;;
  ret (Text (join LF lines)).

Definition list_classes (offset limit : Z) : io payload :=
  lines <- getLines "classes" (paging offset limit) None ;;
  ret (Text (join LF lines)).

Definition list_namespaces (offset limit : Z) : io payload :=
  lines <- getLines "namespaces" (paging offset limit) None ;;
  ret (Text (join LF lines)).

Definition list_segments (offset limit : Z) : io payload :=
  lines <- getLines "segments" (paging offset limit) None ;;
  ret (Text (join LF lines)).

Definition format_section (s : jsval) : io string :=
  start_field <- member s "start" ;;
  let start := Js.or start_field (JStr "") in
  let end_ := Js.or (Js.prop s "end") (JStr "") in
  let size := Js.prop s "size" in
  let name := Js.or (Js.prop s "name") (JStr "(unnamed)") in
  let sem := Js.or (Js.or (Js.prop s "semantics") (Js.prop s "type")) (JStr "") in
  let tail := if Js.truthy sem then TAB ++ Js.to_string sem else "" in
  ret (Js.to_string start ++ "-" ++ Js.to_string end_ ++ TAB ++ Js.to_string size
         ++ TAB ++ Js.to_string name ++ tail).

Definition list_sections (offset limit : Z) : io payload :=
  data <- getJson "sections" (paging offset limit) None ;;
  if negb (Js.truthy data) then ret (Text "Error: no response")
  else
    has_error <- has_property "error" data ;;
    if (has_error : bool) then ret (Text "Error: no response")
    else
      filename <- getActiveFilename ;;
      let sections := Js.or (Js.prop data "sections") (JArr []) in
      items <- iterate sections ;;
      lines <- mapM format_section items ;;
      ret (Text (join LF (("File: " ++ Js.to_string filename) :: lines))).

Definition list_imports (offset limit : Z) : io payload :=
  lines <- getLines "imports" (paging offset limit) None ;;
  ret (Text (join LF lines)).

Definition list_exports (offset limit : Z) : io payload :=
  lines <- getLines "exports" (paging offset limit) None ;;
  ret (Text (join LF lines)).

Definition list_strings (offset count : Z) : io payload :=
  lines <- getLines "strings" (paging offset count) None ;;
  ret (Text (join LF lines)).

Definition list_strings_filter (offset count : Z) (filter : string) : io payload :=
  lines <- getLines "strings/filter"
             [("offset", PNum offset); ("limit", PNum count); ("filter", PStr filter)]
             None ;;
  ret (Text (join LF lines)).

(** [lines[0] || ""] *)
Definition get_binary_status : io payload :=
  lines <- getLines "status" [] None ;;
  ret (Text (match nth_error lines 0 with
             | Some l => if String.eqb l "" then "" else l
             | None => ""
             end)).

Definition select_binary (view : string) : io payload :=
  data <- getJson "selectBinary" [("view", PStr view)] None ;;
  if negb (Js.truthy data) then ret (Text "Error: no response")
  else
    has_error <- has_property "error" data ;;
    if (has_error : bool) then ret (Text (JSON_stringify_indented "" data))
    else
      let sel := Js.prop data "selected" in
      if Js.truthy sel then
        let ordinal := Js.or (Js.prop sel "id") (JStr "?") in
        let view_id := Js.prop sel "view_id" in
        let fn := Js.or (Js.prop sel "filename") (JStr "") in
        let basename := Js.or (Js.prop sel "basename") (JStr "") in
        let selectors := Js.or (Js.prop sel "selectors") (JArr []) in
        selectorText <- selector_text selectors ;;
        let displayName := Js.or (Js.or basename fn) (JStr "(unknown)") in
        let viewPart := if Js.truthy view_id
                        then " (view " ++ Js.to_string view_id ++ ")" else "" in
        let pathPart := if Js.truthy fn
                        then LF ++ "Full path: " ++ Js.to_string fn else "" in
        ret (Text ("Selected " ++ Js.to_string ordinal ++ ": "
                     ++ Js.to_string displayName ++ viewPart ++ pathPart ++ LF
                     ++ "Selectors: " ++ selectorText))
      else ret (Text (JSON_stringify data)).

Definition make_function_at (address : string) (platform : option string) : io payload :=
  let ps : params := [("address", PStr address)] in
  let ps := match given platform with
            | Some pl => set_param ps "platform" (PStr pl)
            | None => ps
            end in
  data <- getJson "makeFunctionAt" ps None ;;
  if negb (Js.truthy data) then ret (Text "Error: no response")
  else
    has_error <- has_property "error" data ;;
    if (has_error : bool) then ret (Text (JSON_stringify_indented "" data))
    else if is_str (Js.prop data "status") "exists" then
      ret (Text ("Function already exists at " ++ Js.to_string (Js.prop data "address")
                   ++ ": " ++ Js.to_string (Js.prop data "name")))
    else if is_str (Js.prop data "status") "ok" then
      ret (Text ("Created function at " ++ Js.to_string (Js.prop data "address")
                   ++ ": " ++ Js.to_string (Js.prop data "name")))
    else ret (Text (JSON_stringify data)).

Definition list_platforms : io payload :=
  data <- getJson "platforms" [] None ;;
  if negb (Js.truthy data) then ret (Text "Error: no response")
  else
    has_error <- has_property "error" data ;;
    if (has_error : bool) then ret (Text (JSON_stringify_indented "" data))
    else
      let plats := Js.prop data "platforms" in
      if negb (Js.truthy plats) then ret (Text "(no platforms)")
      else
        t <- array_join plats LF ;;
        ret (Text t).

Definition format_value (address text : string) (size : Z) : io payload :=
  lines <- getLines "formatValue"
             [("address", PStr address); ("text", PStr text); ("size", PNum size)] None ;;
  ret (Text (join LF lines)).

Definition convert_number (text : string) (size : Z) : io payload :=
  data <- getJson "convertNumber" [("text", PStr text); ("size", PNum size)] None ;;
  if negb (Js.truthy data) then ret (Text "Error: no response")
  else
    has_error <- has_property "error" data ;;
    if (has_error : bool)
    then ret (Text ("Error: " ++ Js.to_string (Js.prop data "error")))
    else ret (Text (JSON_stringify_indented "" data)).

(** *** The handlers that POST *)

Definition post_text (ep : string) (fields : list (string * jsval)) : pio payload :=
  pbind (post ep (PostObject fields)) (fun result => pret (Text result)).

Definition rename_function (old_name new_name : string) : pio payload :=
  post_text "renameFunction" [("oldName", JStr old_name); ("newName", JStr new_name)].

Definition rename_data (address new_name : string) : pio payload :=
  post_text "renameData" [("address", JStr address); ("newName", JStr new_name)].

Definition set_comment (address comment : string) : pio payload :=
  post_text "comment" [("address", JStr address); ("comment", JStr comment)].

Definition delete_comment (address : string) : pio payload :=
  post_text "comment" [("address", JStr address); ("_method", JStr "DELETE")].

Definition set_function_comment (function_name comment : string) : pio payload :=
  post_text "comment/function" [("name", JStr function_name); ("comment", JStr comment)].

Definition delete_function_comment (function_name : string) : pio payload :=
  post_text "comment/function" [("name", JStr function_name); ("_method", JStr "DELETE")].

End Tools.

(** ** Sample remotes, used where a statement is evaluated *)

Module Samples.

Definition ok_json (body : jsval) : settled jsval :=
  Resolves {| status := 200; statusText := "OK"; data := body |}.

Definition ok_text (body : string) : settled string :=
  Resolves {| status := 200; statusText := "OK"; data := body |}.

(** Nothing listens on the port: every request is sent and gets no
    response. *)
Definition unreachable : remote :=
  {| answer_text := fun _ _ => Rejects (AxiosError None true "connect ECONNREFUSED");
     answer_json := fun _ _ => Rejects (AxiosError None true "connect ECONNREFUSED") |}.

(** The request cannot even be set up; the message has two lines. *)
Definition two_line_failure : remote :=
  let e := AxiosError None false ("first line" ++ LF ++ "second line") in
  {| answer_text := fun _ _ => Rejects e; answer_json := fun _ _ => Rejects e |}.

(** A service that answers [body] to every parsed request and [txt] to
    every text request. *)
Definition constant (body : jsval) (txt : string) : remote :=
  {| answer_text := fun _ _ => ok_text txt; answer_json := fun _ _ => ok_json body |}.

(** A service that answers every request with status 404 and [body]; the
    HTTP library turns such an answer into a rejection. *)
Definition not_found (body : jsval) : remote :=
  {| answer_text := fun _ _ =>
       Resolves {| status := 404; statusText := "Not Found"; data := "missing" |};
     answer_json := fun _ _ =>
       Resolves {| status := 404; statusText := "Not Found"; data := body |} |}.

Definition string_item (addr value : string) : jsval :=
  JObj [("address", JStr addr); ("length", JNum (Z.of_nat (String.length value)));
        ("type", JStr "ascii"); ("value", JStr value)].

Definition strings_page (items : list jsval) : settled jsval :=
  ok_json (JObj [("strings", JArr items)]).

(** A strings endpoint with seven entries, served two per page. *)
Definition seven_strings : remote :=
  {| answer_text := fun _ _ => ok_text "";
     answer_json := fun i _ =>
       match i with
       | 0%nat => strings_page [string_item "0x1000" "a"; string_item "0x1002" "bc"]
       | 1%nat => strings_page [string_item "0x1005" "d"; string_item "0x1007" "ef"]
       | 2%nat => strings_page [string_item "0x100a" "g"; string_item "0x100c" "hi"]
       | _ => strings_page [string_item "0x100f" "j"]
       end |}.

(** A strings endpoint that serves two full pages and then goes down. *)
Definition two_pages_then_down : remote :=
  {| answer_text := fun _ _ => ok_text "";
     answer_json := fun i _ =>
       match i with
       | 0%nat => strings_page [string_item "0x1000" "a"; string_item "0x1002" "bc"]
       | 1%nat => strings_page [string_item "0x1005" "d"; string_item "0x1007" "ef"]
       | _ => Rejects (AxiosError None true "socket hang up")
       end |}.

End Samples.

(** ** Notions used by the statements *)

(** What [getText] returns, from the reply to its one request. *)
Definition text_result (ep : string) (reply : settled string) : string :=
  match settle reply with
  | Resolves r =>
      if BinjaHttpClient.ok_status (status r) then data r
      else "Error " ++ of_Z (status r) ++ ": " ++ data r
  | Rejects e => BinjaHttpClient.handleError e "GET" ep
  end.

(** What [getJson] returns, from the reply to its one request. *)
Definition json_result (reply : settled jsval) : jsval :=
  match settle reply with
  | Resolves r =>
      if BinjaHttpClient.ok_status (status r) then data r
      else if BinjaHttpClient.carries_error_field (data r)
      then data r
      else JObj [("error", JStr ("Error " ++ of_Z (status r) ++ ": " ++ statusText r))]
  | Rejects e =>
      JObj [("error", JStr ("Request failed: " ++ BinjaHttpClient.getErrorMessage e))]
  end.

(** A computation that issues no request. *)
Definition silent {A} (m : io A) : Prop :=
  forall net log, snd (m net log) = log.

(** The file name [getActiveFilename] extracts from the status reply. *)
Definition active_filename (data : jsval) : jsval :=
  if Js.truthy data && Js.typeof_object data && Js.has_own "filename" data
  then Js.or (Js.prop data "filename") (JStr "(none)")
  else JStr "(none)".

(** The parameter an identifier is sent under by the rule of the
    specification; [name_key] is the endpoint's key for a name. *)
Definition ident_param (name_key s : string) : string * param :=
  match classify s with
  | AddressKind => ("address", PStr (trim s))
  | NameKind => (name_key, PStr (trim s))
  end.

(** What [hexdump_data] and [get_data_decl] send instead. *)
Definition prefix_param (s : string) : string * param :=
  if starts_with_0x (trim s) then ("address", PStr (trim s)) else ("name", PStr (trim s)).

(** The six call sites that take a name or an address, called with [s],
    send the identifier [ident]: [get_il], [get_stack_frame_vars] and
    [set_function_prototype] under [key], [rename_multi_variables] under
    [rename_key], [hexdump_data] and [get_data_decl] under [data_key],
    [hexdump_data] to the endpoint that goes with that key. *)
Definition identifier_sent (net : remote) (log : list request)
    (s ident key rename_key data_key : string) : Prop :=
  (forall view ssa,
     snd (Tools.get_il s view ssa net log)
     = (log ++ [BinjaHttpClient.json_request "status" [] None;
                BinjaHttpClient.json_request "il"
                  [("view", PStr view); ("ssa", PNum (if ssa then 1 else 0));
                   (key, PStr ident)] None])%list) /\
  snd (Tools.get_stack_frame_vars s net log)
    = (log ++ [BinjaHttpClient.json_request "getStackFrameVars"
                 [(key, PStr ident)] None])%list /\
  (forall prototype,
     snd (Tools.set_function_prototype s prototype net log)
     = (log ++ [BinjaHttpClient.json_request "setFunctionPrototype"
                  [("prototype", PStr prototype); (key, PStr ident)] None])%list) /\
  Tools.rename_ident_params s = [(rename_key, PStr ident)] /\
  (forall length,
     snd (Tools.hexdump_data s length net log)
     = (log ++ [BinjaHttpClient.text_request
                  (if String.eqb data_key "address" then "hexdump" else "hexdumpByName")
                  (Tools.with_length [(data_key, PStr ident)] length) None])%list) /\
  (forall length,
     snd (Tools.get_data_decl s length net log)
     = (log ++ [BinjaHttpClient.json_request "getDataDecl"
                  (Tools.with_length [(data_key, PStr ident)] length) None])%list).

(** The one alternative that is supplied, with the parameter it is
    forwarded under, when exactly one is supplied and it is usable: valid
    JSON for the two JSON inputs, a non-empty string for [pairs]. *)
Definition sole_alternative (mapping_json pairs renames_json : option string)
  : option (string * string) :=
  match renames_json, mapping_json, pairs with
  | Some r, None, None => if JSON.parses r then Some ("renames", r) else None
  | None, Some m, None => if JSON.parses m then Some ("mapping", m) else None
  | None, None, Some p => if String.eqb p "" then None else Some ("pairs", p)
  | _, _, _ => None
  end.

(** The next answer of the remote, to [rq], has a success status and the
    object [props] as its body. *)
Definition answers_object (net : remote) (log : list request) (rq : request)
    (props : list (string * jsval)) : Prop :=
  exists rep, answer_json net (List.length log) rq = Resolves rep /\
              BinjaHttpClient.ok_status (status rep) = true /\ data rep = JObj props.

(** The record [list_all_strings] emits for one entry. *)
Definition record_of (s : jsval) : string :=
  Js.to_string (Js.or (Js.prop s "address") (JStr "")) ++ TAB
    ++ Js.to_string (Js.prop s "length") ++ TAB
    ++ Js.to_string (Js.or (Js.prop s "type") (JStr "")) ++ TAB
    ++ Js.to_string (Js.or (Js.prop s "value") (JStr "")).

(** An entry of the declared shape: an object, at least not [null]. *)
Definition entry (s : jsval) : Prop := Js.is_nullish s = false.

(** The request of one turn of the aggregation loop. *)
Definition strings_request (batch_size offset : Z) : request :=
  BinjaHttpClient.json_request "strings"
    [("offset", PNum offset); ("limit", PNum batch_size)] None.

(** The [i]-th answer of the remote, to [rq], is a page: a success status
    and an object whose [strings] field is the array [items]. *)
Definition page_at (net : remote) (i : nat) (rq : request) (items : list jsval) : Prop :=
  exists rep props,
    answer_json net i rq = Resolves rep /\
    BinjaHttpClient.ok_status (status rep) = true /\
    data rep = JObj props /\ Js.lookup "strings" props = Some (JArr items).

(** The request of [patch_bytes]. *)
Definition patch_request (address data : string) (save_to_file : bool) : request :=
  BinjaHttpClient.json_request "patch"
    [("address", PStr address); ("data", PStr data);
     ("save_to_file", PNum (if save_to_file then 1 else 0))] None.

(** A line the message gets when [shown] is truthy. *)
Definition optional_line (shown : jsval) (label : string) (v : jsval) : string :=
  if Js.truthy shown then LF ++ label ++ Js.to_string v else "".

(** [result.k || default] *)
Definition patch_field (props : list (string * jsval)) (k : string) (default : jsval)
  : jsval :=
  Js.or (Js.prop (JObj props) k) default.

(** The message of [patch_bytes] for status [ok] or [partial]. *)
Definition patch_message (address : string) (props : list (string * jsval)) : string :=
  "Patched " ++ Js.to_string (patch_field props "bytes_written" (JNum 0)) ++ "/"
    ++ Js.to_string (patch_field props "bytes_requested" (JNum 0))
    ++ " bytes at " ++ address
    ++ (if Tools.is_str (Js.prop (JObj props) "status") "partial"
        then " (PARTIAL WRITE)" else "")
    ++ optional_line (patch_field props "warning" (JStr "")) "Warning: "
         (patch_field props "warning" (JStr ""))
    ++ optional_line (patch_field props "original_bytes" (JStr "")) "Original: "
         (patch_field props "original_bytes" (JStr ""))
    ++ optional_line (patch_field props "patched_bytes" (JStr "")) "Patched:  "
         (patch_field props "patched_bytes" (JStr ""))
    ++ optional_line (patch_field props "saved_to_file" (JBool false)) "Saved to file: "
         (patch_field props "saved_path" (JStr "")).

(** The next call of [getJson], for [rq], returns an object whose error
    field holds [m]: an error body the service sent with a success status,
    or the object made up for a request whose promise rejected. *)
Definition error_result (net : remote) (log : list request) (rq : request) (m : jsval)
  : Prop :=
  exists props,
    json_result (answer_json net (List.length log) rq) = JObj props /\
    Js.lookup "error" props = Some m.

(** The string begins, resp. ends, with a white-space character. *)
Definition starts_white (s : string) : bool :=
  match skip_white s with
  | Some _ => true
  | None => false
  end.

Definition one_white (s : string) : bool :=
  match skip_white s with
  | Some EmptyString => true
  | _ => false
  end.

Fixpoint ends_white (s : string) : bool :=
  match s with
  | EmptyString => false
  | String _ s' => one_white s || ends_white s'
  end.

Fixpoint count_newlines (s : string) : nat :=
  match s with
  | EmptyString => 0
  | String c s' => (if Ascii.eqb c newline then 1 else 0) + count_newlines s'
  end.

(** The request did not succeed: it was rejected, or it was answered with a
    status outside 200..299. *)
Definition failed {D} (reply : settled D) : Prop :=
  match reply with
  | Resolves r => BinjaHttpClient.ok_status (status r) = false
  | Rejects _ => True
  end.

(** A body that is neither an object nor falsy: a non-empty string, a
    number other than zero, or [true]. *)
Definition truthy_primitive (d : jsval) : bool :=
  match d with
  | JBool b => b
  | JNum z => negb (z =? 0)
  | JStr s => negb (String.eqb s "")
  | _ => false
  end.

(** The requests of [m] consecutive turns of the aggregation loop that
    starts at [offset]. *)
Definition page_requests (batch_size offset : Z) (m : nat) : list request :=
  map (fun i => strings_request batch_size (offset + Z.of_nat i * batch_size)) (seq 0 m).

(** What [post] returns, from the reply to its one call. *)
Definition post_result (ep : string) (reply : settled string) : string :=
  match settle reply with
  | Resolves r =>
      if BinjaHttpClient.ok_status (status r) then trim (data r)
      else "Error " ++ of_Z (status r) ++ ": " ++ data r
  | Rejects e => BinjaHttpClient.handleError e "POST" ep
  end.

(** The handler [h] answers with the text one text request returned. *)
Definition shows_text (net : remote) (log : list request) (h : io payload)
    (ep : string) (ps : params) : Prop :=
  h net log
  = (Returned (Text (text_result ep (answer_text net (List.length log)
                                       (BinjaHttpClient.text_request ep ps None)))),
     (log ++ [BinjaHttpClient.text_request ep ps None])%list).

(** The next parsed request of the run, whatever it asks, is answered with
    [reply]; every parsed request is. *)
Definition next_json (net : remote) (log : list request) (reply : settled jsval) : Prop :=
  forall rq, answer_json net (List.length log) rq = reply.

Definition always_json (net : remote) (reply : settled jsval) : Prop :=
  forall i rq, answer_json net i rq = reply.

(** The same for the next text request and for the next POST. *)
Definition next_text (net : remote) (log : list request) (reply : settled string) : Prop :=
  forall rq, answer_text net (List.length log) rq = reply.

Definition next_post (net : post_remote) (log : list post_call) (reply : settled string)
  : Prop :=
  forall call, net (List.length log) call = reply.

(** The handler returns the text [t], resp. throws. *)
Definition answers_text (run_result : outcome payload * list request) (t : string) : Prop :=
  fst run_result = Returned (Text t).

Definition throws (run_result : outcome payload * list request) : Prop :=
  exists e, fst run_result = Threw e.

(** From its answer number [start] on, the remote serves [pages] one after
    the other to the requests of the aggregation loop that starts at
    [offset]; each page is full: not empty and not shorter than the batch
    size, so the loop goes on after it. *)
Definition serves_full_pages (net : remote) (batch_size offset : Z) (start : nat)
    (pages : list (list jsval)) : Prop :=
  forall i p,
    nth_error pages i = Some p ->
    p <> [] /\ (Z.of_nat (List.length p) <? batch_size) = false /\ Forall entry p /\
    page_at net (start + i) (strings_request batch_size (offset + Z.of_nat i * batch_size)) p.

(** The string is empty or begins with something that is not a digit. *)
Definition starts_with_digit_free (t : string) : Prop :=
  match t with
  | String c _ => is_digit c = false
  | EmptyString => True
  end.

(** Whatever the remote answers, and whether it returns or throws, the
    handler issues the requests [rqs] and no other. *)
Definition sends_exactly (net : remote) (log : list request) (h : io payload)
    (rqs : list request) : Prop :=
  snd (h net log) = (log ++ rqs)%list.

(** The line [get_entry_points] shows for an entry point. *)
Definition entry_point_line (ep : jsval) : string :=
  Js.to_string (Js.prop ep "address") ++ TAB
    ++ Js.to_string (Js.or (Js.prop ep "name") (JStr "(unknown)")).

(** The line [list_sections] shows for a section. *)
Definition section_line (s : jsval) : string :=
  let sem := Js.or (Js.or (Js.prop s "semantics") (Js.prop s "type")) (JStr "") in
  Js.to_string (Js.or (Js.prop s "start") (JStr "")) ++ "-"
    ++ Js.to_string (Js.or (Js.prop s "end") (JStr "")) ++ TAB
    ++ Js.to_string (Js.prop s "size") ++ TAB
    ++ Js.to_string (Js.or (Js.prop s "name") (JStr "(unnamed)"))
    ++ (if Js.truthy sem then TAB ++ Js.to_string sem else "").

(** ** Facts about strings *)

Section StringFacts.

Lemma append_assoc (a b c : string) : (a ++ b) ++ c = a ++ (b ++ c).
Proof. induction a as [|x a IH]; simpl; [reflexivity | now rewrite IH]. Qed.

Lemma append_empty_r (a : string) : a ++ "" = a.
Proof. induction a as [|x a IH]; simpl; [reflexivity | now rewrite IH]. Qed.

Lemma includes_here (a n b : string) : includes (a ++ n ++ b) n.
Proof. now exists a, b. Qed.

Lemma includes_append_l (h t n : string) : includes h n -> includes (h ++ t) n.
Proof.
  unfold includes. intros [pre [post E]]. subst h. exists pre, (post ++ t).
  now rewrite !append_assoc.
Qed.

Lemma includes_append_r (h t n : string) : includes t n -> includes (h ++ t) n.
Proof.
  unfold includes. intros [pre [post E]]. subst t. exists (h ++ pre), post.
  now rewrite !append_assoc.
Qed.

Lemma includes_prefix (n t : string) : includes (n ++ t) n.
Proof. now exists "", t. Qed.

Lemma has_char_append (c : ascii) (a b : string) :
  has_char c (a ++ b) = has_char c a || has_char c b.
Proof.
  induction a as [|x a IH]; simpl; [reflexivity|].
  now rewrite IH, orb_assoc.
Qed.

Lemma split_newline_head (s : string) :
  nth_error (split_newline s) 0 = Some (before_newline s).
Proof.
  induction s as [|c s IH]; [reflexivity|].
  cbn [split_newline before_newline].
  destruct (Ascii.eqb c newline); [reflexivity|].
  destruct (split_newline s) as [|l ls]; cbn [nth_error] in *; [discriminate|].
  now inversion IH.
Qed.

Lemma split_newline_single (s : string) :
  has_char newline s = false -> split_newline s = [s].
Proof.
  induction s as [|c s IH]; [reflexivity|].
  cbn [has_char split_newline]. rewrite Ascii.eqb_sym.
  destruct (Ascii.eqb c newline); cbn [orb]; [discriminate|].
  intros H. now rewrite (IH H).
Qed.

Lemma before_newline_clean (s : string) :
  has_char newline (before_newline s) = false.
Proof.
  induction s as [|c s IH]; [reflexivity|].
  cbn [before_newline].
  destruct (Ascii.eqb c newline) eqn:E; [reflexivity|].
  cbn [has_char]. now rewrite Ascii.eqb_sym, E.
Qed.

Lemma before_newline_cut (pre post : string) :
  has_char newline pre = false -> before_newline (pre ++ LF ++ post) = pre.
Proof.
  induction pre as [|c pre IH].
  - intros _. unfold LF. cbn [append before_newline].
    now rewrite Ascii.eqb_refl.
  - cbn [has_char append before_newline]. rewrite Ascii.eqb_sym.
    destruct (Ascii.eqb c newline); cbn [orb]; [discriminate|].
    intros H. now rewrite (IH H).
Qed.

Lemma before_newline_whole (s : string) :
  has_char newline s = false -> before_newline s = s.
Proof.
  induction s as [|c s IH]; [reflexivity|].
  cbn [has_char before_newline]. rewrite Ascii.eqb_sym.
  destruct (Ascii.eqb c newline); cbn [orb]; [discriminate|].
  intros H. now rewrite (IH H).
Qed.

Lemma join_split_newline (s : string) : join LF (split_newline s) = s.
Proof.
  induction s as [|c s IH]; [reflexivity|].
  cbn [split_newline]. destruct (Ascii.eqb_spec c newline) as [->|Hc].
  - destruct (split_newline s) as [|l ls] eqn:E.
    + destruct s; cbn [split_newline] in E; [discriminate|].
      destruct (Ascii.eqb a newline); [discriminate|].
      destruct (split_newline s); discriminate.
    + change (join LF (EmptyString :: l :: ls)) with (EmptyString ++ LF ++ join LF (l :: ls)).
      rewrite IH. reflexivity.
  - destruct (split_newline s) as [|l ls] eqn:E.
    + destruct s; cbn [split_newline] in E; [discriminate|].
      destruct (Ascii.eqb a newline); [discriminate|].
      destruct (split_newline s); discriminate.
    + destruct ls as [|l' ls'].
      * cbn [join] in *. now rewrite IH.
      * change (join LF (String c l :: l' :: ls'))
          with (String c l ++ LF ++ join LF (l' :: ls')).
        change (join LF (l :: l' :: ls')) with (l ++ LF ++ join LF (l' :: ls')) in IH.
        cbn [append]. now rewrite IH.
Qed.

Lemma first_line (body : string) :
  match nth_error (split_newline body) 0 with
  | Some l => l
  | None => ""
  end = before_newline body.
Proof. now rewrite split_newline_head. Qed.

Lemma first_line_or_empty (body : string) :
  match nth_error (split_newline body) 0 with
  | Some l => if String.eqb l "" then "" else l
  | None => ""
  end = before_newline body.
Proof.
  rewrite split_newline_head.
  destruct (String.eqb_spec (before_newline body) ""); congruence.
Qed.

Lemma before_newline_append (a b : string) :
  has_char newline a = false -> before_newline (a ++ b) = a ++ before_newline b.
Proof.
  induction a as [|c a IH]; [reflexivity|].
  cbn [has_char append before_newline]. rewrite Ascii.eqb_sym.
  destruct (Ascii.eqb c newline); cbn [orb]; [discriminate|].
  intros H. now rewrite (IH H).
Qed.

End StringFacts.

(** ** What the HTTP library lets through *)

Lemma settle_accepted {D} (r : response D) :
  BinjaHttpClient.ok_status (status r) = true -> settle (Resolves r) = Resolves r.
Proof.
  unfold BinjaHttpClient.ok_status. intros H. cbn [settle]. unfold validateStatus.
  now rewrite H, orb_true_r.
Qed.

Lemma settle_refused {D} (r : response D) :
  BinjaHttpClient.ok_status (status r) = false -> status r <> 0 ->
  settle (Resolves r)
  = Rejects (AxiosError (Some (status r, statusText r)) true
               ("Request failed with status code " ++ of_Z (status r))).
Proof.
  unfold BinjaHttpClient.ok_status. intros H H0. cbn [settle]. unfold validateStatus.
  rewrite H. apply Z.eqb_neq in H0. now rewrite H0.
Qed.

Lemma text_result_ok (ep : string) (r : response string) :
  BinjaHttpClient.ok_status (status r) = true -> text_result ep (Resolves r) = data r.
Proof. intros H. unfold text_result. now rewrite (settle_accepted _ H), H. Qed.

Lemma json_result_ok (r : response jsval) :
  BinjaHttpClient.ok_status (status r) = true -> json_result (Resolves r) = data r.
Proof. intros H. unfold json_result. now rewrite (settle_accepted _ H), H. Qed.

Lemma post_result_ok (ep : string) (r : response string) :
  BinjaHttpClient.ok_status (status r) = true ->
  post_result ep (Resolves r) = trim (data r).
Proof. intros H. unfold post_result. now rewrite (settle_accepted _ H), H. Qed.

Lemma text_result_rejected (ep : string) (reply : settled string) (e : thrown) :
  settle reply = Rejects e -> text_result ep reply = BinjaHttpClient.handleError e "GET" ep.
Proof. intros H. unfold text_result. now rewrite H. Qed.

Lemma post_result_rejected (ep : string) (reply : settled string) (e : thrown) :
  settle reply = Rejects e -> post_result ep reply = BinjaHttpClient.handleError e "POST" ep.
Proof. intros H. unfold post_result. now rewrite H. Qed.

(** ** The transport client never throws *)

Section ClientFacts.

Import BinjaHttpClient.

Variables (ep : string) (ps : params) (tmo : option Z).
Variables (net : remote) (log : list request).

Lemma getText_run :
  getText ep ps tmo net log =
  (Returned (text_result ep (answer_text net (List.length log)
                               (text_request ep ps tmo))),
   (log ++ [text_request ep ps tmo])%list).
Proof.
  unfold getText, try_catch, bind, axios_get_text, text_result.
  destruct (settle (answer_text net _ _)) as [r|e]; [|reflexivity].
  destruct (ok_status (status r)); reflexivity.
Qed.

Lemma getJson_run :
  getJson ep ps tmo net log =
  (Returned (json_result (answer_json net (List.length log) (json_request ep ps tmo))),
   (log ++ [json_request ep ps tmo])%list).
Proof.
  unfold getJson, try_catch, bind, axios_get_json, json_result.
  destruct (settle (answer_json net _ _)) as [r|e]; [|reflexivity].
  destruct (ok_status (status r)); [reflexivity|].
  destruct (carries_error_field (data r)); reflexivity.
Qed.

Lemma getLines_run :
  getLines ep ps tmo net log =
  (Returned (split_newline
               (text_result ep (answer_text net (List.length log) (text_request ep ps tmo)))),
   (log ++ [text_request ep ps tmo])%list).
Proof. unfold getLines, bind. now rewrite getText_run. Qed.

End ClientFacts.

Section PostFacts.

Import BinjaHttpClient.

Variables (net : post_remote) (log : list post_call).

Lemma post_run (ep : string) (body : post_data) :
  post ep body net log
  = (Returned (post_result ep (net (List.length log) (post_request ep body))),
     (log ++ [post_request ep body])%list).
Proof.
  unfold post, ptry_catch, pbind, axios_post, post_result.
  destruct (settle (net _ _)) as [r|e]; [|reflexivity].
  destruct (ok_status (status r)); reflexivity.
Qed.

Lemma post_text_run (ep : string) (fields : list (string * jsval)) :
  Tools.post_text ep fields net log
  = (Returned (Text (post_result ep (net (List.length log)
                                       (post_request ep (PostObject fields))))),
     (log ++ [post_request ep (PostObject fields)])%list).
Proof. unfold Tools.post_text, pbind. now rewrite post_run. Qed.

End PostFacts.

Section TransportClaims.

Import BinjaHttpClient.

Variables (ep : string) (ps : params) (tmo : option Z).
Variables (net : remote) (log : list request).

Let text_rq := text_request ep ps tmo.
Let json_rq := json_request ep ps tmo.

(** C6, as amended.  No GET of the transport client throws, whatever the
    reply.  When the underlying request fails with [e], [getText] returns
    the string [Error: GET <endpoint> failed: <message>], [getJson] returns
    an object whose error field is [Request failed: <message>], and
    [getLines] returns that error string split at its newlines: one element
    when neither the endpoint nor the message holds a newline, which is the
    case of a request that got no response (unreachable host, timeout). *)
Theorem transport_failure_is_a_value (e : thrown) :
  (exists t, fst (getText ep ps tmo net log) = Returned t) /\
  (exists v, fst (getJson ep ps tmo net log) = Returned v) /\
  (exists ls, fst (getLines ep ps tmo net log) = Returned ls) /\
  (answer_text net (List.length log) text_rq = Rejects e ->
     getText ep ps tmo net log
       = (Returned (handleError e "GET" ep), (log ++ [text_rq])%list) /\
     startsWith (handleError e "GET" ep) "Error: " = true /\
     getLines ep ps tmo net log
       = (Returned (split_newline (handleError e "GET" ep)), (log ++ [text_rq])%list) /\
     (has_char newline ep = false ->
      has_char newline (getErrorMessage e) = false ->
      getLines ep ps tmo net log
        = (Returned [handleError e "GET" ep], (log ++ [text_rq])%list)) /\
     (has_char newline ep = false ->
      (exists m, e = AxiosError None true m) ->
      getLines ep ps tmo net log
        = (Returned [handleError e "GET" ep], (log ++ [text_rq])%list))) /\
  (answer_json net (List.length log) json_rq = Rejects e ->
     getJson ep ps tmo net log
       = (Returned (JObj [("error", JStr ("Request failed: " ++ getErrorMessage e))]),
          (log ++ [json_rq])%list)).
Proof.
  subst text_rq json_rq.
  rewrite getLines_run, getText_run, getJson_run. cbn [fst].
  split; [eexists; reflexivity|].
  split; [eexists; reflexivity|].
  split; [eexists; reflexivity|].
  split.
  - intros H. rewrite H. cbn [text_result settle].
    split; [reflexivity|]. split; [reflexivity|]. split; [reflexivity|].
    split.
    + intros Hep Hmsg.
      rewrite split_newline_single; [reflexivity|].
      unfold handleError. rewrite !has_char_append, Hep, Hmsg. reflexivity.
    + intros Hep [m ->].
      rewrite split_newline_single; [reflexivity|].
      unfold handleError. rewrite !has_char_append, Hep. reflexivity.
  - intros H. now rewrite H.
Qed.

(** C7.  The clause on a body that carries an error field does not hold for
    a status outside 200..299.  [getJson] has a branch that hands such a body
    back (its comment reads "Non-OK: return parsed error object if
    available"), but the client leaves [validateStatus] at the library's
    default, so the promise of such a response rejects and the [catch]
    branch answers: whatever the body, the result is
    [{error: "Request failed: Server returned <status>: <statusText>"}], and
    the error the service sent is lost.  The rest of the claim holds: with a
    status in 200..299 the body comes back unchanged, the value made up for
    another status embeds the status, and a request without response gives
    an error field that starts with [Request failed: ]. *)
Theorem getJson_replaces_error_body :
  (forall r, answer_json net (List.length log) json_rq = Resolves r ->
     ok_status (status r) = false -> status r <> 0 ->
     getJson ep ps tmo net log
       = (Returned (JObj [("error",
                           JStr ("Request failed: Server returned " ++ of_Z (status r)
                                   ++ ": " ++ statusText r))]),
          (log ++ [json_rq])%list)) /\
  (forall r, answer_json net (List.length log) json_rq = Resolves r ->
     ok_status (status r) = true ->
     getJson ep ps tmo net log = (Returned (data r), (log ++ [json_rq])%list)) /\
  (forall e, answer_json net (List.length log) json_rq = Rejects e ->
     getJson ep ps tmo net log
       = (Returned (JObj [("error", JStr ("Request failed: " ++ getErrorMessage e))]),
          (log ++ [json_rq])%list)).
Proof.
  subst json_rq. rewrite getJson_run. repeat split.
  - intros r Hr Hst H0. rewrite Hr. unfold json_result.
    now rewrite (settle_refused _ Hst H0).
  - intros r Hr Hst. now rewrite Hr, (json_result_ok _ Hst).
  - intros e He. now rewrite He.
Qed.

End TransportClaims.

(** C6 at an unreachable host: the three results for the endpoint [comment]. *)
Lemma transport_failure_unreachable :
  let e := AxiosError None true "connect ECONNREFUSED" in
  let msg := "No response from server - is Binary Ninja running with the MCP plugin?" in
  BinjaHttpClient.getText "comment" [] None Samples.unreachable []
    = (Returned ("Error: GET comment failed: " ++ msg),
       [BinjaHttpClient.text_request "comment" [] None]) /\
  BinjaHttpClient.getLines "comment" [] None Samples.unreachable []
    = (Returned ["Error: GET comment failed: " ++ msg],
       [BinjaHttpClient.text_request "comment" [] None]) /\
  BinjaHttpClient.getJson "comment" [] None Samples.unreachable []
    = (Returned (JObj [("error", JStr ("Request failed: " ++ msg))]),
       [BinjaHttpClient.json_request "comment" [] None]).
Proof.
  intros e msg.
  destruct (transport_failure_is_a_value "comment" [] None Samples.unreachable [] e)
    as (_ & _ & _ & Htext & Hjson).
  destruct (Htext eq_refl) as (Hget & _ & _ & Hone & _).
  split; [exact Hget|].
  split; [exact (Hone eq_refl eq_refl)|].
  exact (Hjson eq_refl).
Defined.

(** C6 as stated fails: a request that fails with a two-line message makes
    [getLines] return two elements. *)
Lemma getLines_failure_with_two_lines :
  result_of (BinjaHttpClient.getLines "comment" [("address", PStr "0x401000")] None)
            Samples.two_line_failure
  = Returned ["Error: GET comment failed: first line"; "second line"].
Proof. reflexivity. Qed.

(** C7 on a service that answers 404 with the body
    [{error: "Function not found", code: 7}]: the body does not come back,
    the error field names the status instead. *)
Lemma getJson_replaces_error_body_not_found :
  let domain := JObj [("error", JStr "Function not found"); ("code", JNum 7)] in
  BinjaHttpClient.carries_error_field domain = true /\
  BinjaHttpClient.getJson "il" [] None (Samples.not_found domain) []
    = (Returned (JObj [("error",
                        JStr "Request failed: Server returned 404: Not Found")]),
       [BinjaHttpClient.json_request "il" [] None]).
Proof.
  intros domain. split; [reflexivity|].
  exact (proj1 (getJson_replaces_error_body "il" [] None (Samples.not_found domain) [])
           _ eq_refl eq_refl ltac:(discriminate)).
Defined.

Section CommentClaims.

Import BinjaHttpClient.

Variables (arg : string) (net : remote) (log : list request).

Let comment_rq := text_request "comment" [("address", PStr arg)] None.
Let function_rq := text_request "comment/function" [("name", PStr arg)] None.

(** C10.  [get_comment] and [get_function_comment] return the text that
    [getText] gives, cut before its first newline; for a reply with a
    success status that text is the response body, so a body
    [pre LF post] with no newline in [pre] is shown as [pre], and an empty
    body as the empty text. *)
Theorem comment_handlers_keep_first_line :
  Tools.get_comment arg net log
    = (Returned (Text (before_newline
                         (text_result "comment"
                            (answer_text net (List.length log) comment_rq)))),
       (log ++ [comment_rq])%list) /\
  Tools.get_function_comment arg net log
    = (Returned (Text (before_newline
                         (text_result "comment/function"
                            (answer_text net (List.length log) function_rq)))),
       (log ++ [function_rq])%list) /\
  (forall r pre post,
     answer_text net (List.length log) comment_rq = Resolves r ->
     ok_status (status r) = true ->
     data r = pre ++ LF ++ post -> has_char newline pre = false ->
     Tools.get_comment arg net log
       = (Returned (Text pre), (log ++ [comment_rq])%list)) /\
  (forall r pre post,
     answer_text net (List.length log) function_rq = Resolves r ->
     ok_status (status r) = true ->
     data r = pre ++ LF ++ post -> has_char newline pre = false ->
     Tools.get_function_comment arg net log
       = (Returned (Text pre), (log ++ [function_rq])%list)) /\
  (forall r,
     answer_text net (List.length log) comment_rq = Resolves r ->
     ok_status (status r) = true -> data r = "" ->
     Tools.get_comment arg net log
       = (Returned (Text ""), (log ++ [comment_rq])%list)) /\
  (forall r,
     answer_text net (List.length log) function_rq = Resolves r ->
     ok_status (status r) = true -> data r = "" ->
     Tools.get_function_comment arg net log
       = (Returned (Text ""), (log ++ [function_rq])%list)).
Proof.
  subst comment_rq function_rq.
  assert (Hc : forall body, (match nth_error (split_newline body) 0 with
                             | Some l => l | None => "" end) = before_newline body)
    by (intros body; now rewrite split_newline_head).
  assert (Hf : forall body, (match nth_error (split_newline body) 0 with
                             | Some l => if String.eqb l "" then "" else l
                             | None => "" end) = before_newline body).
  { intros body. rewrite split_newline_head.
    destruct (String.eqb_spec (before_newline body) ""); congruence. }
  assert (G1 : Tools.get_comment arg net log
    = (Returned (Text (before_newline
                         (text_result "comment"
                            (answer_text net (List.length log)
                               (text_request "comment" [("address", PStr arg)] None))))),
       (log ++ [text_request "comment" [("address", PStr arg)] None])%list)).
  { unfold Tools.get_comment, bind. rewrite getLines_run. unfold ret.
    now rewrite Hc. }
  assert (G2 : Tools.get_function_comment arg net log
    = (Returned (Text (before_newline
                         (text_result "comment/function"
                            (answer_text net (List.length log)
                               (text_request "comment/function" [("name", PStr arg)] None))))),
       (log ++ [text_request "comment/function" [("name", PStr arg)] None])%list)).
  { unfold Tools.get_function_comment, bind. rewrite getLines_run. unfold ret.
    now rewrite Hf. }
  split; [exact G1|]. split; [exact G2|].
  split; [|split; [|split]].
  - intros r pre post Hr Hok Hbody Hpre. rewrite G1, Hr, (text_result_ok _ _ Hok).
    now rewrite Hbody, before_newline_cut.
  - intros r pre post Hr Hok Hbody Hpre. rewrite G2, Hr, (text_result_ok _ _ Hok).
    now rewrite Hbody, before_newline_cut.
  - intros r Hr Hok Hbody. rewrite G1, Hr, (text_result_ok _ _ Hok).
    now rewrite Hbody.
  - intros r Hr Hok Hbody. rewrite G2, Hr, (text_result_ok _ _ Hok).
    now rewrite Hbody.
Qed.

End CommentClaims.

(** C10 on a two-line comment and on an empty one. *)
Lemma comment_handlers_on_samples :
  Tools.get_comment "0x401000" (Samples.constant JNull ("entry" ++ LF ++ "see notes")) []
    = (Returned (Text "entry"),
       [BinjaHttpClient.text_request "comment" [("address", PStr "0x401000")] None]) /\
  Tools.get_function_comment "main" (Samples.constant JNull ("entry" ++ LF ++ "see notes")) []
    = (Returned (Text "entry"),
       [BinjaHttpClient.text_request "comment/function" [("name", PStr "main")] None]) /\
  Tools.get_comment "0x401000" (Samples.constant JNull "") []
    = (Returned (Text ""),
       [BinjaHttpClient.text_request "comment" [("address", PStr "0x401000")] None]) /\
  Tools.get_function_comment "main" (Samples.constant JNull "") []
    = (Returned (Text ""),
       [BinjaHttpClient.text_request "comment/function" [("name", PStr "main")] None]).
Proof.
  pose proof (comment_handlers_keep_first_line "0x401000"
                (Samples.constant JNull ("entry" ++ LF ++ "see notes")) [])
    as (_ & _ & H1 & _).
  pose proof (comment_handlers_keep_first_line "main"
                (Samples.constant JNull ("entry" ++ LF ++ "see notes")) [])
    as (_ & _ & _ & H2 & _).
  pose proof (comment_handlers_keep_first_line "0x401000" (Samples.constant JNull "") [])
    as (_ & _ & _ & _ & H3 & _).
  pose proof (comment_handlers_keep_first_line "main" (Samples.constant JNull "") [])
    as (_ & _ & _ & _ & _ & H4).
  split; [exact (H1 _ "entry" "see notes" eq_refl eq_refl eq_refl eq_refl)|].
  split; [exact (H2 _ "entry" "see notes" eq_refl eq_refl eq_refl eq_refl)|].
  split; [exact (H3 _ eq_refl eq_refl eq_refl)|].
  exact (H4 _ eq_refl eq_refl eq_refl).
Defined.

(** ** Which requests a handler issues *)

Lemma silent_ret {A} (a : A) : silent (ret a).
Proof. now intros net log. Qed.

Lemma silent_throw {A} (e : thrown) : silent (@throw A e).
Proof. now intros net log. Qed.

Lemma silent_bind {A B} (m : io A) (k : A -> io B) :
  silent m -> (forall a, silent (k a)) -> silent (bind m k).
Proof.
  intros Hm Hk net log. unfold bind.
  specialize (Hm net log).
  destruct (m net log) as [[a|e] log']; cbn [snd] in *; subst log'.
  - apply Hk.
  - reflexivity.
Qed.

Lemma silent_if {A} (b : bool) (m1 m2 : io A) :
  silent m1 -> silent m2 -> silent (if b then m1 else m2).
Proof. now destruct b. Qed.

Lemma silent_mapM {A B} (f : A -> io B) (xs : list A) :
  (forall a, silent (f a)) -> silent (Tools.mapM f xs).
Proof.
  intros Hf. induction xs as [|x xs IH]; cbn [Tools.mapM].
  - apply silent_ret.
  - apply silent_bind; [apply Hf|]. intros y.
    apply silent_bind; [exact IH|]. intros ys. apply silent_ret.
Qed.

Lemma silent_has_property (k : string) (v : jsval) : silent (has_property k v).
Proof. destruct v; cbn [has_property]; first [apply silent_ret | apply silent_throw]. Qed.

Lemma silent_member (v : jsval) (k : string) : silent (member v k).
Proof.
  unfold member. destruct (Js.is_nullish v); first [apply silent_ret | apply silent_throw].
Qed.

Lemma silent_array_join (v : jsval) (sep : string) : silent (Tools.array_join v sep).
Proof. destruct v; cbn [Tools.array_join]; first [apply silent_ret | apply silent_throw]. Qed.

(** Discharges [silent m] for a handler's code that follows its request. *)
Ltac silence :=
  repeat first
    [ apply silent_ret | apply silent_throw | apply silent_has_property
    | apply silent_member | apply silent_array_join
    | apply silent_mapM; intros
    | apply silent_bind; [|intros]
    | apply silent_if
    | match goal with
      | |- silent (match ?x with _ => _ end) => destruct x
      end ].

Section RequestFacts.

Import BinjaHttpClient.

Variables (net : remote) (log : list request).

Lemma bind_getJson {B} (ep : string) (ps : params) (tmo : option Z) (k : jsval -> io B) :
  bind (getJson ep ps tmo) k net log
  = k (json_result (answer_json net (List.length log) (json_request ep ps tmo)))
      net (log ++ [json_request ep ps tmo])%list.
Proof. unfold bind. now rewrite getJson_run. Qed.

Lemma bind_getText {B} (ep : string) (ps : params) (tmo : option Z) (k : string -> io B) :
  bind (getText ep ps tmo) k net log
  = k (text_result ep (answer_text net (List.length log) (text_request ep ps tmo)))
      net (log ++ [text_request ep ps tmo])%list.
Proof. unfold bind. now rewrite getText_run. Qed.

(** A handler that sends one parsed request and then only computes. *)
Lemma one_json_request {B} (ep : string) (ps : params) (k : jsval -> io B) :
  (forall d, silent (k d)) ->
  snd (bind (getJson ep ps None) k net log) = (log ++ [json_request ep ps None])%list.
Proof. intros Hk. rewrite bind_getJson. apply Hk. Qed.

Lemma one_text_request {B} (ep : string) (ps : params) (k : string -> io B) :
  (forall d, silent (k d)) ->
  snd (bind (getText ep ps None) k net log) = (log ++ [text_request ep ps None])%list.
Proof. intros Hk. rewrite bind_getText. apply Hk. Qed.

Lemma getActiveFilename_run :
  Tools.getActiveFilename net log
  = (Returned (active_filename
                 (json_result (answer_json net (List.length log)
                                 (json_request "status" [] None)))),
     (log ++ [json_request "status" [] None])%list).
Proof.
  unfold Tools.getActiveFilename. rewrite bind_getJson. unfold active_filename.
  now destruct (_ && _ && _).
Qed.

(** The tail of a handler that shows the lines it fetched. *)
Lemma lines_shown_again (ep : string) (ps : params) :
  bind (getLines ep ps None) (fun lines => ret (Text (join LF lines))) net log
  = (Returned (Text (text_result ep (answer_text net (List.length log)
                                       (text_request ep ps None)))),
     (log ++ [text_request ep ps None])%list).
Proof. unfold bind. rewrite getLines_run. unfold ret. now rewrite join_split_newline. Qed.

End RequestFacts.

Section CallSites.

Import BinjaHttpClient.

Variables (net : remote) (log : list request) (s : string).

Lemma get_il_requests (view : string) (ssa : bool) :
  snd (Tools.get_il s view ssa net log)
  = (log ++ [json_request "status" [] None;
             json_request "il"
               [("view", PStr view); ("ssa", PNum (if ssa then 1 else 0));
                ident_param "name" s] None])%list.
Proof.
  unfold Tools.get_il, bind at 1. rewrite getActiveFilename_run.
  assert (E : (if looks_like_address (trim s)
       then set_param [("view", PStr view); ("ssa", PNum (if ssa then 1 else 0))]
              "address" (PStr (trim s))
       else set_param [("view", PStr view); ("ssa", PNum (if ssa then 1 else 0))]
              "name" (PStr (trim s)))
      = [("view", PStr view); ("ssa", PNum (if ssa then 1 else 0));
         ident_param "name" s]).
  { unfold ident_param, classify. now destruct (looks_like_address (trim s)). }
  rewrite E, one_json_request, <- app_assoc; [reflexivity|].
  intros d. silence.
Qed.

Lemma get_stack_frame_vars_requests :
  snd (Tools.get_stack_frame_vars s net log)
  = (log ++ [json_request "getStackFrameVars" [ident_param "name" s] None])%list.
Proof.
  unfold Tools.get_stack_frame_vars. cbv zeta.
  assert (E : @eq params
                (if looks_like_address (trim s)
                 then [("address", PStr (trim s))] else [("name", PStr (trim s))])
                [ident_param "name" s]).
  { unfold ident_param, classify. now destruct (looks_like_address (trim s)). }
  rewrite E, one_json_request; [reflexivity|].
  intros d. silence.
Qed.

Lemma set_function_prototype_requests (prototype : string) :
  snd (Tools.set_function_prototype s prototype net log)
  = (log ++ [json_request "setFunctionPrototype"
               [("prototype", PStr prototype); ident_param "name" s] None])%list.
Proof.
  unfold Tools.set_function_prototype. cbv zeta.
  assert (E : (if looks_like_address (trim s)
               then set_param [("prototype", PStr prototype)] "address" (PStr (trim s))
               else set_param [("prototype", PStr prototype)] "name" (PStr (trim s)))
              = [("prototype", PStr prototype); ident_param "name" s]).
  { unfold ident_param, classify. now destruct (looks_like_address (trim s)). }
  rewrite E, one_json_request; [reflexivity|].
  intros d. silence.
Qed.

Lemma rename_ident_params_classify :
  Tools.rename_ident_params s = [ident_param "functionName" s].
Proof.
  unfold Tools.rename_ident_params, ident_param, classify.
  now destruct (looks_like_address (trim s)).
Qed.

Lemma rename_multi_variables_send_requests (ps : params) :
  snd (Tools.rename_multi_variables_send ps net log)
  = (log ++ [json_request "renameVariables" ps None])%list.
Proof.
  unfold Tools.rename_multi_variables_send.
  rewrite one_json_request; [reflexivity|]. intros d. silence.
Qed.

Lemma hexdump_data_requests (length : Z) :
  snd (Tools.hexdump_data s length net log)
  = (log ++ [text_request
               (if starts_with_0x (trim s) then "hexdump" else "hexdumpByName")
               (Tools.with_length [prefix_param s] length) None])%list.
Proof.
  unfold Tools.hexdump_data, prefix_param. cbv zeta.
  destruct (starts_with_0x (trim s));
    (rewrite one_text_request; [reflexivity|]; intros d; silence).
Qed.

Lemma get_data_decl_requests (length : Z) :
  snd (Tools.get_data_decl s length net log)
  = (log ++ [json_request "getDataDecl"
               (Tools.with_length [prefix_param s] length) None])%list.
Proof.
  unfold Tools.get_data_decl. cbv zeta.
  assert (E : @eq params
                (if starts_with_0x (trim s)
                 then [("address", PStr (trim s))] else [("name", PStr (trim s))])
                [prefix_param s]).
  { unfold prefix_param. now destruct (starts_with_0x (trim s)). }
  rewrite E, one_json_request; [reflexivity|].
  intros d. silence.
Qed.

Lemma fetch_disassembly_requests :
  snd (Tools.fetch_disassembly s net log)
  = (log ++ [json_request "status" [] None;
             json_request "assembly" [("name", PStr s)] None])%list.
Proof.
  unfold Tools.fetch_disassembly, bind at 1. rewrite getActiveFilename_run.
  rewrite one_json_request, <- app_assoc; [reflexivity|].
  intros d. silence.
Qed.

End CallSites.

(** ** Identifier handling at the call sites *)

(** C1 at the identifiers [0X401000] and [4198400].  The rule of the
    specification makes both an address, and [get_il],
    [rename_multi_variables], [get_stack_frame_vars] and
    [set_function_prototype] send them as [address]; [hexdump_data] and
    [get_data_decl] test for a lower-case [0x] prefix only and send them as
    [name], [hexdump_data] to the by-name endpoint. *)
Theorem hexdump_data_sends_address_as_name (net : remote) (id : string) :
  id = "0X401000" \/ id = "4198400" ->
  classify id = AddressKind /\
  requests_of (Tools.get_il id "hlil" false) net
    = [BinjaHttpClient.json_request "status" [] None;
       BinjaHttpClient.json_request "il"
         [("view", PStr "hlil"); ("ssa", PNum 0); ("address", PStr id)] None] /\
  Tools.rename_ident_params id = [("address", PStr id)] /\
  requests_of (Tools.get_stack_frame_vars id) net
    = [BinjaHttpClient.json_request "getStackFrameVars" [("address", PStr id)] None] /\
  requests_of (Tools.set_function_prototype id "int f(void)") net
    = [BinjaHttpClient.json_request "setFunctionPrototype"
         [("prototype", PStr "int f(void)"); ("address", PStr id)] None] /\
  requests_of (Tools.hexdump_data id (-1)) net
    = [BinjaHttpClient.text_request "hexdumpByName" [("name", PStr id)] None] /\
  requests_of (Tools.get_data_decl id (-1)) net
    = [BinjaHttpClient.json_request "getDataDecl" [("name", PStr id)] None].
Proof.
  unfold requests_of, run.
  rewrite get_il_requests, rename_ident_params_classify, get_stack_frame_vars_requests,
    set_function_prototype_requests, hexdump_data_requests, get_data_decl_requests.
  intros [-> | ->]; repeat split; reflexivity.
Qed.

Lemma hexdump_data_sends_address_as_name_at_0X401000 :
  requests_of (Tools.get_il "0X401000" "hlil" false) Samples.unreachable
    = [BinjaHttpClient.json_request "status" [] None;
       BinjaHttpClient.json_request "il"
         [("view", PStr "hlil"); ("ssa", PNum 0); ("address", PStr "0X401000")] None] /\
  requests_of (Tools.hexdump_data "0X401000" (-1)) Samples.unreachable
    = [BinjaHttpClient.text_request "hexdumpByName" [("name", PStr "0X401000")] None].
Proof.
  destruct (hexdump_data_sends_address_as_name Samples.unreachable "0X401000"
              (or_introl eq_refl)) as (_ & Hil & _ & _ & _ & Hhex & _).
  split; [exact Hil | exact Hhex].
Defined.

(** ** Start-up configuration *)

(** Once the environment names a host, no command line changes it. *)
Lemma environment_host_wins (argv : list string) (env : environment)
    (h : string) (c : server_config) :
  env_set (BINJA_MCP_HOST env) = Some h ->
  parseArgs argv env = Parsed c -> host c = h.
Proof.
  unfold parseArgs. intros Hh.
  destruct (scan_args (skipn 2 argv) "localhost" (Num 9009)) as [code|c0];
    [discriminate|].
  rewrite Hh. intros H. inversion H. reflexivity.
Qed.

(** Without the variables the command line decides, and without either the
    defaults stand. *)
Lemma command_line_over_defaults :
  let no_env := {| BINJA_MCP_HOST := None; BINJA_MCP_PORT := None |} in
  parseArgs ["node"; "index.js"; "--host"; "10.0.0.5"; "--port"; "9010"] no_env
    = Parsed {| host := "10.0.0.5"; port := Num 9010 |} /\
  parseArgs ["node"; "index.js"] no_env
    = Parsed {| host := "localhost"; port := Num 9009 |} /\
  parseArgs ["node"; "index.js"]
            {| BINJA_MCP_HOST := Some "example.org"; BINJA_MCP_PORT := Some "9999" |}
    = Parsed {| host := "example.org"; port := Num 9999 |}.
Proof. repeat split; reflexivity. Qed.

(** C2 with host and port given both ways: [parseArgs] returns the values of
    the environment, not those of the command line. *)
Theorem parseArgs_environment_over_command_line :
  parseArgs ["node"; "index.js"; "--host"; "10.0.0.5"; "--port"; "9010"]
            {| BINJA_MCP_HOST := Some "example.org"; BINJA_MCP_PORT := Some "9999" |}
  = Parsed {| host := "example.org"; port := Num 9999 |}.
Proof. reflexivity. Qed.

(** ** Disassembly fetch *)

(** C3, as amended: [fetch_disassembly] asks for the file name and then
    sends its argument, whatever it looks like, as the [name] parameter of
    one [assembly] request. *)
Theorem fetch_disassembly_sends_name (name : string) (net : remote) :
  requests_of (Tools.fetch_disassembly name) net
  = [BinjaHttpClient.json_request "status" [] None;
     BinjaHttpClient.json_request "assembly" [("name", PStr name)] None].
Proof. unfold requests_of, run. now rewrite fetch_disassembly_requests. Qed.

(** C3 as stated fails: for [0x401000] the request carries
    [name=0x401000], and no request carries [address=0x401000]. *)
Lemma fetch_disassembly_hex_goes_as_name :
  requests_of (Tools.fetch_disassembly "0x401000") Samples.unreachable
    = [BinjaHttpClient.json_request "status" [] None;
       BinjaHttpClient.json_request "assembly" [("name", PStr "0x401000")] None] /\
  existsb (fun rq => carries (query rq) "address" (PStr "0x401000"))
          (requests_of (Tools.fetch_disassembly "0x401000") Samples.unreachable) = false.
Proof. split; reflexivity. Qed.

(** ** Batch rename *)

Lemma JSON_parses_empty : JSON.parses "" = false.
Proof. reflexivity. Qed.

Lemma given_valid (x : string) : JSON.parses x = true -> Tools.given (Some x) = Some x.
Proof.
  intros H. unfold Tools.given. destruct (String.eqb_spec x ""); [|reflexivity].
  subst x. rewrite JSON_parses_empty in H. discriminate.
Qed.

Section BatchRename.

Import BinjaHttpClient.

Variables (id : string) (net : remote) (log : list request).

Lemma rename_multi_variables_send_ok (ps : params) (props : list (string * jsval)) :
  answers_object net log (json_request "renameVariables" ps None) props ->
  Js.lookup "error" props = None ->
  Tools.rename_multi_variables_send ps net log
  = (Returned (Text ("Batch rename: " ++ Js.to_string (Js.prop (JObj props) "renamed")
                       ++ "/" ++ Js.to_string (Js.prop (JObj props) "total")
                       ++ " applied")),
     (log ++ [json_request "renameVariables" ps None])%list).
Proof.
  intros (rep & Hrep & Hok & Hdata) Herr.
  unfold Tools.rename_multi_variables_send. rewrite bind_getJson, Hrep.
  rewrite (json_result_ok _ Hok), Hdata.
  cbn [Js.truthy negb has_property Js.has_own]. rewrite Herr.
  reflexivity.
Qed.

(** C4.  With no alternative supplied the handler answers with a
    validation error and sends nothing.  A [renames_json] that is not valid
    JSON is refused by name, nothing sent; so is a [mapping_json] that is
    not valid JSON, which the handler looks at when no [renames_json] is
    supplied, as is the case when one alternative only is.  With exactly
    one usable alternative one [renameVariables] request is sent, carrying
    the identifier and that alternative, and for a reply that is an object
    without error field the text reports its [renamed] and [total].  As in
    the handler's own test, an alternative is supplied when it is present
    and not the empty string. *)
Theorem rename_multi_variables_inputs (mapping_json pairs renames_json : option string) :
  (Tools.given mapping_json = None -> Tools.given pairs = None ->
   Tools.given renames_json = None ->
   Tools.rename_multi_variables id mapping_json pairs renames_json net log
   = (Returned (Text "Error: provide mapping_json, renames_json, or pairs"), log)) /\
  (forall r, Tools.given renames_json = Some r -> JSON.parses r = false ->
   Tools.rename_multi_variables id mapping_json pairs renames_json net log
   = (Returned (Text "Error: renames_json is not valid JSON"), log)) /\
  (forall m, Tools.given renames_json = None ->
   Tools.given mapping_json = Some m -> JSON.parses m = false ->
   Tools.rename_multi_variables id mapping_json pairs renames_json net log
   = (Returned (Text "Error: mapping_json is not valid JSON"), log)) /\
  (forall key x, sole_alternative mapping_json pairs renames_json = Some (key, x) ->
   let rq := json_request "renameVariables"
               [ident_param "functionName" id; (key, PStr x)] None in
   snd (Tools.rename_multi_variables id mapping_json pairs renames_json net log)
     = (log ++ [rq])%list /\
   forall props renamed total,
     answers_object net log rq props ->
     Js.lookup "error" props = None ->
     Js.lookup "renamed" props = Some (JNum renamed) ->
     Js.lookup "total" props = Some (JNum total) ->
     Tools.rename_multi_variables id mapping_json pairs renames_json net log
     = (Returned (Text ("Batch rename: " ++ of_Z renamed ++ "/" ++ of_Z total
                          ++ " applied")),
        (log ++ [rq])%list)).
Proof.
  unfold Tools.rename_multi_variables. cbv zeta.
  split; [|split; [|split]].
  - now intros -> -> ->.
  - intros r -> Hr. now rewrite Hr.
  - intros m -> -> Hm. now rewrite Hm.
  - intros key x Hsole.
    assert (Hsend : Tools.rename_multi_variables id mapping_json pairs renames_json
                    = Tools.rename_multi_variables_send
                        [ident_param "functionName" id; (key, PStr x)]).
    { unfold Tools.rename_multi_variables. cbv zeta.
      rewrite rename_ident_params_classify.
      assert (Hset : forall k v, k <> "address" -> k <> "functionName" ->
                set_param [ident_param "functionName" id] k v
                = [ident_param "functionName" id; (k, v)]).
      { intros k v Ha Hf. unfold ident_param.
        destruct (classify id); cbn [set_param].
        - destruct (String.eqb_spec "address" k); [congruence | reflexivity].
        - destruct (String.eqb_spec "functionName" k); [congruence | reflexivity]. }
      unfold sole_alternative in Hsole.
      destruct renames_json as [r|], mapping_json as [m|], pairs as [p|];
        try discriminate.
      - destruct (JSON.parses r) eqn:Hr; [|discriminate]. inversion Hsole; subst.
        rewrite (given_valid _ Hr), Hr. now rewrite Hset.
      - destruct (JSON.parses m) eqn:Hm; [|discriminate]. inversion Hsole; subst.
        rewrite (given_valid _ Hm), Hm. cbn [Tools.given]. now rewrite Hset.
      - destruct (String.eqb p "") eqn:Hp; [discriminate|]. inversion Hsole; subst.
        cbn [Tools.given]. rewrite Hp. now rewrite Hset. }
    fold (Tools.rename_multi_variables id mapping_json pairs renames_json).
    rewrite Hsend. split.
    + apply rename_multi_variables_send_requests.
    + intros props renamed total Hans Herr Hren Htot.
      rewrite (rename_multi_variables_send_ok _ props Hans Herr).
      cbn [Js.prop]. now rewrite Hren, Htot.
Qed.

End BatchRename.

(** C4 on concrete calls: nothing given, a malformed [renames_json], a
    malformed [mapping_json], and [pairs] alone. *)
Lemma rename_multi_variables_inputs_on_samples :
  let net := Samples.constant (JObj [("renamed", JNum 2); ("total", JNum 3)]) "" in
  Tools.rename_multi_variables "main" None None None net []
    = (Returned (Text "Error: provide mapping_json, renames_json, or pairs"), []) /\
  Tools.rename_multi_variables "main" None None (Some "[{") net []
    = (Returned (Text "Error: renames_json is not valid JSON"), []) /\
  Tools.rename_multi_variables "main" (Some "{oops") None None net []
    = (Returned (Text "Error: mapping_json is not valid JSON"), []) /\
  Tools.rename_multi_variables "0x401000" None (Some "a:b,c:d") None net []
    = (Returned (Text "Batch rename: 2/3 applied"),
       [BinjaHttpClient.json_request "renameVariables"
          [("address", PStr "0x401000"); ("pairs", PStr "a:b,c:d")] None]).
Proof.
  intros net.
  split; [|split; [|split]].
  - exact (proj1 (rename_multi_variables_inputs "main" net [] None None None)
             eq_refl eq_refl eq_refl).
  - exact (proj1 (proj2 (rename_multi_variables_inputs "main" net [] None None (Some "[{")))
             "[{" eq_refl eq_refl).
  - exact (proj1 (proj2 (proj2
             (rename_multi_variables_inputs "main" net [] (Some "{oops") None None)))
             "{oops" eq_refl eq_refl eq_refl).
  - destruct (proj2 (proj2 (proj2
               (rename_multi_variables_inputs "0x401000" net [] None (Some "a:b,c:d") None)))
               "pairs" "a:b,c:d" eq_refl) as [_ Hreply].
    exact (Hreply [("renamed", JNum 2); ("total", JNum 3)] 2 3
             (ex_intro _ _ (conj eq_refl (conj eq_refl eq_refl)))
             eq_refl eq_refl eq_refl).
Defined.

(** ** Aggregated strings listing *)

Section Aggregation.

Import BinjaHttpClient.

Variable net : remote.
Variable batch_size : Z.

Lemma format_string_item_entry (s : jsval) (log : list request) :
  entry s -> Tools.format_string_item s net log = (Returned (record_of s), log).
Proof.
  unfold entry, Tools.format_string_item, member, bind. intros ->. reflexivity.
Qed.

Lemma format_entries (items : list jsval) (log : list request) :
  Forall entry items ->
  Tools.mapM Tools.format_string_item items net log
  = (Returned (map record_of items), log).
Proof.
  induction 1 as [|s items Hs _ IH]; [reflexivity|].
  cbn [Tools.mapM map]. unfold bind at 1. rewrite (format_string_item_entry _ _ Hs).
  unfold bind. now rewrite IH.
Qed.

Variables (fuel : nat) (offset : Z) (results : list string) (log : list request).

(** One turn of the loop on a page. *)
Lemma loop_page (items : list jsval) :
  page_at net (List.length log) (strings_request batch_size offset) items ->
  Forall entry items ->
  Tools.list_all_strings_loop (S fuel) batch_size offset results net log
  = if (List.length items =? 0)%nat
    then (Returned (Some results), (log ++ [strings_request batch_size offset])%list)
    else if Z.of_nat (List.length items) <? batch_size
         then (Returned (Some (results ++ map record_of items)%list),
               (log ++ [strings_request batch_size offset])%list)
         else Tools.list_all_strings_loop fuel batch_size (offset + batch_size)
                (results ++ map record_of items)%list net
                (log ++ [strings_request batch_size offset])%list.
Proof.
  intros (rep & props & Hrep & Hok & Hdata & Hstrings) Hitems.
  cbn [Tools.list_all_strings_loop]. fold (strings_request batch_size offset).
  rewrite bind_getJson. fold (strings_request batch_size offset).
  rewrite Hrep. rewrite (json_result_ok _ Hok), Hdata.
  cbn [Js.truthy negb has_property Js.has_own Js.prop]. rewrite Hstrings.
  unfold bind at 1. cbn [ret negb].
  destruct (List.length items =? 0)%nat; [reflexivity|].
  unfold bind at 1. rewrite (format_entries _ _ Hitems).
  destruct (Z.of_nat (List.length items) <? batch_size); reflexivity.
Qed.

(** One turn of the loop on an answer without a [strings] field: a falsy
    value, or an object that lacks the key. *)
Lemma loop_no_strings :
  let d := json_result (answer_json net (List.length log) (strings_request batch_size offset)) in
  Js.truthy d = false \/ (Js.typeof_object d = true /\ Js.has_own "strings" d = false) ->
  Tools.list_all_strings_loop (S fuel) batch_size offset results net log
  = (Returned (Some results), (log ++ [strings_request batch_size offset])%list).
Proof.
  intros d Hd. cbn [Tools.list_all_strings_loop]. fold (strings_request batch_size offset).
  rewrite bind_getJson. fold (strings_request batch_size offset). fold d.
  destruct Hd as [Hfalsy | [Hobj Hno]].
  - now rewrite Hfalsy.
  - destruct d; try discriminate; try reflexivity;
      cbn [Js.truthy negb has_property]; unfold bind, ret; now rewrite Hno.
Qed.

(** One turn of the loop on an object whose [strings] field is not an
    array: no entry is taken from it. *)
Lemma loop_not_array (props : list (string * jsval)) (v : jsval) :
  json_result (answer_json net (List.length log) (strings_request batch_size offset))
    = JObj props ->
  Js.lookup "strings" props = Some v -> Js.isArray v = false ->
  Tools.list_all_strings_loop (S fuel) batch_size offset results net log
  = (Returned (Some results), (log ++ [strings_request batch_size offset])%list).
Proof.
  intros Hd Hv Harr. cbn [Tools.list_all_strings_loop].
  fold (strings_request batch_size offset).
  rewrite bind_getJson. fold (strings_request batch_size offset). rewrite Hd.
  cbn [Js.truthy negb has_property Js.has_own Js.prop]. rewrite Hv.
  unfold bind at 1. cbn [ret negb].
  destruct v; try discriminate; reflexivity.
Qed.

(** Whatever the answer, a turn that finds no [strings] field is the last
    one: the loop returns or throws after that one request. *)
Lemma loop_stops_without_strings :
  Js.has_own "strings"
    (json_result (answer_json net (List.length log) (strings_request batch_size offset))) = false ->
  exists out,
    Tools.list_all_strings_loop (S fuel) batch_size offset results net log
    = (out, (log ++ [strings_request batch_size offset])%list) /\
    (out = Returned (Some results) \/ exists e, out = Threw e).
Proof.
  intros Hno. cbn [Tools.list_all_strings_loop]. fold (strings_request batch_size offset).
  rewrite bind_getJson. fold (strings_request batch_size offset).
  destruct (json_result _) eqn:Hd; cbn [Js.truthy negb];
    try (eexists; split; [reflexivity | left; reflexivity]).
  - destruct b; cbn [negb has_property]; unfold bind, throw;
      eexists; (split; [reflexivity|]); [right; eexists; reflexivity | now left].
  - destruct (z =? 0); cbn [negb has_property]; unfold bind, throw;
      eexists; (split; [reflexivity|]); [now left | right; eexists; reflexivity].
  - destruct (String.eqb s ""); cbn [negb has_property]; unfold bind, throw;
      eexists; (split; [reflexivity|]); [now left | right; eexists; reflexivity].
  - cbn [has_property]. unfold bind, ret. rewrite Hno. cbn [negb].
    eexists; split; [reflexivity | now left].
  - cbn [has_property]. unfold bind, ret. rewrite Hno. cbn [negb].
    eexists; split; [reflexivity | now left].
Qed.

End Aggregation.

Section AggregationClaim.

Variable net : remote.

(** C5.  With page size [n], when the first four answers are pages of
    [n], [n], [n] and [k < n] entries, the loop leaves after exactly four
    requests (offsets 0, n, 2n, 3n) with the [3n + k] records of the
    entries in the order they arrived, and the handler shows them one per
    line; when the first page is empty it leaves after one request with no
    record; and a turn whose answer has no [strings] field is the last one,
    returning what was gathered when the answer is falsy or an object, as
    is a turn whose [strings] field is not an array.  The results hold for
    every amount of fuel that allows that many turns. *)
Theorem list_all_strings_aggregates :
  (forall (n k : nat) (p1 p2 p3 p4 : list jsval),
     let b := Z.of_nat n in
     List.length p1 = n -> List.length p2 = n -> List.length p3 = n ->
     List.length p4 = k -> (k < n)%nat ->
     Forall entry (p1 ++ p2 ++ p3 ++ p4) ->
     page_at net 0 (strings_request b 0) p1 ->
     page_at net 1 (strings_request b b) p2 ->
     page_at net 2 (strings_request b (2 * b)) p3 ->
     page_at net 3 (strings_request b (3 * b)) p4 ->
     forall fuel, (4 <= fuel)%nat ->
       let records := map record_of (p1 ++ p2 ++ p3 ++ p4) in
       let sent := [strings_request b 0; strings_request b b;
                    strings_request b (2 * b); strings_request b (3 * b)] in
       run (Tools.list_all_strings_loop fuel b 0 []) net = (Returned (Some records), sent) /\
       List.length records = (3 * n + k)%nat /\
       run (Tools.list_all_strings fuel b) net
         = (Returned (Some (Text (join LF records))), sent)) /\
  (forall (b : Z) (fuel : nat),
     page_at net 0 (strings_request b 0) [] -> (1 <= fuel)%nat ->
     run (Tools.list_all_strings fuel b) net
       = (Returned (Some (Text "")), [strings_request b 0])) /\
  (forall (b offset : Z) (fuel : nat) (results : list string) (log : list request),
     let d := json_result
                (answer_json net (List.length log) (strings_request b offset)) in
     Js.has_own "strings" d = false ->
     (exists out,
        Tools.list_all_strings_loop (S fuel) b offset results net log
          = (out, (log ++ [strings_request b offset])%list) /\
        (out = Returned (Some results) \/ exists e, out = Threw e)) /\
     (Js.truthy d = false \/ Js.typeof_object d = true ->
      Tools.list_all_strings_loop (S fuel) b offset results net log
        = (Returned (Some results), (log ++ [strings_request b offset])%list))) /\
  (forall (b offset : Z) (fuel : nat) (results : list string) (log : list request)
          (props : list (string * jsval)) (v : jsval),
     json_result (answer_json net (List.length log) (strings_request b offset))
       = JObj props ->
     Js.lookup "strings" props = Some v -> Js.isArray v = false ->
     Tools.list_all_strings_loop (S fuel) b offset results net log
       = (Returned (Some results), (log ++ [strings_request b offset])%list)).
Proof.
  split; [|split; [|split]]; [| | |intros; eapply loop_not_array; eassumption].
  - intros n k p1 p2 p3 p4 b H1 H2 H3 H4 Hk Hall P1 P2 P3 P4 fuel Hfuel records sent.
    apply Forall_app in Hall as [E1 Hall]. apply Forall_app in Hall as [E2 Hall].
    apply Forall_app in Hall as [E3 E4].
    assert (Hloop : run (Tools.list_all_strings_loop fuel b 0 []) net
                    = (Returned (Some records), sent)).
    { do 4 (destruct fuel as [|fuel]; [lia|]). unfold run.
      assert (Hfull : forall p : list jsval, List.length p = n ->
                (List.length p =? 0)%nat = false /\ (Z.of_nat (List.length p) <? b) = false).
      { intros p Hp. rewrite Hp. split; [apply Nat.eqb_neq; lia | apply Z.ltb_irrefl]. }
      rewrite (loop_page net b _ 0 [] [] p1 P1 E1).
      destruct (Hfull p1 H1) as [-> ->].
      replace (0 + b) with b by lia.
      rewrite (loop_page net b _ b _ ([] ++ [strings_request b 0]) p2 P2 E2).
      destruct (Hfull p2 H2) as [-> ->].
      replace (b + b) with (2 * b) by lia.
      rewrite (loop_page net b _ (2 * b) _
                 (([] ++ [strings_request b 0]) ++ [strings_request b b]) p3 P3 E3).
      destruct (Hfull p3 H3) as [-> ->].
      replace (2 * b + b) with (3 * b) by lia.
      rewrite (loop_page net b _ (3 * b) _
                 ((([] ++ [strings_request b 0]) ++ [strings_request b b])
                    ++ [strings_request b (2 * b)]) p4 P4 E4).
      subst records sent. rewrite !map_app. cbn [app].
      destruct (List.length p4 =? 0)%nat eqn:Hempty.
      - apply Nat.eqb_eq in Hempty. destruct p4; [|discriminate].
        cbn [map]. now rewrite !app_nil_r, <- !app_assoc.
      - assert (Hshort : (Z.of_nat (List.length p4) <? b) = true)
          by (apply Z.ltb_lt; subst b; lia).
        rewrite Hshort. now rewrite <- !app_assoc. }
    split; [exact Hloop|]. split.
    + subst records. rewrite length_map, !length_app. lia.
    + unfold Tools.list_all_strings, run, bind. unfold run in Hloop.
      now rewrite Hloop.
  - intros b fuel P Hfuel. destruct fuel as [|fuel]; [lia|].
    unfold Tools.list_all_strings, run, bind.
    now rewrite (loop_page net b fuel 0 [] [] [] P (Forall_nil _)).
  - intros b offset fuel results log d Hno. split.
    + now apply loop_stops_without_strings.
    + intros Hd. apply loop_no_strings. fold d.
      destruct Hd as [Hd|Hd]; [now left | right; now split].
Qed.

End AggregationClaim.

(** C5 on a strings endpoint of seven entries served two per page, and on
    services whose first answer is an empty page, no answer at all, or an
    object whose [strings] field is a string. *)
Lemma list_all_strings_on_samples :
  run (Tools.list_all_strings 10 2) Samples.seven_strings
    = (Returned (Some (Text (join LF
         (map record_of
            [Samples.string_item "0x1000" "a"; Samples.string_item "0x1002" "bc";
             Samples.string_item "0x1005" "d"; Samples.string_item "0x1007" "ef";
             Samples.string_item "0x100a" "g"; Samples.string_item "0x100c" "hi";
             Samples.string_item "0x100f" "j"])))),
       [strings_request 2 0; strings_request 2 2; strings_request 2 4;
        strings_request 2 6]) /\
  run (Tools.list_all_strings 1 500) (Samples.constant (JObj [("strings", JArr [])]) "")
    = (Returned (Some (Text "")), [strings_request 500 0]) /\
  Tools.list_all_strings_loop 1 500 0 [] Samples.unreachable []
    = (Returned (Some []), [strings_request 500 0]) /\
  Tools.list_all_strings_loop 1 500 0 []
      (Samples.constant (JObj [("strings", JStr "none")]) "") []
    = (Returned (Some []), [strings_request 500 0]).
Proof.
  split; [|split; [|split]].
  - refine (proj2 (proj2
      (proj1 (list_all_strings_aggregates Samples.seven_strings) 2%nat 1%nat
         [Samples.string_item "0x1000" "a"; Samples.string_item "0x1002" "bc"]
         [Samples.string_item "0x1005" "d"; Samples.string_item "0x1007" "ef"]
         [Samples.string_item "0x100a" "g"; Samples.string_item "0x100c" "hi"]
         [Samples.string_item "0x100f" "j"]
         eq_refl eq_refl eq_refl eq_refl _ _ _ _ _ _ 10%nat _))).
    + lia.
    + repeat constructor.
    + do 2 eexists. repeat split.
    + do 2 eexists. repeat split.
    + do 2 eexists. repeat split.
    + do 2 eexists. repeat split.
    + lia.
  - refine (proj1 (proj2 (list_all_strings_aggregates
              (Samples.constant (JObj [("strings", JArr [])]) ""))) 500 1%nat _ _).
    + do 2 eexists. repeat split.
    + lia.
  - refine (proj2 (proj1 (proj2 (proj2 (list_all_strings_aggregates Samples.unreachable)))
                    500 0 0%nat [] [] eq_refl) _).
    right. reflexivity.
  - exact (proj2 (proj2 (proj2 (list_all_strings_aggregates
             (Samples.constant (JObj [("strings", JStr "none")]) ""))))
             500 0 0%nat [] [] [("strings", JStr "none")] (JStr "none")
             eq_refl eq_refl eq_refl).
Defined.

(** ** Patching bytes *)

Section PatchBytes.

Import BinjaHttpClient.

Variables (address data : string) (save_to_file : bool).
Variables (net : remote) (log : list request).
Variable props : list (string * jsval).

Lemma patch_bytes_written :
  answers_object net log (patch_request address data save_to_file) props ->
  Js.lookup "error" props = None ->
  Tools.is_str (Js.prop (JObj props) "status") "ok"
    || Tools.is_str (Js.prop (JObj props) "status") "partial" = true ->
  Tools.patch_bytes address data save_to_file net log
  = (Returned (Text (patch_message address props)), (log ++ [(patch_request address data save_to_file)])%list).
Proof.
  intros (rep & Hrep & Hok & Hdata) Herr Hstatus.
  unfold Tools.patch_bytes. fold (patch_request address data save_to_file). rewrite bind_getJson. fold (patch_request address data save_to_file).
  rewrite Hrep. rewrite (json_result_ok _ Hok), Hdata.
  cbn [Js.truthy negb has_property Js.has_own]. rewrite Herr.
  unfold bind at 1. cbn [ret]. rewrite Hstatus. cbv zeta.
  unfold patch_message, optional_line, patch_field, ret.
  do 2 f_equal. f_equal.
  destruct (Tools.is_str (Js.prop (JObj props) "status") "partial");
    destruct (Js.truthy (Js.or (Js.prop (JObj props) "warning") (JStr "")));
    destruct (Js.truthy (Js.or (Js.prop (JObj props) "original_bytes") (JStr "")));
    destruct (Js.truthy (Js.or (Js.prop (JObj props) "patched_bytes") (JStr "")));
    destruct (Js.truthy (Js.or (Js.prop (JObj props) "saved_to_file") (JBool false)));
    rewrite ?append_assoc, ?append_empty_r; cbn [append]; reflexivity.
Qed.

(** C9.  For a reply that is an object without error field, with status
    [partial], [bytes_written] 2 and [bytes_requested] 4, the text of
    [patch_bytes] begins [Patched 2/4 bytes at <address> (PARTIAL WRITE)], so
    it holds [2/4 bytes] and the marker; it holds the save path when
    [saved_to_file] is true, and the original and patched bytes when they
    are given. *)
Theorem patch_bytes_partial_write :
  answers_object net log (patch_request address data save_to_file) props ->
  Js.lookup "error" props = None ->
  Js.lookup "status" props = Some (JStr "partial") ->
  Js.lookup "bytes_written" props = Some (JNum 2) ->
  Js.lookup "bytes_requested" props = Some (JNum 4) ->
  exists text rest,
    Tools.patch_bytes address data save_to_file net log
      = (Returned (Text text), (log ++ [(patch_request address data save_to_file)])%list) /\
    text = "Patched 2/4 bytes at " ++ address ++ " (PARTIAL WRITE)" ++ rest /\
    includes text "2/4 bytes" /\
    includes text "(PARTIAL WRITE)" /\
    (forall path, Js.lookup "saved_to_file" props = Some (JBool true) ->
                  Js.lookup "saved_path" props = Some (JStr path) ->
                  includes text ("Saved to file: " ++ path)) /\
    (forall bytes, Js.lookup "original_bytes" props = Some (JStr bytes) ->
                   String.eqb bytes "" = false ->
                   includes text ("Original: " ++ bytes)) /\
    (forall bytes, Js.lookup "patched_bytes" props = Some (JStr bytes) ->
                   String.eqb bytes "" = false ->
                   includes text ("Patched:  " ++ bytes)).
Proof.
  intros Hans Herr Hstatus Hwritten Hrequested.
  assert (Hpartial : Tools.is_str (Js.prop (JObj props) "status") "partial" = true)
    by (cbn [Js.prop]; now rewrite Hstatus).
  exists (patch_message address props). eexists.
  split; [apply patch_bytes_written; auto; now rewrite Hpartial, orb_true_r|].
  assert (Hhead : patch_message address props
    = "Patched 2/4 bytes at " ++ address ++ " (PARTIAL WRITE)"
        ++ optional_line (patch_field props "warning" (JStr "")) "Warning: " (patch_field props "warning" (JStr ""))
        ++ optional_line (patch_field props "original_bytes" (JStr "")) "Original: "
             (patch_field props "original_bytes" (JStr ""))
        ++ optional_line (patch_field props "patched_bytes" (JStr "")) "Patched:  "
             (patch_field props "patched_bytes" (JStr ""))
        ++ optional_line (patch_field props "saved_to_file" (JBool false)) "Saved to file: "
             (patch_field props "saved_path" (JStr ""))).
  { unfold patch_message. rewrite Hpartial. unfold patch_field. cbn [Js.prop].
    rewrite Hwritten, Hrequested. reflexivity. }
  split; [exact Hhead|]. rewrite Hhead.
  split; [exists "Patched ", (" at " ++ address ++ " (PARTIAL WRITE)"
                                ++ optional_line (patch_field props "warning" (JStr "")) "Warning: "
                                     (patch_field props "warning" (JStr ""))
                                ++ optional_line (patch_field props "original_bytes" (JStr ""))
                                     "Original: " (patch_field props "original_bytes" (JStr ""))
                                ++ optional_line (patch_field props "patched_bytes" (JStr ""))
                                     "Patched:  " (patch_field props "patched_bytes" (JStr ""))
                                ++ optional_line (patch_field props "saved_to_file" (JBool false))
                                     "Saved to file: " (patch_field props "saved_path" (JStr "")));
          reflexivity|].
  split.
  { apply includes_append_r, includes_append_r.
    exists " ", (optional_line (patch_field props "warning" (JStr "")) "Warning: "
                   (patch_field props "warning" (JStr ""))
                 ++ optional_line (patch_field props "original_bytes" (JStr ""))
                      "Original: " (patch_field props "original_bytes" (JStr ""))
                 ++ optional_line (patch_field props "patched_bytes" (JStr ""))
                      "Patched:  " (patch_field props "patched_bytes" (JStr ""))
                 ++ optional_line (patch_field props "saved_to_file" (JBool false))
                      "Saved to file: " (patch_field props "saved_path" (JStr ""))).
    reflexivity. }
  split; [|split].
  - intros path Hsaved Hpath.
    do 6 apply includes_append_r.
    unfold optional_line, patch_field. cbn [Js.prop]. rewrite Hsaved, Hpath.
    unfold Js.or. cbn [Js.truthy].
    destruct (String.eqb_spec path "") as [-> | _]; cbn [negb Js.to_string];
      exists LF, ""; now rewrite append_empty_r.
  - intros bytes Hbytes Hne.
    do 4 apply includes_append_r. apply includes_append_l.
    unfold optional_line, patch_field. cbn [Js.prop]. rewrite Hbytes.
    unfold Js.or. cbn [Js.truthy]. rewrite Hne. cbn [negb Js.truthy]. rewrite Hne.
    cbn [negb Js.to_string]. exists LF, ""; now rewrite append_empty_r.
  - intros bytes Hbytes Hne.
    do 5 apply includes_append_r. apply includes_append_l.
    unfold optional_line, patch_field. cbn [Js.prop]. rewrite Hbytes.
    unfold Js.or. cbn [Js.truthy]. rewrite Hne. cbn [negb Js.truthy]. rewrite Hne.
    cbn [negb Js.to_string]. exists LF, ""; now rewrite append_empty_r.
Qed.

End PatchBytes.

(** C9 on a reply that reports a partial write saved to disk. *)
Lemma patch_bytes_partial_write_on_sample :
  let reply := [("status", JStr "partial"); ("bytes_written", JNum 2);
                ("bytes_requested", JNum 4); ("original_bytes", JStr "55 48");
                ("patched_bytes", JStr "90 90"); ("saved_to_file", JBool true);
                ("saved_path", JStr "/tmp/a.out")] in
  exists text,
    result_of (Tools.patch_bytes "0x401000" "90909090" true)
              (Samples.constant (JObj reply) "") = Returned (Text text) /\
    includes text "2/4 bytes" /\ includes text "(PARTIAL WRITE)" /\
    includes text "Saved to file: /tmp/a.out" /\
    includes text "Original: 55 48" /\ includes text "Patched:  90 90".
Proof.
  intros reply.
  destruct (patch_bytes_partial_write "0x401000" "90909090" true
              (Samples.constant (JObj reply) "") [] reply
              (ex_intro _ _ (conj eq_refl (conj eq_refl eq_refl)))
              eq_refl eq_refl eq_refl eq_refl)
    as (text & rest & Hrun & _ & H1 & H2 & H3 & H4 & H5).
  exists text. unfold result_of, run. rewrite Hrun.
  split; [reflexivity|]. split; [exact H1|]. split; [exact H2|].
  split; [exact (H3 "/tmp/a.out" eq_refl eq_refl)|].
  split; [exact (H4 "55 48" eq_refl eq_refl) | exact (H5 "90 90" eq_refl eq_refl)].
Defined.

(** ** How handlers render an error *)

Section ErrorRendering.

Import BinjaHttpClient.

Variables (net : remote) (log : list request).

Let after_status := (log ++ [json_request "status" [] None])%list.
Let filename :=
  active_filename (json_result (answer_json net (List.length log)
                                  (json_request "status" [] None))).

Ltac render Hnext Hd :=
  cbv zeta; rewrite bind_getJson, Hnext, Hd;
  cbn [Js.truthy negb has_property Js.has_own Js.prop Js.isArray];
  unfold bind, ret.

Ltac show_failure Hnext Hrej :=
  first [ rewrite lines_shown_again | rewrite bind_getText ];
  rewrite Hnext, (text_result_rejected _ _ _ Hrej); reflexivity.

(** C8, as amended.  [{error: m}] is what [getJson] returns for a request
    that failed and what a service may answer; [e] is what the promise of a
    text request or of a POST rejected with.

    - [rename_multi_variables], [get_data_decl], [patch_bytes],
      [get_type_info], [convert_number], [declare_c_type] and [define_types]
      answer [Error: <m>]; so do [set_function_prototype],
      [rename_single_variable], [retype_variable] and
      [set_local_variable_type] when the object has no status field.
    - [get_stack_frame_vars] answers the empty text, [list_binaries] the
      message without prefix, [get_entry_points] and [list_sections] the
      fixed text [Error: no response], [select_binary], [make_function_at]
      and [list_platforms] the object as indented JSON, and
      [list_all_strings] an empty listing.
    - [fetch_disassembly] and [decompile_function] answer the file header
      followed by [Error: <m>], [get_il] the file header followed by
      [Error: ] and the JSON text of [m].
    - The handlers built on [getText] and [getLines] answer
      [Error: GET <endpoint> failed: <message>]; [get_comment],
      [get_function_comment] and [get_binary_status] cut it after its first
      line and [list_methods] puts the file line before it.
    - The handlers that POST answer
      [Error: POST <endpoint> failed: <message>]. *)
Theorem error_rendering_by_handler
    (reply : settled jsval) (props : list (string * jsval)) (m : jsval) :
  json_result reply = JObj props -> Js.lookup "error" props = Some m ->
  (next_json net log reply ->
   (forall ps,
      answers_text (Tools.rename_multi_variables_send ps net log)
        ("Error: " ++ Js.to_string m)) /\
   (forall s length,
      answers_text (Tools.get_data_decl s length net log) ("Error: " ++ Js.to_string m)) /\
   (forall address data save,
      answers_text (Tools.patch_bytes address data save net log)
        ("Error: " ++ Js.to_string m)) /\
   (forall name,
      answers_text (Tools.get_type_info name net log) ("Error: " ++ Js.to_string m)) /\
   (forall text size,
      answers_text (Tools.convert_number text size net log)
        ("Error: " ++ Js.to_string m)) /\
   (forall decl,
      answers_text (Tools.declare_c_type decl net log) ("Error: " ++ Js.to_string m)) /\
   (forall code,
      answers_text (Tools.define_types code net log) ("Error: " ++ Js.to_string m)) /\
   (Js.lookup "status" props = None ->
    (forall s prototype,
       answers_text (Tools.set_function_prototype s prototype net log)
         ("Error: " ++ Js.to_string m)) /\
    (forall f x n,
       answers_text (Tools.rename_single_variable f x n net log)
         ("Error: " ++ Js.to_string m)) /\
    (forall f x ty,
       answers_text (Tools.retype_variable f x ty net log)
         ("Error: " ++ Js.to_string m)) /\
    (forall f x ty,
       answers_text (Tools.set_local_variable_type f x ty net log)
         ("Error: " ++ Js.to_string m))) /\
   (forall s, answers_text (Tools.get_stack_frame_vars s net log) "") /\
   answers_text (Tools.list_binaries net log) (Js.to_string m) /\
   answers_text (Tools.get_entry_points net log) "Error: no response" /\
   (forall offset limit,
      answers_text (Tools.list_sections offset limit net log) "Error: no response") /\
   (forall view,
      answers_text (Tools.select_binary view net log)
        (JSON_stringify_indented "" (JObj props))) /\
   (forall address platform,
      answers_text (Tools.make_function_at address platform net log)
        (JSON_stringify_indented "" (JObj props))) /\
   answers_text (Tools.list_platforms net log) (JSON_stringify_indented "" (JObj props)) /\
   (Js.lookup "strings" props = None ->
    forall fuel batch_size,
      fst (Tools.list_all_strings (S fuel) batch_size net log)
      = Returned (Some (Text "")))) /\
  (next_json net after_status reply ->
   (forall name,
      answers_text (Tools.fetch_disassembly name net log)
        (Tools.file_header filename ++ "Error: " ++ Js.to_string m)) /\
   (forall name,
      answers_text (Tools.decompile_function name net log)
        (Tools.file_header filename ++ "Error: " ++ Js.to_string m)) /\
   (forall s view ssa,
      answers_text (Tools.get_il s view ssa net log)
        (Tools.file_header filename ++ "Error: " ++ JSON_stringify m))) /\
  (forall (answer : settled string) (e : thrown),
     settle answer = Rejects e ->
     (next_text net log answer ->
      (forall address length,
         answers_text (Tools.hexdump_address address length net log)
           (handleError e "GET" "hexdump")) /\
      (forall s length,
         answers_text (Tools.hexdump_data s length net log)
           (handleError e "GET"
              (if starts_with_0x (trim s) then "hexdump" else "hexdumpByName"))) /\
      (forall query offset limit,
         String.eqb query "" = false ->
         answers_text (Tools.search_functions_by_name query offset limit net log)
           (handleError e "GET" "searchFunctions")) /\
      (forall offset count libs,
         answers_text (Tools.list_local_types offset count libs net log)
           (handleError e "GET" "localTypes")) /\
      (forall query offset count libs,
         answers_text (Tools.search_types query offset count libs net log)
           (handleError e "GET" "searchTypes")) /\
      (forall name,
         answers_text (Tools.get_user_defined_type name net log)
           (handleError e "GET" "getUserDefinedType")) /\
      (forall offset limit,
         answers_text (Tools.list_data_items offset limit net log)
           (handleError e "GET" "data")) /\
      (forall address,
         answers_text (Tools.get_xrefs_to address net log)
           (handleError e "GET" "getXrefsTo")) /\
      (forall struct_name field_name,
         answers_text (Tools.get_xrefs_to_field struct_name field_name net log)
           (handleError e "GET" "getXrefsToField")) /\
      (forall name,
         answers_text (Tools.get_xrefs_to_struct name net log)
           (handleError e "GET" "getXrefsToStruct")) /\
      (forall name,
         answers_text (Tools.get_xrefs_to_type name net log)
           (handleError e "GET" "getXrefsToType")) /\
      (forall name,
         answers_text (Tools.get_xrefs_to_enum name net log)
           (handleError e "GET" "getXrefsToEnum")) /\
      (forall name,
         answers_text (Tools.get_xrefs_to_union name net log)
           (handleError e "GET" "getXrefsToUnion")) /\
      (forall address,
         answers_text (Tools.function_at address net log)
           (handleError e "GET" "functionAt")) /\
      (forall offset limit,
         answers_text (Tools.list_classes offset limit net log)
           (handleError e "GET" "classes")) /\
      (forall offset limit,
         answers_text (Tools.list_namespaces offset limit net log)
           (handleError e "GET" "namespaces")) /\
      (forall offset limit,
         answers_text (Tools.list_segments offset limit net log)
           (handleError e "GET" "segments")) /\
      (forall offset limit,
         answers_text (Tools.list_imports offset limit net log)
           (handleError e "GET" "imports")) /\
      (forall offset limit,
         answers_text (Tools.list_exports offset limit net log)
           (handleError e "GET" "exports")) /\
      (forall offset count,
         answers_text (Tools.list_strings offset count net log)
           (handleError e "GET" "strings")) /\
      (forall offset count filter,
         answers_text (Tools.list_strings_filter offset count filter net log)
           (handleError e "GET" "strings/filter")) /\
      (forall address text size,
         answers_text (Tools.format_value address text size net log)
           (handleError e "GET" "formatValue")) /\
      (forall address,
         answers_text (Tools.get_comment address net log)
           ("Error: GET comment failed: " ++ before_newline (getErrorMessage e))) /\
      (forall name,
         answers_text (Tools.get_function_comment name net log)
           ("Error: GET comment/function failed: "
              ++ before_newline (getErrorMessage e))) /\
      answers_text (Tools.get_binary_status net log)
        ("Error: GET status failed: " ++ before_newline (getErrorMessage e))) /\
     (next_text net after_status answer ->
      forall offset limit,
        answers_text (Tools.list_methods offset limit net log)
          ("File: " ++ Js.to_string filename ++ LF ++ handleError e "GET" "methods"))) /\
  (forall (pnet : post_remote) (plog : list post_call) (answer : settled string)
          (e : thrown),
     settle answer = Rejects e -> next_post pnet plog answer ->
     (forall old_name new_name,
        fst (Tools.rename_function old_name new_name pnet plog)
        = Returned (Text (handleError e "POST" "renameFunction"))) /\
     (forall address new_name,
        fst (Tools.rename_data address new_name pnet plog)
        = Returned (Text (handleError e "POST" "renameData"))) /\
     (forall address comment,
        fst (Tools.set_comment address comment pnet plog)
        = Returned (Text (handleError e "POST" "comment"))) /\
     (forall address,
        fst (Tools.delete_comment address pnet plog)
        = Returned (Text (handleError e "POST" "comment"))) /\
     (forall name comment,
        fst (Tools.set_function_comment name comment pnet plog)
        = Returned (Text (handleError e "POST" "comment/function"))) /\
     (forall name,
        fst (Tools.delete_function_comment name pnet plog)
        = Returned (Text (handleError e "POST" "comment/function")))).
Proof.
  subst after_status filename. intros Hd Hm. unfold answers_text.
  split; [|split; [|split]].
  - intros Hnext.
    split; [intros; unfold Tools.rename_multi_variables_send; render Hnext Hd;
            now rewrite Hm|].
    split; [intros; unfold Tools.get_data_decl; render Hnext Hd; now rewrite Hm|].
    split; [intros; unfold Tools.patch_bytes; render Hnext Hd; now rewrite Hm|].
    split; [intros; unfold Tools.get_type_info; render Hnext Hd; now rewrite Hm|].
    split; [intros; unfold Tools.convert_number; render Hnext Hd; now rewrite Hm|].
    split; [intros; unfold Tools.declare_c_type; render Hnext Hd; now rewrite Hm|].
    split; [intros; unfold Tools.define_types; render Hnext Hd; now rewrite Hm|].
    split.
    { intros Hst.
      split; [intros; unfold Tools.set_function_prototype; render Hnext Hd;
              now rewrite Hst, Hm|].
      split; [intros; unfold Tools.rename_single_variable, Tools.status_then_error;
              render Hnext Hd; now rewrite Hst, Hm|].
      split; [intros; unfold Tools.retype_variable, Tools.status_then_error;
              render Hnext Hd; now rewrite Hst, Hm|].
      intros. unfold Tools.set_local_variable_type. render Hnext Hd.
      rewrite Hst. cbn [Tools.is_str]. now rewrite Hm. }
    split; [intros; unfold Tools.get_stack_frame_vars; render Hnext Hd; now rewrite Hm|].
    split; [unfold Tools.list_binaries; render Hnext Hd; now rewrite Hm|].
    split; [unfold Tools.get_entry_points; render Hnext Hd; now rewrite Hm|].
    split; [intros; unfold Tools.list_sections; render Hnext Hd; now rewrite Hm|].
    split; [intros; unfold Tools.select_binary; render Hnext Hd; now rewrite Hm|].
    split; [intros; unfold Tools.make_function_at; render Hnext Hd; now rewrite Hm|].
    split; [unfold Tools.list_platforms; render Hnext Hd; now rewrite Hm|].
    intros Hstr fuel batch_size. unfold Tools.list_all_strings, bind at 1.
    cbn [Tools.list_all_strings_loop]. render Hnext Hd. now rewrite Hstr.
  - intros Hnext.
    split; [|split]; intros.
    + unfold Tools.fetch_disassembly, bind at 1. rewrite getActiveFilename_run.
      render Hnext Hd. now rewrite Hm.
    + unfold Tools.decompile_function, bind at 1. rewrite getActiveFilename_run.
      render Hnext Hd. now rewrite Hm.
    + unfold Tools.get_il, bind at 1. rewrite getActiveFilename_run.
      render Hnext Hd. now rewrite Hm.
  - intros answer e Hrej. split.
    + intros Hnext.
      assert (Hline : forall ep, has_char newline ("Error: GET " ++ ep ++ " failed: ") = false ->
                before_newline (text_result ep answer)
                = ("Error: GET " ++ ep ++ " failed: ") ++ before_newline (getErrorMessage e)).
      { intros ep Hep. rewrite (text_result_rejected _ _ _ Hrej).
        rewrite <- (before_newline_append _ _ Hep). unfold handleError.
        now rewrite !append_assoc. }
      split; [intros; unfold Tools.hexdump_address; cbv zeta; show_failure Hnext Hrej|].
      split; [intros; unfold Tools.hexdump_data; cbv zeta;
              destruct (starts_with_0x (trim s)); show_failure Hnext Hrej|].
      split; [intros query offset limit Hq; unfold Tools.search_functions_by_name;
              rewrite Hq; show_failure Hnext Hrej|].
      split; [intros; unfold Tools.list_local_types; show_failure Hnext Hrej|].
      split; [intros; unfold Tools.search_types; show_failure Hnext Hrej|].
      split; [intros; unfold Tools.get_user_defined_type; show_failure Hnext Hrej|].
      split; [intros; unfold Tools.list_data_items; show_failure Hnext Hrej|].
      split; [intros; unfold Tools.get_xrefs_to; show_failure Hnext Hrej|].
      split; [intros; unfold Tools.get_xrefs_to_field; show_failure Hnext Hrej|].
      split; [intros; unfold Tools.get_xrefs_to_struct; show_failure Hnext Hrej|].
      split; [intros; unfold Tools.get_xrefs_to_type; show_failure Hnext Hrej|].
      split; [intros; unfold Tools.get_xrefs_to_enum; show_failure Hnext Hrej|].
      split; [intros; unfold Tools.get_xrefs_to_union; show_failure Hnext Hrej|].
      split; [intros; unfold Tools.function_at; show_failure Hnext Hrej|].
      split; [intros; unfold Tools.list_classes; show_failure Hnext Hrej|].
      split; [intros; unfold Tools.list_namespaces; show_failure Hnext Hrej|].
      split; [intros; unfold Tools.list_segments; show_failure Hnext Hrej|].
      split; [intros; unfold Tools.list_imports; show_failure Hnext Hrej|].
      split; [intros; unfold Tools.list_exports; show_failure Hnext Hrej|].
      split; [intros; unfold Tools.list_strings; show_failure Hnext Hrej|].
      split; [intros; unfold Tools.list_strings_filter; show_failure Hnext Hrej|].
      split; [intros; unfold Tools.format_value; show_failure Hnext Hrej|].
      split; [|split]; intros.
      * unfold Tools.get_comment, bind. rewrite getLines_run. unfold ret. cbn [fst].
        now rewrite first_line, Hnext, (Hline "comment" eq_refl).
      * unfold Tools.get_function_comment, bind. rewrite getLines_run. unfold ret.
        cbn [fst].
        now rewrite first_line_or_empty, Hnext, (Hline "comment/function" eq_refl).
      * unfold Tools.get_binary_status, bind. rewrite getLines_run. unfold ret.
        cbn [fst]. now rewrite first_line_or_empty, Hnext, (Hline "status" eq_refl).
    + intros Hnext offset limit.
      unfold Tools.list_methods, bind at 1. rewrite getActiveFilename_run.
      unfold bind. rewrite getLines_run. unfold ret. cbn [fst].
      now rewrite join_split_newline, Hnext, (text_result_rejected _ _ _ Hrej).
  - intros pnet plog answer e Hrej Hnext.
    repeat split; intros;
      unfold Tools.rename_function, Tools.rename_data, Tools.set_comment,
        Tools.delete_comment, Tools.set_function_comment, Tools.delete_function_comment;
      now rewrite post_text_run, Hnext, (post_result_rejected _ _ _ Hrej).
Qed.

End ErrorRendering.

(** C8 on a service that is down and on one that answers
    [{error: "Function not found"}] with status 200. *)
Lemma error_rendering_on_samples :
  let down := "No response from server - is Binary Ninja running with the MCP plugin?" in
  let refused := Rejects (AxiosError None true "connect ECONNREFUSED") in
  let domain := [("error", JStr "Function not found")] in
  answers_text (Tools.patch_bytes "0x401000" "90" true Samples.unreachable [])
    ("Error: Request failed: " ++ down) /\
  answers_text (Tools.set_function_prototype "main" "int main(void)" Samples.unreachable [])
    ("Error: Request failed: " ++ down) /\
  answers_text (Tools.fetch_disassembly "main" Samples.unreachable [])
    ("File: (none)" ++ LF ++ LF ++ "Error: Request failed: " ++ down) /\
  answers_text (Tools.list_data_items 0 100 Samples.unreachable [])
    ("Error: GET data failed: " ++ down) /\
  answers_text (Tools.list_methods 0 100 Samples.unreachable [])
    ("File: (none)" ++ LF ++ "Error: GET methods failed: " ++ down) /\
  fst (Tools.set_comment "0x401000" "entry" (fun _ _ => refused) [])
    = Returned (Text ("Error: POST comment failed: " ++ down)) /\
  answers_text (Tools.get_data_decl "g_table" (-1) (Samples.constant (JObj domain) "") [])
    "Error: Function not found" /\
  answers_text (Tools.get_il "main" "hlil" false (Samples.constant (JObj domain) "") [])
    ("File: (none)" ++ LF ++ LF ++ "Error: "
       ++ Js.dquote ++ "Function not found" ++ Js.dquote).
Proof.
  intros down refused domain.
  destruct (error_rendering_by_handler Samples.unreachable []
              (Rejects (AxiosError None true "connect ECONNREFUSED"))
              [("error", JStr ("Request failed: " ++ down))]
              (JStr ("Request failed: " ++ down)) eq_refl eq_refl)
    as (Hjson & Hheader & Htext & Hpost).
  destruct (error_rendering_by_handler (Samples.constant (JObj domain) "") []
              (Samples.ok_json (JObj domain)) domain (JStr "Function not found")
              eq_refl eq_refl)
    as (Hjson' & Hheader' & _).
  destruct (Hjson (fun _ => eq_refl)) as (_ & _ & Hpatch & _ & _ & _ & _ & Hstatus & _).
  destruct (Htext refused (AxiosError None true "connect ECONNREFUSED") eq_refl)
    as (Hlines & Hmethods).
  split; [exact (Hpatch "0x401000" "90" true)|].
  split; [exact (proj1 (Hstatus eq_refl) "main" "int main(void)")|].
  split; [exact (proj1 (Hheader (fun _ => eq_refl)) "main")|].
  split; [exact (proj1 (proj2 (proj2 (proj2 (proj2 (proj2 (proj2
            (Hlines (fun _ => eq_refl)))))))) 0 100)|].
  split; [exact (Hmethods (fun _ => eq_refl) 0 100)|].
  split; [exact (proj1 (proj2 (proj2
            (Hpost (fun _ _ => refused) [] refused
               (AxiosError None true "connect ECONNREFUSED") eq_refl (fun _ => eq_refl))))
            "0x401000" "entry")|].
  split; [exact (proj1 (proj2 (Hjson' (fun _ => eq_refl))) "g_table" (-1))|].
  exact (proj2 (proj2 (Hheader' (fun _ => eq_refl))) "main" "hlil" false).
Defined.

(** C8 as stated fails.  When the service is down [get_stack_frame_vars]
    answers the empty text and [list_binaries] the message alone, which
    does not begin with [Error: ]; it is the same for a status 404 and for
    an error object the service sends.  [get_entry_points] keeps the prefix
    and drops the message, and [list_platforms] prints the object. *)
Lemma error_shown_without_prefix :
  let down := "No response from server - is Binary Ninja running with the MCP plugin?" in
  let domain := Samples.constant (JObj [("error", JStr "Function not found")]) "" in
  result_of (Tools.get_stack_frame_vars "main") Samples.unreachable = Returned (Text "") /\
  result_of Tools.list_binaries Samples.unreachable
    = Returned (Text ("Request failed: " ++ down)) /\
  startsWith ("Request failed: " ++ down) "Error: " = false /\
  result_of Tools.list_binaries (Samples.not_found JNull)
    = Returned (Text "Request failed: Server returned 404: Not Found") /\
  result_of (Tools.get_stack_frame_vars "main") domain = Returned (Text "") /\
  result_of Tools.list_binaries domain = Returned (Text "Function not found") /\
  result_of Tools.get_entry_points Samples.unreachable
    = Returned (Text "Error: no response") /\
  result_of Tools.list_platforms domain
    = Returned (Text ("{" ++ LF ++ "  " ++ Js.dquote ++ "error" ++ Js.dquote ++ ": "
                        ++ Js.dquote ++ "Function not found" ++ Js.dquote ++ LF ++ "}")).
Proof. repeat split; reflexivity. Qed.

(** * Further properties of the bridge *)

(** ** White space around identifiers *)

Lemma skip_white_shorter (s r : string) :
  skip_white s = Some r -> (String.length r < String.length s)%nat.
Proof.
  destruct s as [|c [|d [|e r3]]]; cbn [skip_white String.length];
    repeat match goal with
           | |- context [if ?b then _ else _] => destruct b
           end;
    intros H; inversion H; subst; cbn [String.length]; lia.
Qed.

Lemma trimStart_step (s : string) :
  trimStart s = match skip_white s with
                | Some r => trimStart r
                | None => s
                end.
Proof.
  destruct s as [|c r]; [reflexivity|]. cbn [trimStart skip_white].
  destruct (is_white c); [reflexivity|].
  destruct r as [|d r2]; [reflexivity|].
  destruct (is_white2 c d); [reflexivity|].
  destruct r2 as [|e r3]; [reflexivity|].
  destruct (is_white3 c d e); reflexivity.
Qed.

(** Induction along the white-space characters a string begins with. *)
Lemma white_induction (P : string -> Prop) :
  (forall s, (forall r, skip_white s = Some r -> P r) -> P s) -> forall s, P s.
Proof.
  intros step.
  assert (H : forall n s, (String.length s <= n)%nat -> P s).
  { induction n as [|n IH]; intros s Hs; apply step; intros r Hr;
      apply skip_white_shorter in Hr; [lia|]. apply IH. lia. }
  intros s. now apply (H (String.length s)).
Qed.

Lemma skip_white_append (a r b : string) :
  skip_white a = Some r -> skip_white (a ++ b) = Some (r ++ b).
Proof.
  destruct a as [|c [|d [|e r3]]]; cbn [skip_white append]; [discriminate | | |];
    (destruct (is_white c); [intros H; inversion H; reflexivity|]);
    [discriminate | |];
    (destruct (is_white2 c d); [intros H; inversion H; reflexivity|]);
    [discriminate|].
  destruct (is_white3 c d e); [intros H; inversion H; reflexivity | discriminate].
Qed.

Lemma trimStart_not_white (s : string) : starts_white (trimStart s) = false.
Proof.
  unfold starts_white. induction s as [s IH] using white_induction.
  rewrite trimStart_step. destruct (skip_white s) as [r|] eqn:E.
  - now apply IH.
  - now rewrite E.
Qed.

Lemma trimStart_fixed (s : string) : starts_white s = false -> trimStart s = s.
Proof.
  unfold starts_white. rewrite trimStart_step.
  now destruct (skip_white s).
Qed.

Lemma all_white_skip (s : string) :
  all_white s = true -> s = "" \/ exists r, skip_white s = Some r /\ all_white r = true.
Proof.
  unfold all_white. rewrite trimStart_step.
  destruct (skip_white s) as [r|]; [right; now exists r|].
  destruct s; [now left | discriminate].
Qed.

Lemma all_white_append (a b : string) :
  all_white a = true -> all_white b = true -> all_white (a ++ b) = true.
Proof.
  intros Ha Hb. revert Ha. induction a as [a IH] using white_induction.
  intros Ha. destruct (all_white_skip a Ha) as [-> | (r & Hr & Hw)]; [exact Hb|].
  unfold all_white. rewrite trimStart_step, (skip_white_append _ _ b Hr).
  exact (IH r Hr Hw).
Qed.

(** What [trimEnd] cuts off is white space. *)
Lemma trimEnd_split (s : string) :
  exists w, s = trimEnd s ++ w /\ all_white w = true.
Proof.
  induction s as [|c s (w & Hs & Hw)]; [now exists ""|].
  cbn [trimEnd]. destruct (all_white (String c s)) eqn:E.
  - now exists (String c s).
  - exists w. cbn [append]. now rewrite <- Hs.
Qed.

Lemma trimEnd_kept (c : ascii) (s : string) :
  all_white (String c s) = false -> all_white (String c (trimEnd s)) = false.
Proof.
  intros H. destruct (all_white (String c (trimEnd s))) eqn:E; [|reflexivity].
  destruct (trimEnd_split s) as (w & Hs & Hw).
  pose proof (all_white_append _ _ E Hw) as Hall.
  cbn [append] in Hall. rewrite <- Hs in Hall. congruence.
Qed.

Lemma trimEnd_idempotent (s : string) : trimEnd (trimEnd s) = trimEnd s.
Proof.
  induction s as [|c s IH]; [reflexivity|].
  cbn [trimEnd]. destruct (all_white (String c s)) eqn:E; [reflexivity|].
  cbn [trimEnd]. now rewrite (trimEnd_kept _ _ E), IH.
Qed.

Lemma trimEnd_keeps_start (s : string) :
  starts_white s = false -> starts_white (trimEnd s) = false.
Proof.
  unfold starts_white. destruct (trimEnd_split s) as (w & Hs & _).
  destruct (skip_white (trimEnd s)) as [r|] eqn:E; [|reflexivity].
  rewrite Hs at 1. now rewrite (skip_white_append _ _ w E).
Qed.

Lemma trimEnd_not_white (s : string) : ends_white (trimEnd s) = false.
Proof.
  induction s as [|c s IH]; [reflexivity|].
  cbn [trimEnd]. destruct (all_white (String c s)) eqn:E; [reflexivity|].
  cbn [ends_white]. rewrite IH, orb_false_r.
  unfold one_white.
  destruct (skip_white (String c (trimEnd s))) as [[|x r]|] eqn:Hone; [|reflexivity..].
  destruct (trimEnd_split s) as (w & Hs & Hw).
  apply (skip_white_append _ _ w) in Hone. cbn [append] in Hone. rewrite <- Hs in Hone.
  unfold all_white in E. rewrite trimStart_step, Hone in E.
  unfold all_white in Hw. now rewrite E in Hw.
Qed.

Lemma trim_clean (s : string) :
  starts_white (trim s) = false /\ ends_white (trim s) = false.
Proof.
  unfold trim. split.
  - apply trimEnd_keeps_start, trimStart_not_white.
  - apply trimEnd_not_white.
Qed.

Lemma trim_idempotent (s : string) : trim (trim s) = trim s.
Proof.
  unfold trim.
  rewrite (trimStart_fixed (trimEnd (trimStart s))).
  - apply trimEnd_idempotent.
  - apply trimEnd_keeps_start, trimStart_not_white.
Qed.

(** What the six call sites send, by the outcome of their two tests. *)
Lemma identifier_sent_by_tests (net : remote) (log : list request) (s : string) :
  identifier_sent net log s (trim s)
    (if looks_like_address (trim s) then "address" else "name")
    (if looks_like_address (trim s) then "address" else "functionName")
    (if starts_with_0x (trim s) then "address" else "name").
Proof.
  unfold identifier_sent.
  assert (Hi : forall k, ident_param k s
                         = (if looks_like_address (trim s) then "address" else k,
                            PStr (trim s)))
    by (intros k; unfold ident_param, classify; now destruct (looks_like_address (trim s))).
  assert (Hp : prefix_param s
               = (if starts_with_0x (trim s) then "address" else "name", PStr (trim s)))
    by (unfold prefix_param; now destruct (starts_with_0x (trim s))).
  split; [intros; now rewrite get_il_requests, Hi|].
  split; [now rewrite get_stack_frame_vars_requests, Hi|].
  split; [intros; now rewrite set_function_prototype_requests, Hi|].
  split; [now rewrite rename_ident_params_classify, Hi|].
  split; intros.
  - rewrite hexdump_data_requests, Hp. now destruct (starts_with_0x (trim s)).
  - now rewrite get_data_decl_requests, Hp.
Qed.

(** X1.  The handlers that take a name or an address use their argument
    only trimmed: calling one with [s] is calling it with [trim s], so white
    space around an identifier, of any kind that [trim] removes, changes
    neither the request nor the answer.  The identifier in the request is
    [trim s], and it neither begins nor ends with a white-space
    character. *)
Theorem identifier_padding_is_ignored (s : string) :
  (forall view ssa, Tools.get_il s view ssa = Tools.get_il (trim s) view ssa) /\
  (forall m p r, Tools.rename_multi_variables s m p r
                 = Tools.rename_multi_variables (trim s) m p r) /\
  Tools.get_stack_frame_vars s = Tools.get_stack_frame_vars (trim s) /\
  (forall prototype, Tools.set_function_prototype s prototype
                     = Tools.set_function_prototype (trim s) prototype) /\
  (forall length, Tools.hexdump_data s length = Tools.hexdump_data (trim s) length) /\
  (forall length, Tools.get_data_decl s length = Tools.get_data_decl (trim s) length) /\
  (forall net log, exists key rename_key data_key,
     identifier_sent net log s (trim s) key rename_key data_key) /\
  starts_white (trim s) = false /\ ends_white (trim s) = false.
Proof.
  repeat split; intros;
    try (unfold Tools.get_il, Tools.rename_multi_variables, Tools.rename_ident_params,
           Tools.get_stack_frame_vars, Tools.set_function_prototype, Tools.hexdump_data,
           Tools.get_data_decl;
         cbv zeta; now rewrite trim_idempotent).
  - do 3 eexists. apply identifier_sent_by_tests.
  - apply trim_clean.
  - apply trim_clean.
Qed.

(** ** The two address tests compared *)

Lemma prefix_two (a b c d : ascii) (r : string) :
  String.prefix (String a (String b EmptyString)) (String c (String d r))
  = Ascii.eqb a c && Ascii.eqb b d.
Proof.
  cbn [String.prefix].
  destruct (ascii_dec a c) as [->|Hac].
  - rewrite Ascii.eqb_refl. destruct (ascii_dec b d) as [->|Hbd].
    + rewrite Ascii.eqb_refl. now destruct r.
    + apply Ascii.eqb_neq in Hbd. now rewrite Hbd.
  - apply Ascii.eqb_neq in Hac. now rewrite Hac.
Qed.

Lemma lower_char_zero (c : ascii) :
  Ascii.eqb "0" (lower_char c) = Ascii.eqb "0" c.
Proof. destruct c as [[] [] [] [] [] [] [] []]; reflexivity. Qed.

Lemma lower_char_x (c : ascii) :
  Ascii.eqb "x" (lower_char c) = Ascii.eqb "x" c || Ascii.eqb "X" c.
Proof. destruct c as [[] [] [] [] [] [] [] []]; reflexivity. Qed.

Lemma address_tests_formula (t : string) :
  looks_like_address t = starts_with_0x t || startsWith t "0X" || test_digits t.
Proof.
  unfold looks_like_address, starts_with_0x, startsWith.
  destruct t as [|c1 [|c2 r]]; [reflexivity | |].
  - cbn [toLowerCase String.prefix].
    destruct (ascii_dec "0" (lower_char c1)), (ascii_dec "0" c1); reflexivity.
  - cbn [toLowerCase]. rewrite !prefix_two, lower_char_zero, lower_char_x.
    destruct (Ascii.eqb "0" c1), (Ascii.eqb "x" c2), (Ascii.eqb "X" c2); reflexivity.
Qed.

(** An identifier that begins with [0X], or with a digit that no [x]
    follows, does not begin with [0x]. *)
Lemma upper_or_digits_not_0x (t : string) :
  startsWith t "0X" = true \/ test_digits t = true -> starts_with_0x t = false.
Proof.
  unfold starts_with_0x, startsWith.
  destruct t as [|c1 [|c2 r]]; [reflexivity | |].
  - intros _. cbn [String.prefix]. now destruct (ascii_dec "0" c1).
  - rewrite !prefix_two. cbn [test_digits all_digits].
    destruct (Ascii.eqb_spec "0" c1) as [<-|_]; [|reflexivity]. cbn [andb].
    destruct (Ascii.eqb_spec "x" c2) as [<-|_]; [|reflexivity].
    intros [H|H]; discriminate H.
Qed.

(** X2.  The test of [get_il], [rename_multi_variables],
    [get_stack_frame_vars] and [set_function_prototype] accepts whatever
    the test of [hexdump_data] and [get_data_decl] accepts, and besides
    exactly the identifiers that, once trimmed, begin with [0X] or are made
    of decimal digits only.  On those the call sites part: the four send
    the identifier as [address], the two send it as [name], [hexdump_data]
    to the by-name endpoint.  On every other identifier all six send it
    under the same kind of key: [address] when it begins with [0x], and
    otherwise [name], which [rename_multi_variables] spells
    [functionName]. *)
Theorem address_tests_differ_on (s : string) (net : remote) (log : list request) :
  let t := trim s in
  looks_like_address t = starts_with_0x t || startsWith t "0X" || test_digits t /\
  (startsWith t "0X" = true \/ test_digits t = true ->
   identifier_sent net log s t "address" "address" "name") /\
  (startsWith t "0X" = false -> test_digits t = false ->
   (starts_with_0x t = true -> identifier_sent net log s t "address" "address" "address") /\
   (starts_with_0x t = false -> identifier_sent net log s t "name" "functionName" "name")).
Proof.
  intros t. pose proof (identifier_sent_by_tests net log s) as Hsent. fold t in Hsent.
  rewrite (address_tests_formula t) in Hsent.
  split; [apply address_tests_formula|]. split.
  - intros H. rewrite (upper_or_digits_not_0x t H) in Hsent.
    destruct H as [H|H]; rewrite H in Hsent; [exact Hsent|].
    now rewrite orb_true_r in Hsent.
  - intros HX Hd. rewrite HX, Hd in Hsent. split; intros H0; now rewrite H0 in Hsent.
Qed.

Lemma address_tests_differ_on_samples :
  let nbsp := String (ascii_of_nat 194) (String (ascii_of_nat 160) EmptyString) in
  identifier_sent Samples.unreachable [] (nbsp ++ "0X401000" ++ nbsp) "0X401000"
    "address" "address" "name" /\
  identifier_sent Samples.unreachable [] " 0x401000" "0x401000"
    "address" "address" "address" /\
  identifier_sent Samples.unreachable [] "main" "main" "name" "functionName" "name".
Proof.
  intros nbsp. split; [|split].
  - exact (proj1 (proj2 (address_tests_differ_on (nbsp ++ "0X401000" ++ nbsp)
                           Samples.unreachable []))
             (or_introl eq_refl)).
  - exact (proj1 (proj2 (proj2 (address_tests_differ_on " 0x401000" Samples.unreachable []))
                    eq_refl eq_refl)
             eq_refl).
  - exact (proj2 (proj2 (proj2 (address_tests_differ_on "main" Samples.unreachable []))
                    eq_refl eq_refl)
             eq_refl).
Defined.

(** X3.  Whatever is sent as an address begins with a decimal digit: an
    identifier whose first character, once trimmed, is not a digit (a letter,
    an underscore, ...) is sent as a name by all six call sites, trimmed. *)
Theorem names_are_sent_as_names (s : string) (c : ascii) (rest : string)
    (net : remote) (log : list request) :
  trim s = String c rest -> is_digit c = false ->
  identifier_sent net log s (trim s) "name" "functionName" "name".
Proof.
  intros Ht Hc.
  assert (Hprefix : starts_with_0x (trim s) = false).
  { rewrite Ht. unfold starts_with_0x, startsWith. cbn [String.prefix].
    destruct (ascii_dec "0" c) as [<-|_]; [discriminate Hc | reflexivity]. }
  assert (Hrule : looks_like_address (trim s) = false).
  { rewrite address_tests_formula, Hprefix, Ht.
    unfold startsWith. cbn [String.prefix test_digits all_digits orb].
    rewrite Hc. destruct (ascii_dec "0" c) as [<-|_]; [discriminate Hc | reflexivity]. }
  pose proof (identifier_sent_by_tests net log s) as Hsent.
  now rewrite Hrule, Hprefix in Hsent.
Qed.

Lemma names_are_sent_as_names_main :
  let bom := String (ascii_of_nat 239)
               (String (ascii_of_nat 187) (String (ascii_of_nat 191) EmptyString)) in
  identifier_sent Samples.unreachable [] (bom ++ " main ") "main"
    "name" "functionName" "name".
Proof.
  intros bom.
  exact (names_are_sent_as_names (bom ++ " main ") "m" "ain" Samples.unreachable []
           eq_refl eq_refl).
Defined.

(** ** Listings *)

Lemma split_newline_count (s : string) :
  List.length (split_newline s) = S (count_newlines s).
Proof.
  induction s as [|c s IH]; [reflexivity|].
  cbn [split_newline count_newlines].
  destruct (Ascii.eqb c newline); cbn [List.length]; [now rewrite IH|].
  destruct (split_newline s); cbn [List.length] in *; [discriminate | exact IH].
Qed.

Lemma split_newline_clean (s : string) :
  Forall (fun l => has_char newline l = false) (split_newline s).
Proof.
  induction s as [|c s IH]; [repeat constructor|].
  cbn [split_newline]. destruct (Ascii.eqb c newline) eqn:E.
  - constructor; [reflexivity | exact IH].
  - destruct (split_newline s) as [|l ls]; [repeat constructor|].
    + cbn [has_char]. now rewrite Ascii.eqb_sym, E.
    + inversion IH; subst. constructor; [|assumption].
      cbn [has_char]. now rewrite Ascii.eqb_sym, E.
Qed.

Lemma count_newlines_trailing (t : string) : (1 <= count_newlines (t ++ LF))%nat.
Proof.
  induction t as [|c t IH]; cbn [append count_newlines]; [|lia].
  unfold LF. cbn [count_newlines]. rewrite Ascii.eqb_refl. lia.
Qed.

Lemma split_newline_trailing (t : string) :
  last (split_newline (t ++ LF)) "?" = "".
Proof.
  induction t as [|c t IH]; [reflexivity|].
  pose proof (split_newline_count (t ++ LF)) as Hlen.
  pose proof (count_newlines_trailing t) as Hcount.
  cbn [append split_newline].
  destruct (split_newline (t ++ LF)) as [|l [|l' ls]]; cbn [List.length] in Hlen;
    [lia | lia |].
  destruct (Ascii.eqb c newline); exact IH.
Qed.

Section Listings.

Import BinjaHttpClient.

Variables (net : remote) (log : list request).

(** X4.  The listing handlers split the text they fetch into lines only to
    join the lines again: with one request each they show exactly the text
    [getText] returned, the response body for a success status, a final
    newline included.  [search_functions_by_name] refuses an empty query
    without any request. *)
Theorem listings_show_the_text_fetched :
  (forall offset limit,
     shows_text net log (Tools.list_data_items offset limit) "data" (Tools.paging offset limit) /\
     shows_text net log (Tools.list_classes offset limit) "classes" (Tools.paging offset limit) /\
     shows_text net log (Tools.list_namespaces offset limit) "namespaces"
       (Tools.paging offset limit) /\
     shows_text net log (Tools.list_segments offset limit) "segments" (Tools.paging offset limit) /\
     shows_text net log (Tools.list_imports offset limit) "imports" (Tools.paging offset limit) /\
     shows_text net log (Tools.list_exports offset limit) "exports" (Tools.paging offset limit) /\
     shows_text net log (Tools.list_strings offset limit) "strings" (Tools.paging offset limit)) /\
  (forall offset count filter,
     shows_text net log (Tools.list_strings_filter offset count filter) "strings/filter"
       [("offset", PNum offset); ("limit", PNum count); ("filter", PStr filter)]) /\
  (forall offset count libs,
     shows_text net log (Tools.list_local_types offset count libs) "localTypes"
       [("offset", PNum offset); ("limit", PNum count);
        ("includeLibraries", PNum (if libs then 1 else 0))]) /\
  (forall query offset count libs,
     shows_text net log (Tools.search_types query offset count libs) "searchTypes"
       [("query", PStr query); ("offset", PNum offset); ("limit", PNum count);
        ("includeLibraries", PNum (if libs then 1 else 0))]) /\
  (forall name,
     shows_text net log (Tools.get_user_defined_type name) "getUserDefinedType"
       [("name", PStr name)] /\
     shows_text net log (Tools.get_xrefs_to_struct name) "getXrefsToStruct" [("name", PStr name)] /\
     shows_text net log (Tools.get_xrefs_to_type name) "getXrefsToType" [("name", PStr name)] /\
     shows_text net log (Tools.get_xrefs_to_enum name) "getXrefsToEnum" [("name", PStr name)] /\
     shows_text net log (Tools.get_xrefs_to_union name) "getXrefsToUnion" [("name", PStr name)]) /\
  (forall address,
     shows_text net log (Tools.get_xrefs_to address) "getXrefsTo" [("address", PStr address)] /\
     shows_text net log (Tools.function_at address) "functionAt" [("address", PStr address)]) /\
  (forall struct_name field_name,
     shows_text net log (Tools.get_xrefs_to_field struct_name field_name) "getXrefsToField"
       [("struct", PStr struct_name); ("field", PStr field_name)]) /\
  (forall address text size,
     shows_text net log (Tools.format_value address text size) "formatValue"
       [("address", PStr address); ("text", PStr text); ("size", PNum size)]) /\
  (forall query offset limit,
     String.eqb query "" = false ->
     shows_text net log (Tools.search_functions_by_name query offset limit) "searchFunctions"
       [("query", PStr query); ("offset", PNum offset); ("limit", PNum limit)]) /\
  (forall offset limit,
     Tools.search_functions_by_name "" offset limit net log
     = (Returned (Text "Error: query string is required"), log)).
Proof.
  unfold shows_text.
  repeat split; intros; try apply lines_shown_again.
  unfold Tools.search_functions_by_name. rewrite H. apply lines_shown_again.
Qed.

(** X5.  [getLines] returns one line more than the text has newline
    characters, none of which holds a newline; a text that ends with a
    newline gives a last line that is empty, and the first line is the text
    before the first newline. *)
Theorem getLines_shape (ep : string) (ps : params) (tmo : option Z) :
  exists lines,
    getLines ep ps tmo net log = (Returned lines, (log ++ [text_request ep ps tmo])%list) /\
    let text := text_result ep (answer_text net (List.length log) (text_request ep ps tmo)) in
    List.length lines = S (count_newlines text) /\
    Forall (fun l => has_char newline l = false) lines /\
    nth_error lines 0 = Some (before_newline text) /\
    join LF lines = text /\
    (forall t, text = t ++ LF -> last lines "?" = "").
Proof.
  eexists. split; [apply getLines_run|]. cbv zeta.
  split; [apply split_newline_count|].
  split; [apply split_newline_clean|].
  split; [apply split_newline_head|].
  split; [apply join_split_newline|].
  intros t ->. apply split_newline_trailing.
Qed.

End Listings.

Lemma listings_show_the_text_fetched_on_sample :
  Tools.search_functions_by_name "init" 0 100
    (Samples.constant JNull ("init_a" ++ LF ++ "init_b" ++ LF)) []
  = (Returned (Text ("init_a" ++ LF ++ "init_b" ++ LF)),
     [BinjaHttpClient.text_request "searchFunctions"
        [("query", PStr "init"); ("offset", PNum 0); ("limit", PNum 100)] None]).
Proof.
  pose proof (listings_show_the_text_fetched
                (Samples.constant JNull ("init_a" ++ LF ++ "init_b" ++ LF)) [])
    as (_ & _ & _ & _ & _ & _ & _ & _ & H & _).
  exact (H "init" 0 100 eq_refl).
Defined.

Lemma getLines_shape_on_sample :
  exists lines,
    BinjaHttpClient.getLines "methods" [] None
      (Samples.constant JNull ("main" ++ LF ++ "start" ++ LF)) []
    = (Returned lines, [BinjaHttpClient.text_request "methods" [] None]) /\
    List.length lines = 3%nat /\ last lines "?" = "".
Proof.
  destruct (getLines_shape (Samples.constant JNull ("main" ++ LF ++ "start" ++ LF)) []
              "methods" [] None) as (lines & Hrun & Hlen & _ & _ & _ & Hlast).
  exists lines. split; [exact Hrun|]. split; [exact Hlen|].
  exact (Hlast ("main" ++ LF ++ "start") eq_refl).
Defined.

(** ** Failures seen through [getJson] *)

Lemma of_Z_head (z : Z) :
  exists c r, of_Z z = String c r /\ (is_digit c = true \/ c = "-"%char).
Proof.
  unfold of_Z. destruct (Z.to_int z) as [u|u].
  - destruct u; cbn; eauto 6.
  - cbn. eauto.
Qed.

Lemma is_index_word (k : string) (c : ascii) (r : string) (len : nat) :
  k = String c r -> is_digit c = false -> c <> "-"%char -> Js.is_index k len = false.
Proof.
  intros -> Hc Hm. unfold Js.is_index.
  apply not_true_is_false. intros H. apply existsb_exists in H as (i & _ & Hi).
  apply String.eqb_eq in Hi. unfold of_nat in Hi.
  destruct (of_Z_head (Z.of_nat i)) as (c' & r' & E & [Hd | Hd]);
    rewrite E in Hi; inversion Hi; subst; congruence.
Qed.

Lemma array_has_no_error (elems : list jsval) : Js.has_own "error" (JArr elems) = false.
Proof.
  cbn [Js.has_own]. rewrite (is_index_word "error" "e" "rror"); [reflexivity.. |].
  discriminate.
Qed.

Lemma carries_error_field_object (d : jsval) :
  BinjaHttpClient.carries_error_field d = true ->
  exists props m, d = JObj props /\ Js.lookup "error" props = Some m.
Proof.
  unfold BinjaHttpClient.carries_error_field.
  destruct d as [| |b|z|s|elems|props]; cbn [Js.truthy Js.typeof_object andb];
    try discriminate; try (rewrite andb_false_r; discriminate).
  - rewrite array_has_no_error. discriminate.
  - cbn [Js.has_own]. destruct (Js.lookup "error" props) as [m|] eqn:E; [|discriminate].
    intros _. now exists props, m.
Qed.

Lemma failed_json_result (reply : settled jsval) :
  failed reply ->
  exists props m, json_result reply = JObj props /\ Js.lookup "error" props = Some m.
Proof.
  unfold json_result. destruct reply as [r|e]; cbn [failed settle].
  - unfold validateStatus, BinjaHttpClient.ok_status. intros Hst. rewrite Hst.
    destruct (status r =? 0); cbn [orb]; cbv beta iota;
      [rewrite Hst | eexists _, _; split; reflexivity].
    destruct (BinjaHttpClient.carries_error_field (data r)) eqn:E.
    + now apply carries_error_field_object.
    + eexists _, _. split; reflexivity.
  - intros _. eexists _, _. split; reflexivity.
Qed.

Section Failures.

Import BinjaHttpClient.

Variables (net : remote) (log : list request).

(** X6.  Whenever the request is rejected or answered with a status outside
    200..299, what [getJson] returns is an object with an [error] field: the
    test ["error" in data] of the handlers sees every failure of the
    transport. *)
Theorem getJson_failure_has_error_field (ep : string) (ps : params) (tmo : option Z) :
  failed (answer_json net (List.length log) (json_request ep ps tmo)) ->
  exists props m,
    getJson ep ps tmo net log
      = (Returned (JObj props), (log ++ [json_request ep ps tmo])%list) /\
    Js.lookup "error" props = Some m.
Proof.
  intros H. rewrite getJson_run.
  destruct (failed_json_result _ H) as (props & m & -> & Hm). now exists props, m.
Qed.

Variable reply : settled jsval.
Hypothesis Hfailed : failed reply.

Ltac fail_with Hnext :=
  let props := fresh "props" in
  let m := fresh "m" in
  let Hd := fresh "Hd" in
  let Hm := fresh "Hm" in
  destruct (failed_json_result _ Hfailed) as (props & m & Hd & Hm);
  cbv zeta; rewrite bind_getJson, Hnext, Hd;
  cbn [Js.truthy negb has_property Js.has_own Js.prop Js.isArray];
  unfold bind, ret; rewrite ?Hm; cbn [fst].

(** X7.  When its request fails (rejected, or any status outside
    200..299), each of these handlers answers a text that begins with
    [Error: ]: [patch_bytes], [get_data_decl], [rename_multi_variables],
    [get_type_info], [convert_number], [declare_c_type] and [define_types];
    [fetch_disassembly] and [decompile_function], on a remote where every
    request fails so, answer the file header followed by such a text. *)
Theorem failures_shown_with_prefix :
  (next_json net log reply ->
   (forall address data save,
      exists msg, answers_text (Tools.patch_bytes address data save net log)
                    ("Error: " ++ msg)) /\
   (forall s length,
      exists msg, answers_text (Tools.get_data_decl s length net log) ("Error: " ++ msg)) /\
   (forall ps,
      exists msg, answers_text (Tools.rename_multi_variables_send ps net log)
                    ("Error: " ++ msg)) /\
   (forall name,
      exists msg, answers_text (Tools.get_type_info name net log) ("Error: " ++ msg)) /\
   (forall text size,
      exists msg, answers_text (Tools.convert_number text size net log)
                    ("Error: " ++ msg)) /\
   (forall decl,
      exists msg, answers_text (Tools.declare_c_type decl net log) ("Error: " ++ msg)) /\
   (forall code,
      exists msg, answers_text (Tools.define_types code net log) ("Error: " ++ msg))) /\
  (always_json net reply ->
   let header := Tools.file_header (active_filename (json_result reply)) in
   (forall name,
      exists msg, answers_text (Tools.fetch_disassembly name net log)
                    (header ++ "Error: " ++ msg)) /\
   (forall name,
      exists msg, answers_text (Tools.decompile_function name net log)
                    (header ++ "Error: " ++ msg))).
Proof.
  unfold answers_text. split.
  - intros Hnext. repeat split; intros.
    + unfold Tools.patch_bytes. fail_with Hnext. eexists; reflexivity.
    + unfold Tools.get_data_decl. fail_with Hnext. eexists; reflexivity.
    + unfold Tools.rename_multi_variables_send. fail_with Hnext. eexists; reflexivity.
    + unfold Tools.get_type_info. fail_with Hnext. eexists; reflexivity.
    + unfold Tools.convert_number. fail_with Hnext. eexists; reflexivity.
    + unfold Tools.declare_c_type. fail_with Hnext. eexists; reflexivity.
    + unfold Tools.define_types. fail_with Hnext. eexists; reflexivity.
  - intros Halways. cbv zeta. split; intros name.
    + unfold Tools.fetch_disassembly, bind at 1.
      rewrite getActiveFilename_run, Halways. fail_with (Halways (List.length
        (log ++ [json_request "status" [] None]))). eexists; reflexivity.
    + unfold Tools.decompile_function, bind at 1.
      rewrite getActiveFilename_run, Halways. fail_with (Halways (List.length
        (log ++ [json_request "status" [] None]))). eexists; reflexivity.
Qed.

End Failures.

Lemma getJson_failure_has_error_field_unreachable :
  exists props m,
    BinjaHttpClient.getJson "binaries" [] None Samples.unreachable []
      = (Returned (JObj props), [BinjaHttpClient.json_request "binaries" [] None]) /\
    Js.lookup "error" props = Some m.
Proof.
  exact (getJson_failure_has_error_field Samples.unreachable [] "binaries" [] None I).
Defined.

Lemma failures_shown_with_prefix_unreachable :
  (exists msg, answers_text (Tools.patch_bytes "0x401000" "90" true Samples.unreachable [])
                 ("Error: " ++ msg)) /\
  (exists msg, answers_text (Tools.fetch_disassembly "main" Samples.unreachable [])
                 ("File: (none)" ++ LF ++ LF ++ "Error: " ++ msg)).
Proof.
  destruct (failures_shown_with_prefix Samples.unreachable []
              (Rejects (AxiosError None true "connect ECONNREFUSED")) I) as [H1 H2].
  split.
  - exact (proj1 (H1 (fun _ => eq_refl)) "0x401000" "90" true).
  - exact (proj1 (H2 (fun _ _ => eq_refl)) "main").
Defined.

Section FailuresWithoutPrefix.

Import BinjaHttpClient.

Variables (net : remote) (log : list request) (reply : settled jsval).

Ltac object_result Hnext Hd :=
  cbv zeta; rewrite bind_getJson, Hnext, Hd;
  cbn [Js.truthy negb has_property Js.has_own Js.prop Js.isArray];
  unfold bind, ret.

(** X8.  When its request fails, [get_stack_frame_vars] answers the empty
    text, as for a function without stack variables; [get_entry_points] and
    [list_sections] answer [Error: no response] whatever the message, and
    [list_sections] then skips its status query; [list_binaries] answers the
    message alone; [select_binary], [make_function_at] and [list_platforms]
    answer the error object printed as indented JSON. *)
Theorem failures_shown_without_prefix :
  failed reply -> next_json net log reply ->
  exists props m,
    json_result reply = JObj props /\ Js.lookup "error" props = Some m /\
    (forall s, answers_text (Tools.get_stack_frame_vars s net log) "") /\
    answers_text (Tools.get_entry_points net log) "Error: no response" /\
    (forall offset limit,
       Tools.list_sections offset limit net log
       = (Returned (Text "Error: no response"),
          (log ++ [json_request "sections" (Tools.paging offset limit) None])%list)) /\
    answers_text (Tools.list_binaries net log) (Js.to_string m) /\
    (forall view, answers_text (Tools.select_binary view net log)
                    (JSON_stringify_indented "" (JObj props))) /\
    (forall address platform,
       answers_text (Tools.make_function_at address platform net log)
         (JSON_stringify_indented "" (JObj props))) /\
    answers_text (Tools.list_platforms net log) (JSON_stringify_indented "" (JObj props)).
Proof.
  intros Hfailed Hnext.
  destruct (failed_json_result _ Hfailed) as (props & m & Hd & Hm).
  exists props, m. unfold answers_text.
  split; [exact Hd|]. split; [exact Hm|].
  repeat split; intros.
  - unfold Tools.get_stack_frame_vars. object_result Hnext Hd. now rewrite Hm.
  - unfold Tools.get_entry_points. object_result Hnext Hd. now rewrite Hm.
  - unfold Tools.list_sections. object_result Hnext Hd. now rewrite Hm.
  - unfold Tools.list_binaries. object_result Hnext Hd. now rewrite Hm.
  - unfold Tools.select_binary. object_result Hnext Hd. now rewrite Hm.
  - unfold Tools.make_function_at. object_result Hnext Hd. now rewrite Hm.
  - unfold Tools.list_platforms. object_result Hnext Hd. now rewrite Hm.
Qed.

(** X9.  [rename_single_variable], [retype_variable] and
    [set_function_prototype] look for a [status] field before they look for
    an [error] field, and [set_local_variable_type] for the status [ok]: a
    result that has a status field is reported by it, and an error field
    beside it is not shown.  Only a response with a success status can
    bring such a result:
    for any other status the body is not looked at and the answer is
    [Error: Request failed: Server returned <status>: <statusText>]. *)
Theorem status_hides_error (props : list (string * jsval)) (v : jsval) :
  next_json net log reply ->
  (json_result reply = JObj props -> Js.lookup "status" props = Some v ->
   (forall f x n, answers_text (Tools.rename_single_variable f x n net log)
                    (Js.to_string v)) /\
   (forall f x t, answers_text (Tools.retype_variable f x t net log) (Js.to_string v)) /\
   (forall s prototype,
      answers_text (Tools.set_function_prototype s prototype net log)
        ("Applied prototype at " ++ Js.to_string (Js.prop (JObj props) "address")
           ++ ": " ++ Js.to_string (Js.prop (JObj props) "applied_type"))) /\
   (v = JStr "ok" ->
    forall f x t,
      answers_text (Tools.set_local_variable_type f x t net log)
        ("Retyped " ++ Js.to_string (Js.prop (JObj props) "variable") ++ " in "
           ++ Js.to_string (Js.prop (JObj props) "function") ++ " to "
           ++ Js.to_string (Js.prop (JObj props) "applied_type")))) /\
  (forall r, reply = Resolves r -> ok_status (status r) = false -> status r <> 0 ->
   let shown := "Error: Request failed: Server returned " ++ of_Z (status r) ++ ": "
                  ++ statusText r in
   (forall f x n, answers_text (Tools.rename_single_variable f x n net log) shown) /\
   (forall f x t, answers_text (Tools.retype_variable f x t net log) shown) /\
   (forall s prototype,
      answers_text (Tools.set_function_prototype s prototype net log) shown) /\
   (forall f x t, answers_text (Tools.set_local_variable_type f x t net log) shown)).
Proof.
  intros Hnext. unfold answers_text. split.
  - intros Hd Hv. repeat split; intros.
    + unfold Tools.rename_single_variable, Tools.status_then_error.
      object_result Hnext Hd. now rewrite Hv.
    + unfold Tools.retype_variable, Tools.status_then_error.
      object_result Hnext Hd. now rewrite Hv.
    + unfold Tools.set_function_prototype. object_result Hnext Hd. now rewrite Hv.
    + subst v. unfold Tools.set_local_variable_type. object_result Hnext Hd.
      now rewrite Hv.
  - intros r Hr Hst H0. cbv zeta.
    assert (Hd : json_result reply
                 = JObj [("error", JStr ("Request failed: Server returned "
                                           ++ of_Z (status r) ++ ": " ++ statusText r))]).
    { subst reply. unfold json_result. now rewrite (settle_refused _ Hst H0). }
    repeat split; intros.
    + unfold Tools.rename_single_variable, Tools.status_then_error.
      object_result Hnext Hd. reflexivity.
    + unfold Tools.retype_variable, Tools.status_then_error.
      object_result Hnext Hd. reflexivity.
    + unfold Tools.set_function_prototype. object_result Hnext Hd. reflexivity.
    + unfold Tools.set_local_variable_type. object_result Hnext Hd. reflexivity.
Qed.

(** X10.  A reply with a success status whose body is a non-empty string, a
    number other than zero or [true] (a body that is not JSON is handed over
    as a string) makes every handler that tests ["error" in data] throw a
    TypeError instead of answering. *)
Theorem primitive_body_makes_handlers_throw (r : response jsval) :
  reply = Resolves r -> ok_status (status r) = true ->
  truthy_primitive (data r) = true -> next_json net log reply ->
  (forall address data save, throws (Tools.patch_bytes address data save net log)) /\
  (forall s length, throws (Tools.get_data_decl s length net log)) /\
  (forall ps, throws (Tools.rename_multi_variables_send ps net log)) /\
  (forall s, throws (Tools.get_stack_frame_vars s net log)) /\
  throws (Tools.list_binaries net log) /\
  (forall s prototype, throws (Tools.set_function_prototype s prototype net log)) /\
  throws (Tools.get_entry_points net log) /\
  (forall offset limit, throws (Tools.list_sections offset limit net log)) /\
  (forall name, throws (Tools.get_type_info name net log)) /\
  (forall text size, throws (Tools.convert_number text size net log)) /\
  (forall decl, throws (Tools.declare_c_type decl net log)) /\
  (forall code, throws (Tools.define_types code net log)) /\
  (forall view, throws (Tools.select_binary view net log)) /\
  (forall address platform, throws (Tools.make_function_at address platform net log)) /\
  throws (Tools.list_platforms net log) /\
  (forall f x n, throws (Tools.rename_single_variable f x n net log)) /\
  (forall f x t, throws (Tools.retype_variable f x t net log)) /\
  (forall f x t, throws (Tools.set_local_variable_type f x t net log)) /\
  (forall fuel batch_size,
     exists e, fst (Tools.list_all_strings (S fuel) batch_size net log) = Threw e).
Proof.
  intros -> Hok Hprim Hnext. unfold throws.
  repeat split; intros;
    unfold Tools.patch_bytes, Tools.get_data_decl, Tools.rename_multi_variables_send,
      Tools.get_stack_frame_vars, Tools.list_binaries, Tools.set_function_prototype,
      Tools.get_entry_points, Tools.list_sections, Tools.get_type_info,
      Tools.convert_number, Tools.declare_c_type, Tools.define_types,
      Tools.select_binary, Tools.make_function_at, Tools.list_platforms,
      Tools.rename_single_variable, Tools.retype_variable, Tools.status_then_error,
      Tools.set_local_variable_type, Tools.list_all_strings;
    cbv zeta;
    first [ rewrite bind_getJson
          | unfold bind at 1; cbn [Tools.list_all_strings_loop]; rewrite bind_getJson ];
    rewrite Hnext, (json_result_ok _ Hok);
    destruct (data r) as [| |b0|z0|s0|elems0|props0]; try discriminate;
    cbn [truthy_primitive] in Hprim; cbn [Js.truthy]; rewrite Hprim;
    cbn [negb has_property Js.isArray Js.prop Tools.is_str];
    unfold bind, throw; cbn [fst]; eexists; reflexivity.
Qed.

(** X11.  A reply with a success status and a falsy body ([null], the empty
    string of an empty response, [0], [false]) is answered
    [Error: no response]; [get_stack_frame_vars] answers the empty text and
    [list_all_strings] an empty listing. *)
Theorem falsy_body_is_no_response (r : response jsval) :
  reply = Resolves r -> ok_status (status r) = true ->
  Js.truthy (data r) = false -> next_json net log reply ->
  (forall address data save,
     answers_text (Tools.patch_bytes address data save net log) "Error: no response") /\
  (forall s length,
     answers_text (Tools.get_data_decl s length net log) "Error: no response") /\
  (forall ps,
     answers_text (Tools.rename_multi_variables_send ps net log) "Error: no response") /\
  answers_text (Tools.list_binaries net log) "Error: no response" /\
  (forall s prototype,
     answers_text (Tools.set_function_prototype s prototype net log) "Error: no response") /\
  answers_text (Tools.get_entry_points net log) "Error: no response" /\
  (forall offset limit,
     answers_text (Tools.list_sections offset limit net log) "Error: no response") /\
  (forall name, answers_text (Tools.get_type_info name net log) "Error: no response") /\
  (forall text size,
     answers_text (Tools.convert_number text size net log) "Error: no response") /\
  (forall decl, answers_text (Tools.declare_c_type decl net log) "Error: no response") /\
  (forall code, answers_text (Tools.define_types code net log) "Error: no response") /\
  (forall view, answers_text (Tools.select_binary view net log) "Error: no response") /\
  (forall address platform,
     answers_text (Tools.make_function_at address platform net log) "Error: no response") /\
  answers_text (Tools.list_platforms net log) "Error: no response" /\
  (forall f x n,
     answers_text (Tools.rename_single_variable f x n net log) "Error: no response") /\
  (forall f x t, answers_text (Tools.retype_variable f x t net log) "Error: no response") /\
  (forall f x t,
     answers_text (Tools.set_local_variable_type f x t net log) "Error: no response") /\
  (forall s, answers_text (Tools.get_stack_frame_vars s net log) "") /\
  (forall fuel batch_size,
     fst (Tools.list_all_strings (S fuel) batch_size net log) = Returned (Some (Text ""))).
Proof.
  intros -> Hok Hfalsy Hnext. unfold answers_text.
  repeat split; intros;
    unfold Tools.patch_bytes, Tools.get_data_decl, Tools.rename_multi_variables_send,
      Tools.get_stack_frame_vars, Tools.list_binaries, Tools.set_function_prototype,
      Tools.get_entry_points, Tools.list_sections, Tools.get_type_info,
      Tools.convert_number, Tools.declare_c_type, Tools.define_types,
      Tools.select_binary, Tools.make_function_at, Tools.list_platforms,
      Tools.rename_single_variable, Tools.retype_variable, Tools.status_then_error,
      Tools.set_local_variable_type, Tools.list_all_strings;
    cbv zeta;
    first [ rewrite bind_getJson
          | unfold bind at 1; cbn [Tools.list_all_strings_loop]; rewrite bind_getJson ];
    rewrite Hnext, (json_result_ok _ Hok), Hfalsy;
    reflexivity.
Qed.

End FailuresWithoutPrefix.

Lemma failures_shown_without_prefix_unreachable :
  answers_text (Tools.get_stack_frame_vars "main" Samples.unreachable []) "" /\
  answers_text (Tools.get_entry_points Samples.unreachable []) "Error: no response" /\
  answers_text (Tools.list_binaries Samples.unreachable [])
    ("Request failed: "
       ++ "No response from server - is Binary Ninja running with the MCP plugin?").
Proof.
  destruct (failures_shown_without_prefix Samples.unreachable []
              (Rejects (AxiosError None true "connect ECONNREFUSED")) I (fun _ => eq_refl))
    as (props & m & Hd & Hm & H1 & H2 & _ & H4 & _).
  inversion Hd; subst props. inversion Hm; subst m.
  split; [exact (H1 "main")|]. split; [exact H2 | exact H4].
Defined.

Lemma status_hides_error_on_sample :
  let body := [("error", JStr "Variable not found"); ("status", JStr "ok")] in
  answers_text (Tools.rename_single_variable "main" "v1" "count"
                  (Samples.constant (JObj body) "") []) "ok" /\
  answers_text (Tools.rename_single_variable "main" "v1" "count"
                  (Samples.not_found (JObj body)) [])
    "Error: Request failed: Server returned 404: Not Found".
Proof.
  intros body. split.
  - exact (proj1 (proj1 (status_hides_error (Samples.constant (JObj body) "") []
                           (Samples.ok_json (JObj body)) body (JStr "ok")
                           (fun _ => eq_refl))
                    eq_refl eq_refl)
             "main" "v1" "count").
  - exact (proj1 (proj2 (status_hides_error (Samples.not_found (JObj body)) []
                           (Resolves {| status := 404; statusText := "Not Found";
                                        data := JObj body |})
                           body (JStr "ok") (fun _ => eq_refl))
                    _ eq_refl eq_refl ltac:(discriminate))
             "main" "v1" "count").
Defined.

Lemma primitive_body_makes_handlers_throw_on_sample :
  throws (Tools.patch_bytes "0x401000" "90" true
            (Samples.constant (JStr "<html>busy</html>") "") []).
Proof.
  exact (proj1 (primitive_body_makes_handlers_throw
                  (Samples.constant (JStr "<html>busy</html>") "") [] _
                  {| status := 200; statusText := "OK"; data := JStr "<html>busy</html>" |}
                  eq_refl eq_refl eq_refl (fun _ => eq_refl))
           "0x401000" "90" true).
Defined.

Lemma falsy_body_is_no_response_on_sample :
  answers_text (Tools.patch_bytes "0x401000" "90" true (Samples.constant (JStr "") "") [])
    "Error: no response".
Proof.
  exact (proj1 (falsy_body_is_no_response (Samples.constant (JStr "") "") [] _
                  {| status := 200; statusText := "OK"; data := JStr "" |}
                  eq_refl eq_refl eq_refl (fun _ => eq_refl))
           "0x401000" "90" true).
Defined.

(** ** The aggregation loop over any number of pages *)

Lemma page_requests_S (b offset : Z) (m : nat) :
  page_requests b offset (S m) = strings_request b offset :: page_requests b (offset + b) m.
Proof.
  unfold page_requests. cbn [seq map]. f_equal.
  - f_equal. lia.
  - rewrite <- seq_shift, map_map. apply map_ext. intros i. f_equal. lia.
Qed.

Lemma page_requests_length (b offset : Z) (m : nat) :
  List.length (page_requests b offset m) = m.
Proof. unfold page_requests. now rewrite length_map, length_seq. Qed.

Lemma serves_full_pages_tail (net : remote) (b offset : Z) (start : nat)
    (p : list jsval) (pages : list (list jsval)) :
  serves_full_pages net b offset start (p :: pages) ->
  serves_full_pages net b (offset + b) (S start) pages.
Proof.
  intros H i q Hq. destruct (H (S i) q Hq) as (H1 & H2 & H3 & H4).
  repeat split; try assumption.
  replace (S start + i)%nat with (start + S i)%nat by lia.
  replace (offset + b + Z.of_nat i * b) with (offset + Z.of_nat (S i) * b) by lia.
  exact H4.
Qed.

Section ManyPages.

Variables (net : remote) (b : Z).

(** The loop passes the full pages it is served and goes on with what
    follows them. *)
Lemma loop_full_pages (pages : list (list jsval)) :
  forall (fuel : nat) (offset : Z) (results : list string) (log : list request),
    serves_full_pages net b offset (List.length log) pages ->
    Tools.list_all_strings_loop (List.length pages + fuel) b offset results net log
    = Tools.list_all_strings_loop fuel b (offset + Z.of_nat (List.length pages) * b)
        (results ++ map record_of (concat pages))%list net
        (log ++ page_requests b offset (List.length pages))%list.
Proof.
  induction pages as [|p pages IH]; intros fuel offset results log Hserve.
  - cbn [List.length concat map Nat.add page_requests seq].
    rewrite !app_nil_r. f_equal. lia.
  - destruct (Hserve 0%nat p eq_refl) as (Hne & Hfull & Hentries & Hpage).
    rewrite Nat.add_0_r in Hpage.
    replace (offset + Z.of_nat 0 * b) with offset in Hpage by lia.
    cbn [List.length Nat.add].
    rewrite (loop_page net b _ offset results log p Hpage Hentries), Hfull.
    destruct p as [|x p']; [congruence|]. cbn [List.length Nat.eqb].
    rewrite IH.
    + rewrite page_requests_S. cbn [concat]. rewrite map_app, <- !app_assoc.
      cbn [app]. f_equal. lia.
    + rewrite length_app. cbn [List.length].
      replace (List.length log + 1)%nat with (S (List.length log)) by lia.
      eapply serves_full_pages_tail. exact Hserve.
Qed.

(** X12.  Served any number of full pages and then a page shorter than the
    batch size (an empty one included), the loop stops after exactly one
    request per page, at offsets 0, b, 2b, ..., and returns the records of
    all entries in the order served; this holds for every amount of fuel
    that allows that many turns. *)
Theorem list_all_strings_any_number_of_pages
    (pages : list (list jsval)) (short : list jsval) (fuel : nat) :
  serves_full_pages net b 0 0 pages ->
  page_at net (List.length pages)
    (strings_request b (Z.of_nat (List.length pages) * b)) short ->
  Forall entry short -> Z.of_nat (List.length short) < b ->
  (List.length pages < fuel)%nat ->
  let records := map record_of (concat pages ++ short) in
  let sent := page_requests b 0 (S (List.length pages)) in
  run (Tools.list_all_strings_loop fuel b 0 []) net = (Returned (Some records), sent) /\
  run (Tools.list_all_strings fuel b) net
    = (Returned (Some (Text (join LF records))), sent) /\
  List.length sent = S (List.length pages) /\
  List.length records = (List.length (concat pages) + List.length short)%nat.
Proof.
  intros Hserve Hshort Hentries Hlt Hfuel records sent.
  assert (Hloop : run (Tools.list_all_strings_loop fuel b 0 []) net
                  = (Returned (Some records), sent)).
  { unfold run.
    replace fuel with (List.length pages + S (fuel - S (List.length pages)))%nat by lia.
    rewrite (loop_full_pages pages _ 0 [] [] Hserve).
    cbn [app Z.add].
    rewrite (loop_page net b _ _ _ _ short).
    - subst records sent. rewrite map_app.
      replace (Z.of_nat (List.length short) <? b) with true by (symmetry; now apply Z.ltb_lt).
      assert (Hsent : (page_requests b 0 (List.length pages)
                         ++ [strings_request b (Z.of_nat (List.length pages) * b)])%list
                      = page_requests b 0 (S (List.length pages))).
      { unfold page_requests. rewrite seq_S, map_app. reflexivity. }
      rewrite Hsent.
      destruct (List.length short =? 0)%nat eqn:E; [|reflexivity].
      apply Nat.eqb_eq in E. destruct short; [|discriminate].
      cbn [map]. now rewrite app_nil_r.
    - rewrite page_requests_length. exact Hshort.
    - exact Hentries. }
  split; [exact Hloop|]. split.
  - unfold Tools.list_all_strings, run, bind. unfold run in Hloop. now rewrite Hloop.
  - split; [apply page_requests_length|].
    subst records. now rewrite length_map, length_app.
Qed.

(** X13.  When, after any number of full pages, the next request fails
    without a response body of its own (it is rejected), the loop stops and
    returns the records gathered so far: the listing is cut short and the
    text carries no sign of the failure. *)
Theorem list_all_strings_failure_cuts_listing
    (pages : list (list jsval)) (e : thrown) (fuel : nat) :
  serves_full_pages net b 0 0 pages ->
  answer_json net (List.length pages)
    (strings_request b (Z.of_nat (List.length pages) * b)) = Rejects e ->
  (List.length pages < fuel)%nat ->
  run (Tools.list_all_strings fuel b) net
  = (Returned (Some (Text (join LF (map record_of (concat pages))))),
     page_requests b 0 (S (List.length pages))).
Proof.
  intros Hserve He Hfuel.
  unfold Tools.list_all_strings, run, bind.
  replace fuel with (List.length pages + S (fuel - S (List.length pages)))%nat by lia.
  rewrite (loop_full_pages pages _ 0 [] [] Hserve). cbn [app Z.add].
  rewrite loop_no_strings.
  - unfold page_requests. rewrite seq_S, map_app. reflexivity.
  - cbv zeta. rewrite page_requests_length, He. right. split; reflexivity.
Qed.

Lemma format_entries_null (items : list jsval) (log : list request) :
  Exists (fun s => Js.is_nullish s = true) items ->
  exists e, Tools.mapM Tools.format_string_item items net log = (Threw e, log).
Proof.
  induction 1 as [s items Hs | s items _ IH].
  - cbn [Tools.mapM]. unfold bind at 1, Tools.format_string_item, bind at 1, member.
    rewrite Hs. unfold throw. eexists; reflexivity.
  - cbn [Tools.mapM]. unfold bind at 1.
    destruct (Js.is_nullish s) eqn:Hs.
    + unfold Tools.format_string_item, bind at 1, member. rewrite Hs. unfold throw.
      eexists; reflexivity.
    + rewrite (format_string_item_entry net s log Hs).
      destruct IH as [e He]. unfold bind. rewrite He. eexists; reflexivity.
Qed.

(** X14.  A page that holds [null] among its entries makes the handler
    throw a TypeError: the records of that page and of all pages before it
    are lost. *)
Theorem list_all_strings_null_entry_throws
    (pages : list (list jsval)) (bad : list jsval) (fuel : nat) :
  serves_full_pages net b 0 0 pages ->
  page_at net (List.length pages)
    (strings_request b (Z.of_nat (List.length pages) * b)) bad ->
  Exists (fun s => Js.is_nullish s = true) bad ->
  (List.length pages < fuel)%nat ->
  exists e,
    run (Tools.list_all_strings fuel b) net
    = (Threw e, page_requests b 0 (S (List.length pages))).
Proof.
  intros Hserve (rep & props & Hrep & Hok & Hdata & Hstrings) Hbad Hfuel.
  unfold Tools.list_all_strings, run, bind at 1.
  replace fuel with (List.length pages + S (fuel - S (List.length pages)))%nat by lia.
  rewrite (loop_full_pages pages _ 0 [] [] Hserve). cbn [app Z.add].
  cbn [Tools.list_all_strings_loop]. rewrite bind_getJson, page_requests_length.
  fold (strings_request b (Z.of_nat (List.length pages) * b)).
  rewrite Hrep. rewrite (json_result_ok _ Hok), Hdata.
  cbn [Js.truthy negb has_property Js.has_own Js.prop]. rewrite Hstrings.
  unfold bind at 1. cbn [ret negb].
  destruct bad as [|x bad']; [inversion Hbad|]. cbn [List.length Nat.eqb].
  destruct (format_entries_null (x :: bad')
              (page_requests b 0 (List.length pages)
                 ++ [strings_request b (Z.of_nat (List.length pages) * b)])%list Hbad)
    as [e He].
  unfold bind at 1. rewrite He. exists e.
  unfold page_requests. rewrite seq_S, map_app. reflexivity.
Qed.

(** X15.  The loop has no bound of its own: on a remote that answers every
    request with a full page it never stops, whatever the fuel. *)
Theorem list_all_strings_needs_a_short_page :
  (forall i rq, exists p,
      page_at net i rq p /\ p <> [] /\ (Z.of_nat (List.length p) <? b) = false /\
      Forall entry p) ->
  forall fuel offset results log,
    exists log',
      Tools.list_all_strings_loop fuel b offset results net log = (Returned None, log') /\
      List.length log' = (List.length log + fuel)%nat.
Proof.
  intros Hfull fuel. induction fuel as [|fuel IH]; intros offset results log.
  - exists log. split; [reflexivity | lia].
  - destruct (Hfull (List.length log) (strings_request b offset))
      as (p & Hpage & Hne & Hlong & Hentries).
    rewrite (loop_page net b fuel offset results log p Hpage Hentries), Hlong.
    destruct p as [|x p']; [congruence|]. cbn [List.length Nat.eqb].
    destruct (IH (offset + b) (results ++ map record_of (x :: p'))%list
                (log ++ [strings_request b offset])%list) as (log' & Hrun & Hlen).
    exists log'. split; [exact Hrun|]. rewrite Hlen, length_app. cbn [List.length]. lia.
Qed.

End ManyPages.

Lemma list_all_strings_any_number_of_pages_on_sample :
  run (Tools.list_all_strings 10 2) Samples.seven_strings
  = (Returned (Some (Text (join LF
       (map record_of
          [Samples.string_item "0x1000" "a"; Samples.string_item "0x1002" "bc";
           Samples.string_item "0x1005" "d"; Samples.string_item "0x1007" "ef";
           Samples.string_item "0x100a" "g"; Samples.string_item "0x100c" "hi";
           Samples.string_item "0x100f" "j"])))),
     page_requests 2 0 4).
Proof.
  refine (proj1 (proj2 (list_all_strings_any_number_of_pages Samples.seven_strings 2
    [[Samples.string_item "0x1000" "a"; Samples.string_item "0x1002" "bc"];
     [Samples.string_item "0x1005" "d"; Samples.string_item "0x1007" "ef"];
     [Samples.string_item "0x100a" "g"; Samples.string_item "0x100c" "hi"]]
    [Samples.string_item "0x100f" "j"] 10 _ _ _ _ _))).
  - intros [|[|[|i]]] p H; cbn in H; try (destruct i; discriminate);
      inversion H; subst p; (split; [discriminate|]); (split; [reflexivity|]);
      (split; [repeat constructor|]); do 2 eexists; repeat split.
  - do 2 eexists. repeat split.
  - repeat constructor.
  - cbn. lia.
  - cbn. lia.
Defined.

Lemma list_all_strings_failure_cuts_listing_on_sample :
  run (Tools.list_all_strings 10 2) Samples.two_pages_then_down
  = (Returned (Some (Text (join LF
       (map record_of
          [Samples.string_item "0x1000" "a"; Samples.string_item "0x1002" "bc";
           Samples.string_item "0x1005" "d"; Samples.string_item "0x1007" "ef"])))),
     page_requests 2 0 3).
Proof.
  refine (list_all_strings_failure_cuts_listing Samples.two_pages_then_down 2
    [[Samples.string_item "0x1000" "a"; Samples.string_item "0x1002" "bc"];
     [Samples.string_item "0x1005" "d"; Samples.string_item "0x1007" "ef"]]
    (AxiosError None true "socket hang up") 10 _ eq_refl _).
  - intros [|[|i]] p H; cbn in H; try (destruct i; discriminate);
      inversion H; subst p; (split; [discriminate|]); (split; [reflexivity|]);
      (split; [repeat constructor|]); do 2 eexists; repeat split.
  - cbn. lia.
Defined.

Lemma list_all_strings_null_entry_throws_on_sample :
  exists e,
    run (Tools.list_all_strings 1 500)
        (Samples.constant (JObj [("strings", JArr [Samples.string_item "0x1000" "a"; JNull])])
           "")
    = (Threw e, page_requests 500 0 1).
Proof.
  refine (list_all_strings_null_entry_throws
            (Samples.constant
               (JObj [("strings", JArr [Samples.string_item "0x1000" "a"; JNull])]) "")
            500 [] [Samples.string_item "0x1000" "a"; JNull] 1 _ _ _ _).
  - intros [|i] p H; discriminate.
  - do 2 eexists. repeat split.
  - apply Exists_cons_tl, Exists_cons_hd. reflexivity.
  - cbn. lia.
Defined.

Lemma list_all_strings_needs_a_short_page_on_sample :
  exists log',
    Tools.list_all_strings_loop 5 2 0 []
      (Samples.constant
         (JObj [("strings",
                 JArr [Samples.string_item "0x1000" "a"; Samples.string_item "0x1002" "b"])])
         "") []
    = (Returned None, log') /\ List.length log' = 5%nat.
Proof.
  refine (list_all_strings_needs_a_short_page
            (Samples.constant
               (JObj [("strings",
                       JArr [Samples.string_item "0x1000" "a";
                             Samples.string_item "0x1002" "b"])]) "")
            2 _ 5%nat 0 [] []).
  intros i rq. eexists. split; [do 2 eexists; repeat split|].
  split; [discriminate|]. split; [reflexivity | repeat constructor].
Defined.

(** ** The command line and the environment *)

Lemma scan_args_exit (n : nat) :
  forall (args : list string) (h : string) (p : number) (code : Z),
    (List.length args <= n)%nat ->
    scan_args args h p = Exited code ->
    code = 0 /\ exists a, In a args /\ (a = "--help" \/ a = "-h").
Proof.
  induction n as [|n IH]; intros args h p code Hlen Hexit.
  - destruct args; [discriminate | cbn in Hlen; lia].
  - destruct args as [|arg rest]; [discriminate|].
    cbn [scan_args] in Hexit. cbn [List.length] in Hlen.
    destruct (String.eqb arg "--host").
    { destruct rest as [|v rest']; [discriminate|]. cbn [List.length] in Hlen.
      destruct (IH rest' v p code ltac:(lia) Hexit) as (Hc & a & Ha & Hh).
      split; [exact Hc|]. exists a. split; [right; right; exact Ha | exact Hh]. }
    destruct (String.eqb arg "--port").
    { destruct rest as [|v rest']; [discriminate|]. cbn [List.length] in Hlen.
      destruct (IH rest' h (parseInt v) code ltac:(lia) Hexit) as (Hc & a & Ha & Hh).
      split; [exact Hc|]. exists a. split; [right; right; exact Ha | exact Hh]. }
    destruct (String.eqb_spec arg "--help") as [->|_].
    { cbn [orb] in Hexit. inversion Hexit. split; [reflexivity|].
      exists "--help". split; [now left | now left]. }
    destruct (String.eqb_spec arg "-h") as [->|_].
    { cbn [orb] in Hexit. inversion Hexit. split; [reflexivity|].
      exists "-h". split; [now left | now right]. }
    cbn [orb] in Hexit.
    destruct (IH rest h p code ltac:(lia) Hexit) as (Hc & a & Ha & Hh).
    split; [exact Hc|]. exists a. split; [right; exact Ha | exact Hh].
Qed.

(** X16.  [parseArgs] leaves the process only with exit code 0 and only
    when [--help] or [-h] is among the arguments; whatever else the command
    line and the environment hold, it returns a configuration.  A help flag
    in the place of an option's value is taken as that value. *)
Theorem parseArgs_exits_only_for_help (argv : list string) (env : environment) :
  (forall code, parseArgs argv env = Exited code ->
     code = 0 /\ exists a, In a (skipn 2 argv) /\ (a = "--help" \/ a = "-h")) /\
  (forall h p,
     scan_args ["--host"; "--help"] h p = Parsed {| host := "--help"; port := p |}).
Proof.
  split; [|reflexivity].
  intros code. unfold parseArgs.
  destruct (scan_args (skipn 2 argv) "localhost" (Num 9009)) as [code'|c] eqn:E;
    [|discriminate].
  intros H. inversion H; subst code'.
  exact (scan_args_exit _ _ _ _ _ (le_n _) E).
Qed.

Lemma parseArgs_exits_only_for_help_on_sample :
  parseArgs ["node"; "index.js"; "--port"; "9010"; "-h"]
            {| BINJA_MCP_HOST := None; BINJA_MCP_PORT := None |} = Exited 0 /\
  exists a, In a ["--port"; "9010"; "-h"] /\ (a = "--help" \/ a = "-h").
Proof.
  split; [reflexivity|].
  exact (proj2 (proj1 (parseArgs_exits_only_for_help
                         ["node"; "index.js"; "--port"; "9010"; "-h"]
                         {| BINJA_MCP_HOST := None; BINJA_MCP_PORT := None |})
                  0 eq_refl)).
Defined.

(** X17.  A [BINJA_MCP_PORT] that [parseInt] cannot read, or reads as 0,
    leaves the port of the command line (or the default) in place, and an
    empty [BINJA_MCP_HOST] leaves the host in place.  The command line is not
    treated alike: an unreadable [--port] value makes the port NaN. *)
Theorem unusable_environment_is_ignored (argv : list string) (env : environment)
    (c0 : server_config) :
  scan_args (skipn 2 argv) "localhost" (Num 9009) = Parsed c0 ->
  (forall e, BINJA_MCP_PORT env = Some e ->
             parseInt e = NaN \/ parseInt e = Num 0 ->
             exists c, parseArgs argv env = Parsed c /\ port c = port c0) /\
  (BINJA_MCP_HOST env = Some "" \/ BINJA_MCP_HOST env = None ->
   exists c, parseArgs argv env = Parsed c /\ host c = host c0) /\
  (forall v, parseArgs ["node"; "index.js"; "--port"; v]
                       {| BINJA_MCP_HOST := None; BINJA_MCP_PORT := None |}
             = Parsed {| host := "localhost"; port := parseInt v |}).
Proof.
  intros Hscan. unfold parseArgs. rewrite Hscan. split; [|split].
  - intros e He Hbad. eexists. split; [reflexivity|]. cbn [port]. rewrite He.
    cbn [env_set]. destruct (String.eqb e ""); [reflexivity|].
    destruct Hbad as [-> | ->]; reflexivity.
  - intros Hhost. eexists. split; [reflexivity|]. cbn [host].
    destruct Hhost as [-> | ->]; reflexivity.
  - intros v. reflexivity.
Qed.

Lemma unusable_environment_is_ignored_on_sample :
  (exists c, parseArgs ["node"; "index.js"; "--port"; "9010"]
                       {| BINJA_MCP_HOST := Some ""; BINJA_MCP_PORT := Some "auto" |}
             = Parsed c /\ port c = Num 9010) /\
  (exists c, parseArgs ["node"; "index.js"; "--port"; "9010"]
                       {| BINJA_MCP_HOST := Some ""; BINJA_MCP_PORT := Some "auto" |}
             = Parsed c /\ host c = "localhost").
Proof.
  destruct (unusable_environment_is_ignored ["node"; "index.js"; "--port"; "9010"]
              {| BINJA_MCP_HOST := Some ""; BINJA_MCP_PORT := Some "auto" |}
              {| host := "localhost"; port := Num 9010 |} eq_refl) as (H1 & H2 & _).
  split; [exact (H1 "auto" eq_refl (or_introl eq_refl)) | exact (H2 (or_introl eq_refl))].
Defined.

Lemma digits_value_prefix (d t : string) (acc : Z) :
  all_digits d = true -> starts_with_digit_free t ->
  digits_value acc (d ++ t) = digits_value acc d.
Proof.
  revert acc. induction d as [|c d IH]; intros acc Hd Ht.
  - cbn [append digits_value]. destruct t as [|c t]; [reflexivity|].
    cbn [digits_value]. unfold starts_with_digit_free in Ht. now rewrite Ht.
  - cbn [all_digits] in Hd. apply andb_prop in Hd as [Hc Hd].
    cbn [append digits_value]. rewrite Hc. now apply IH.
Qed.

Lemma digit_not_white (c : ascii) : is_digit c = true -> is_white c = false.
Proof. destruct c as [[] [] [] [] [] [] [] []]; intros H; try reflexivity; discriminate H. Qed.

Lemma digit_not_lead (c d e : ascii) :
  is_digit c = true -> is_white2 c d = false /\ is_white3 c d e = false.
Proof.
  destruct c as [[] [] [] [] [] [] [] []]; intros H; try (split; reflexivity);
    discriminate H.
Qed.

Lemma digit_trimStart (c : ascii) (r : string) :
  is_digit c = true -> trimStart (String c r) = String c r.
Proof.
  intros H. apply trimStart_fixed. unfold starts_white. cbn [skip_white].
  rewrite (digit_not_white c H).
  destruct r as [|d [|e r]]; [reflexivity | |];
    destruct (digit_not_lead c d d H) as [-> _]; [reflexivity|].
  now destruct (digit_not_lead c d e H) as [_ ->].
Qed.

Lemma digit_not_sign (c : ascii) :
  is_digit c = true -> Ascii.eqb c "-" = false /\ Ascii.eqb c "+" = false.
Proof.
  destruct c as [[] [] [] [] [] [] [] []]; intros H; try (split; reflexivity);
    discriminate H.
Qed.

(** X18.  [parseInt] reads the digits a value begins with and ignores what
    follows them: a port given as digits followed by anything that is not a
    digit configures the same port as the digits alone, on the command line
    and in the environment. *)
Theorem port_read_up_to_first_non_digit (d t : string) :
  all_digits d = true -> d <> "" -> starts_with_digit_free t ->
  parseInt (d ++ t) = parseInt d /\
  parseInt d = Num (digits_value 0 d) /\
  (forall env, parseArgs ["node"; "index.js"; "--port"; d ++ t] env
               = parseArgs ["node"; "index.js"; "--port"; d] env) /\
  (forall argv h,
     parseArgs argv {| BINJA_MCP_HOST := h; BINJA_MCP_PORT := Some (d ++ t) |}
     = parseArgs argv {| BINJA_MCP_HOST := h; BINJA_MCP_PORT := Some d |}).
Proof.
  intros Hd Hne Ht.
  destruct d as [|c d']; [congruence|].
  pose proof Hd as Hall. cbn [all_digits] in Hd. apply andb_prop in Hd as [Hc Hd'].
  pose proof (digit_not_white c Hc) as Hw.
  destruct (digit_not_sign c Hc) as [Hm Hp].
  assert (H1 : parseInt (String c d') = Num (digits_value 0 (String c d'))).
  { unfold parseInt. rewrite (digit_trimStart _ _ Hc), Hm, Hp, Hc. reflexivity. }
  assert (H2 : parseInt (String c d' ++ t) = parseInt (String c d')).
  { rewrite H1. unfold parseInt. cbn [append].
    rewrite (digit_trimStart _ _ Hc), Hm, Hp, Hc.
    f_equal. exact (digits_value_prefix (String c d') t 0 Hall Ht). }
  split; [exact H2|]. split; [exact H1|]. split.
  - intros env.
    assert (Hscan : forall v, scan_args (skipn 2 ["node"; "index.js"; "--port"; v])
                                "localhost" (Num 9009)
                              = Parsed {| host := "localhost"; port := parseInt v |})
      by reflexivity.
    unfold parseArgs. now rewrite !Hscan, H2.
  - intros argv h. unfold parseArgs. cbn [BINJA_MCP_PORT BINJA_MCP_HOST].
    destruct (scan_args (skipn 2 argv) "localhost" (Num 9009)); [reflexivity|].
    assert (Hset : forall x, env_set (Some (String c x)) = Some (String c x))
      by reflexivity.
    change (String c d' ++ t) with (String c (d' ++ t)).
    rewrite !Hset.
    change (String c (d' ++ t)) with (String c d' ++ t). now rewrite H2.
Qed.

Lemma port_read_up_to_first_non_digit_on_sample :
  parseInt "9009/tcp" = Num 9009.
Proof.
  destruct (port_read_up_to_first_non_digit "9009" "/tcp" eq_refl
              ltac:(discriminate) eq_refl) as (H1 & H2 & _).
  rewrite H2 in H1. exact H1.
Defined.

(** ** POST *)

Section Posts.

Import BinjaHttpClient.

Variables (net : post_remote) (log : list post_call).

(** X19.  [post] never throws and makes exactly one call.  For a success
    status it returns the body without the white space around it; for any
    other status the promise rejects, the body is dropped and the result is
    [Error: POST <endpoint> failed: Server returned <status>: <statusText>];
    for a call without response it is
    [Error: POST <endpoint> failed: <message>].  The six
    handlers that POST ([rename_function], [rename_data], [set_comment],
    [delete_comment], [set_function_comment], [delete_function_comment])
    answer with that string; the two deletions go to the endpoint of the
    corresponding setter. *)
Theorem post_handlers_show_post_result (ep : string) (body : post_data) :
  let reply := net (List.length log) (post_request ep body) in
  (exists t, post ep body net log = (Returned t, (log ++ [post_request ep body])%list) /\
     (forall r, reply = Resolves r -> ok_status (status r) = true ->
        t = trim (data r) /\ starts_white t = false /\ ends_white t = false) /\
     (forall r, reply = Resolves r -> ok_status (status r) = false -> status r <> 0 ->
        t = "Error: POST " ++ ep ++ " failed: Server returned " ++ of_Z (status r)
              ++ ": " ++ statusText r) /\
     (forall e, reply = Rejects e ->
        t = "Error: POST " ++ ep ++ " failed: " ++ getErrorMessage e)) /\
  (forall a b,
     fst (Tools.rename_function a b net log)
     = Returned (Text (post_result "renameFunction"
                         (net (List.length log)
                            (post_request "renameFunction"
                               (PostObject [("oldName", JStr a); ("newName", JStr b)])))))) /\
  (forall a b,
     fst (Tools.rename_data a b net log)
     = Returned (Text (post_result "renameData"
                         (net (List.length log)
                            (post_request "renameData"
                               (PostObject [("address", JStr a); ("newName", JStr b)])))))) /\
  (forall a c,
     fst (Tools.set_comment a c net log)
     = Returned (Text (post_result "comment"
                         (net (List.length log)
                            (post_request "comment"
                               (PostObject [("address", JStr a); ("comment", JStr c)])))))) /\
  (forall a,
     fst (Tools.delete_comment a net log)
     = Returned (Text (post_result "comment"
                         (net (List.length log)
                            (post_request "comment"
                               (PostObject [("address", JStr a);
                                            ("_method", JStr "DELETE")])))))) /\
  (forall f c,
     fst (Tools.set_function_comment f c net log)
     = Returned (Text (post_result "comment/function"
                         (net (List.length log)
                            (post_request "comment/function"
                               (PostObject [("name", JStr f); ("comment", JStr c)])))))) /\
  (forall f,
     fst (Tools.delete_function_comment f net log)
     = Returned (Text (post_result "comment/function"
                         (net (List.length log)
                            (post_request "comment/function"
                               (PostObject [("name", JStr f);
                                            ("_method", JStr "DELETE")])))))).
Proof.
  cbv zeta. split.
  - eexists. split; [apply post_run|].
    split; [|split].
    + intros r -> Hok. rewrite (post_result_ok _ _ Hok).
      split; [reflexivity | apply trim_clean].
    + intros r -> Hok H0. unfold post_result. now rewrite (settle_refused _ Hok H0).
    + intros e ->. reflexivity.
  - repeat split; intros;
      unfold Tools.rename_function, Tools.rename_data, Tools.set_comment,
        Tools.delete_comment, Tools.set_function_comment, Tools.delete_function_comment;
      now rewrite post_text_run.
Qed.

End Posts.

Lemma post_handlers_show_post_result_on_sample :
  let nbsp := String (ascii_of_nat 194) (String (ascii_of_nat 160) EmptyString) in
  let net : post_remote := fun _ _ => Samples.ok_text (nbsp ++ " Comment set " ++ LF) in
  let broken : post_remote := fun _ _ =>
    Resolves {| status := 500; statusText := "Internal Server Error"; data := "boom" |} in
  (exists t,
     BinjaHttpClient.post "comment" (PostText "x") net []
       = (Returned t, [BinjaHttpClient.post_request "comment" (PostText "x")]) /\
     t = "Comment set") /\
  (exists t,
     BinjaHttpClient.post "comment" (PostText "x") broken []
       = (Returned t, [BinjaHttpClient.post_request "comment" (PostText "x")]) /\
     t = "Error: POST comment failed: Server returned 500: Internal Server Error").
Proof.
  intros nbsp net broken. split.
  - destruct (proj1 (post_handlers_show_post_result net [] "comment" (PostText "x")))
      as (t & Hrun & Hok & _).
    exists t. split; [exact Hrun|].
    exact (proj1 (Hok _ eq_refl eq_refl)).
  - destruct (proj1 (post_handlers_show_post_result broken [] "comment" (PostText "x")))
      as (t & Hrun & _ & Hbad & _).
    exists t. split; [exact Hrun|].
    exact (Hbad _ eq_refl eq_refl ltac:(discriminate)).
Defined.

(** ** The active file name *)

Section ActiveFile.

Import BinjaHttpClient.

Variables (net : remote) (log : list request).

Let status_rq := json_request "status" [] None.

(** X20.  [getActiveFilename] makes exactly one status request and never
    throws; what it returns is never falsy: [(none)] when the request is
    rejected, when the result is not an object, or when it has no usable
    [filename], and the file name otherwise.  So [list_methods] always goes
    on to its own request and shows [File: <name>] above the text fetched. *)
Theorem active_filename_never_blocks :
  exists f,
    Tools.getActiveFilename net log = (Returned f, (log ++ [status_rq])%list) /\
    Js.truthy f = true /\
    (forall e, answer_json net (List.length log) status_rq = Rejects e ->
               f = JStr "(none)") /\
    (forall r name,
       answer_json net (List.length log) status_rq = Resolves r ->
       ok_status (status r) = true ->
       Js.prop (data r) "filename" = JStr name -> Js.typeof_object (data r) = true ->
       Js.truthy (data r) = true -> String.eqb name "" = false ->
       f = JStr name) /\
    (forall offset limit,
       let rq := text_request "methods" (Tools.paging offset limit) None in
       Tools.list_methods offset limit net log
       = (Returned (Text ("File: " ++ Js.to_string f ++ LF
                            ++ text_result "methods"
                                 (answer_text net (S (List.length log)) rq))),
          (log ++ [status_rq; rq])%list)).
Proof.
  subst status_rq. eexists. split; [apply getActiveFilename_run|].
  split; [|split; [|split]].
  - unfold active_filename.
    destruct (_ && _ && _); [|reflexivity].
    unfold Js.or. destruct (Js.truthy (Js.prop _ _)) eqn:E; [exact E | reflexivity].
  - intros e ->. reflexivity.
  - intros r name -> Hok Hname Hobj Htruthy Hne.
    rewrite (json_result_ok _ Hok). unfold active_filename.
    rewrite Htruthy, Hobj, Hname. cbn [andb].
    assert (Hown : Js.has_own "filename" (data r) = true).
    { destruct (data r) as [| |b|z|s|elems|props]; try discriminate.
      - cbn [Js.prop] in Hname. cbn [Js.has_own].
        destruct (String.eqb "filename" "length"); [discriminate|].
        destruct (find _ _) as [[i x]|] eqn:Ef; [|discriminate].
        apply find_some in Ef as [_ Hi]. cbn [fst] in Hi.
        apply String.eqb_eq in Hi.
        destruct (of_Z_head (Z.of_nat i)) as (c & rr & Ec & [Hd|Hd]);
          unfold of_nat in Hi; rewrite Ec in Hi; inversion Hi; subst; discriminate.
      - cbn [Js.prop] in Hname. cbn [Js.has_own].
        destruct (Js.lookup "filename" props); [reflexivity | discriminate]. }
    rewrite Hown. unfold Js.or. cbn [Js.truthy]. now rewrite Hne.
  - intros offset limit rq. subst rq.
    unfold Tools.list_methods, bind at 1. rewrite getActiveFilename_run.
    unfold bind. rewrite getLines_run. unfold ret.
    rewrite join_split_newline, length_app, <- app_assoc. cbn [List.length app].
    replace (List.length log + 1)%nat with (S (List.length log)) by lia.
    reflexivity.
Qed.

(** X21.  For an identifier that, once trimmed, begins with [0x],
    [hexdump_data] is [hexdump_address] of the trimmed identifier: the same
    request to the same endpoint and the same answer. *)
Theorem hexdump_data_is_hexdump_address (s : string) (length : Z) :
  starts_with_0x (trim s) = true ->
  Tools.hexdump_data s length = Tools.hexdump_address (trim s) length.
Proof.
  intros H. unfold Tools.hexdump_data, Tools.hexdump_address. cbv zeta.
  now rewrite H.
Qed.

(** X22.  [get_binary_status] shows the status text up to its first
    newline only, and nothing for an empty text. *)
Theorem get_binary_status_keeps_first_line :
  let rq := text_request "status" [] None in
  let text := text_result "status" (answer_text net (List.length log) rq) in
  Tools.get_binary_status net log
    = (Returned (Text (before_newline text)), (log ++ [rq])%list) /\
  has_char newline (before_newline text) = false /\
  (forall pre post, text = pre ++ LF ++ post -> has_char newline pre = false ->
                    before_newline text = pre).
Proof.
  cbv zeta. split; [|split].
  - unfold Tools.get_binary_status, bind. rewrite getLines_run. unfold ret.
    rewrite split_newline_head.
    destruct (String.eqb_spec (before_newline
                (text_result "status"
                   (answer_text net (List.length log) (text_request "status" [] None)))) "")
      as [E|_]; [now rewrite E | reflexivity].
  - apply before_newline_clean.
  - intros pre post -> Hpre. now apply before_newline_cut.
Qed.

End ActiveFile.

Lemma active_filename_never_blocks_on_sample :
  exists f,
    Tools.getActiveFilename (Samples.constant (JObj [("filename", JStr "/bin/ls")]) "") []
    = (Returned f, [BinjaHttpClient.json_request "status" [] None]) /\
    f = JStr "/bin/ls".
Proof.
  destruct (active_filename_never_blocks
              (Samples.constant (JObj [("filename", JStr "/bin/ls")]) "") [])
    as (f & Hrun & _ & _ & Hname & _).
  exists f. split; [exact Hrun|].
  exact (Hname _ "/bin/ls" eq_refl eq_refl eq_refl eq_refl eq_refl eq_refl).
Defined.

Lemma hexdump_data_is_hexdump_address_on_sample :
  Tools.hexdump_data " 0x401000 " 16 = Tools.hexdump_address "0x401000" 16.
Proof. exact (hexdump_data_is_hexdump_address " 0x401000 " 16 eq_refl). Defined.

Lemma get_binary_status_keeps_first_line_on_sample :
  before_newline
    (text_result "status"
       (answer_text (Samples.constant JNull ("loaded: ls" ++ LF ++ "arch: x86_64"))
          0 (BinjaHttpClient.text_request "status" [] None)))
  = "loaded: ls".
Proof.
  exact (proj2 (proj2 (get_binary_status_keeps_first_line
                         (Samples.constant JNull ("loaded: ls" ++ LF ++ "arch: x86_64")) []))
           "loaded: ls" "arch: x86_64" eq_refl eq_refl).
Defined.

(** ** Records of entry points and sections *)

Section Records.

Import BinjaHttpClient.

Variables (net : remote) (log : list request).

Lemma format_entry_point_entry (ep : jsval) (lg : list request) :
  entry ep -> Tools.format_entry_point ep net lg = (Returned (entry_point_line ep), lg).
Proof.
  unfold entry, Tools.format_entry_point, member, bind. intros ->. reflexivity.
Qed.

Lemma format_section_entry (x : jsval) (lg : list request) :
  entry x -> Tools.format_section x net lg = (Returned (section_line x), lg).
Proof.
  unfold entry, Tools.format_section, member, bind. intros ->. reflexivity.
Qed.

Lemma format_entry_points (eps : list jsval) (lg : list request) :
  Forall entry eps ->
  Tools.mapM Tools.format_entry_point eps net lg = (Returned (map entry_point_line eps), lg).
Proof.
  induction 1 as [|ep eps Hep _ IH]; [reflexivity|].
  cbn [Tools.mapM map]. unfold bind at 1. rewrite (format_entry_point_entry _ _ Hep).
  unfold bind. now rewrite IH.
Qed.

Lemma format_sections (items : list jsval) (lg : list request) :
  Forall entry items ->
  Tools.mapM Tools.format_section items net lg = (Returned (map section_line items), lg).
Proof.
  induction 1 as [|x items Hx _ IH]; [reflexivity|].
  cbn [Tools.mapM map]. unfold bind at 1. rewrite (format_section_entry _ _ Hx).
  unfold bind. now rewrite IH.
Qed.

(** X23.  For a result without error field, [get_entry_points] shows one
    record per entry point, address and name separated by a tab with
    [(unknown)] for a missing name, and [list_sections] one record per section
    below the [File:] line, in the order served; a missing list gives no
    record.  [list_sections] asks for the file name only after the sections
    have arrived. *)
Theorem records_in_the_order_served
    (props : list (string * jsval)) (items : list jsval) :
  Js.lookup "error" props = None ->
  Forall entry items ->
  (Js.or (Js.prop (JObj props) "entry_points") (JArr []) = JArr items ->
   answers_object net log (json_request "entryPoints" [] None) props ->
   Tools.get_entry_points net log
   = (Returned (Text (join LF (map entry_point_line items))),
      (log ++ [json_request "entryPoints" [] None])%list)) /\
  (forall offset limit,
     let rq := json_request "sections" (Tools.paging offset limit) None in
     Js.or (Js.prop (JObj props) "sections") (JArr []) = JArr items ->
     answers_object net log rq props ->
     Tools.list_sections offset limit net log
     = (Returned (Text (join LF
          (("File: " ++ Js.to_string
                          (active_filename
                             (json_result (answer_json net (S (List.length log))
                                             (json_request "status" [] None)))))
             :: map section_line items))),
        (log ++ [rq; json_request "status" [] None])%list)).
Proof.
  intros Herr Hitems. split.
  - intros Hlist (rep & Hrep & Hok & Hdata).
    unfold Tools.get_entry_points. rewrite bind_getJson, Hrep.
    rewrite (json_result_ok _ Hok), Hdata.
    cbn [Js.truthy negb has_property Js.has_own]. rewrite Herr.
    unfold bind at 1. cbn [ret]. rewrite Hlist.
    unfold bind. rewrite (format_entry_points _ _ Hitems). reflexivity.
  - intros offset limit rq Hlist (rep & Hrep & Hok & Hdata). subst rq.
    unfold Tools.list_sections. rewrite bind_getJson, Hrep.
    rewrite (json_result_ok _ Hok), Hdata.
    cbn [Js.truthy negb has_property Js.has_own]. rewrite Herr.
    unfold bind at 1. cbn [ret]. unfold bind at 1. rewrite getActiveFilename_run.
    rewrite Hlist. cbn [Tools.iterate]. unfold bind at 1. cbn [ret].
    unfold bind. rewrite (format_sections _ _ Hitems). unfold ret.
    rewrite length_app, <- app_assoc. cbn [List.length app].
    replace (List.length log + 1)%nat with (S (List.length log)) by lia.
    reflexivity.
Qed.

End Records.

Lemma records_in_the_order_served_on_sample :
  let eps := [JObj [("address", JStr "0x1000")];
              JObj [("address", JStr "0x2000"); ("name", JStr "main")]] in
  Tools.get_entry_points (Samples.constant (JObj [("entry_points", JArr eps)]) "") []
  = (Returned (Text ("0x1000" ++ TAB ++ "(unknown)" ++ LF ++ "0x2000" ++ TAB ++ "main")),
     [BinjaHttpClient.json_request "entryPoints" [] None]).
Proof.
  intros eps.
  refine (proj1 (records_in_the_order_served
                   (Samples.constant (JObj [("entry_points", JArr eps)]) "") []
                   [("entry_points", JArr eps)] eps eq_refl _)
            eq_refl _).
  - repeat constructor.
  - eexists. repeat split.
Defined.

(** ** One request, no retry *)

Lemma silent_selector_text (v : jsval) : silent (Tools.selector_text v).
Proof. destruct v; cbn [Tools.selector_text]; first [apply silent_ret | apply silent_throw]. Qed.

Lemma silent_format_binary (it : jsval) : silent (Tools.format_binary it).
Proof. unfold Tools.format_binary. silence. Qed.

Lemma silent_format_entry_point (ep : jsval) : silent (Tools.format_entry_point ep).
Proof. unfold Tools.format_entry_point. silence. Qed.

Lemma silent_status_then_error (d : jsval) : silent (Tools.status_then_error d).
Proof. unfold Tools.status_then_error. silence. Qed.

Section NoRetry.

Import BinjaHttpClient.

Variables (net : remote) (log : list request).

Ltac one_request :=
  unfold sends_exactly; cbv zeta; rewrite one_json_request; [reflexivity|];
  intros; silence;
  first [ apply silent_format_binary | apply silent_format_entry_point
        | apply silent_selector_text | apply silent_status_then_error ].

(** X24.  A handler sends its request once, whatever comes back: a failure,
    an error object or an answer that makes it throw never leads to a second
    attempt or to any other request.  [rename_multi_variables] sends at most
    one request. *)
Theorem handlers_never_retry :
  (forall address data save,
     sends_exactly net log (Tools.patch_bytes address data save)
       [patch_request address data save]) /\
  sends_exactly net log Tools.list_binaries [json_request "binaries" [] None] /\
  sends_exactly net log Tools.get_entry_points [json_request "entryPoints" [] None] /\
  sends_exactly net log Tools.list_platforms [json_request "platforms" [] None] /\
  (forall name,
     sends_exactly net log (Tools.get_type_info name)
       [json_request "getTypeInfo" [("name", PStr name)] None]) /\
  (forall text size,
     sends_exactly net log (Tools.convert_number text size)
       [json_request "convertNumber" [("text", PStr text); ("size", PNum size)] None]) /\
  (forall decl,
     sends_exactly net log (Tools.declare_c_type decl)
       [json_request "declareCType" [("declaration", PStr decl)] None]) /\
  (forall code,
     sends_exactly net log (Tools.define_types code)
       [json_request "defineTypes" [("cCode", PStr code)] None]) /\
  (forall view,
     sends_exactly net log (Tools.select_binary view)
       [json_request "selectBinary" [("view", PStr view)] None]) /\
  (forall f x n,
     sends_exactly net log (Tools.rename_single_variable f x n)
       [json_request "renameVariable"
          [("functionName", PStr f); ("variableName", PStr x); ("newName", PStr n)] None]) /\
  (forall f x t,
     sends_exactly net log (Tools.retype_variable f x t)
       [json_request "retypeVariable"
          [("functionName", PStr f); ("variableName", PStr x); ("type", PStr t)] None]) /\
  (forall f x t,
     sends_exactly net log (Tools.set_local_variable_type f x t)
       [json_request "setLocalVariableType"
          [("functionAddress", PStr f); ("variableName", PStr x); ("newType", PStr t)]
          None]) /\
  (forall s, sends_exactly net log (Tools.get_stack_frame_vars s)
               [json_request "getStackFrameVars" [ident_param "name" s] None]) /\
  (forall s prototype,
     sends_exactly net log (Tools.set_function_prototype s prototype)
       [json_request "setFunctionPrototype"
          [("prototype", PStr prototype); ident_param "name" s] None]) /\
  (forall s length,
     sends_exactly net log (Tools.get_data_decl s length)
       [json_request "getDataDecl" (Tools.with_length [prefix_param s] length) None]) /\
  (forall id m p r,
     (List.length (snd (Tools.rename_multi_variables id m p r net log))
      <= S (List.length log))%nat).
Proof.
  repeat split; intros.
  - unfold Tools.patch_bytes, patch_request. one_request.
  - unfold Tools.list_binaries. one_request.
  - unfold Tools.get_entry_points. one_request.
  - unfold Tools.list_platforms. one_request.
  - unfold Tools.get_type_info. one_request.
  - unfold Tools.convert_number. one_request.
  - unfold Tools.declare_c_type. one_request.
  - unfold Tools.define_types. one_request.
  - unfold Tools.select_binary. one_request.
  - unfold Tools.rename_single_variable. one_request.
  - unfold Tools.retype_variable. one_request.
  - unfold Tools.set_local_variable_type. one_request.
  - unfold sends_exactly. apply get_stack_frame_vars_requests.
  - unfold sends_exactly. apply set_function_prototype_requests.
  - unfold sends_exactly. apply get_data_decl_requests.
  - unfold Tools.rename_multi_variables. cbv zeta.
    destruct (Tools.given r) as [x|].
    { destruct (JSON.parses x); [|cbn; lia].
      rewrite rename_multi_variables_send_requests, length_app. cbn. lia. }
    destruct (Tools.given m) as [x|].
    { destruct (JSON.parses x); [|cbn; lia].
      rewrite rename_multi_variables_send_requests, length_app. cbn. lia. }
    destruct (Tools.given p) as [x|]; [|cbn; lia].
    rewrite rename_multi_variables_send_requests, length_app. cbn. lia.
Qed.

End NoRetry.
